(** * Recurrent layers: keras/layers/recurrent.py

    A shallow embedding of the recurrent layers of [keras/layers/recurrent.py]
    ([Recurrent], [SimpleRNN], [GRU], [LSTM], [AttLSTMCond]) and the
    properties their specification states about them.

    Tensors hold real numbers: the arithmetic of the layers is read in its
    exact (real-number) semantics, not in floating point.  A tensor is a
    nested list in the layout the source documents, [(samples, time, dim)]
    for a 3-D input and [(samples, dim)] for a 2-D slice; its shape is the
    shape of the nested list. *)

From Stdlib Require Import String.
From Stdlib Require Import Reals Lra Lia List Bool Arith.
Import ListNotations.

(** ** Python values: exceptions and results *)

Module Py.

Inductive value_error : Type :=
| StateCountMismatch (n_states n_passed : nat)
    (* 'Layer has n states but was passed m initial states.' *)
| UnrollUndefinedTime
    (* 'Cannot unroll a RNN if the time dimension is undefined. ...' *)
| BatchSizeUnknown
    (* 'If a RNN is stateful, it needs to know its batch size. ...' *)
| ResetCountMismatch (expected received : nat)
    (* 'Layer <name> expects n states, but it received m state values.' *)
| ResetShapeMismatch (index : nat) (expected found : list nat)
    (* 'State i is incompatible with layer <name>: expected shape=...' *)
| UnknownImplementation.
    (* 'Unknown `implementation` mode.' *)

Inductive exn : Type :=
| ValueError (why : value_error)
| AttributeError (msg : string)
| IndexError
| TypeError
| NotImplementedError.

Inductive result (A : Type) : Type :=
| Ok (a : A)
| Raise (e : exn).

Arguments Ok {A} a.
Arguments Raise {A} e.

Definition bind {A B : Type} (r : result A) (k : A -> result B) : result B :=
  match r with
  | Ok a => k a
  | Raise e => Raise e
  end.

Definition is_attribute_error {A : Type} (r : result A) : bool :=
  match r with Raise (AttributeError _) => true | _ => false end.

End Py.

Import Py.

Notation "x <- r ;; k" := (Py.bind r (fun x => k))
  (at level 61, r at next level, right associativity).
Notation "' p <- r ;; k" := (Py.bind r (fun x => match x with p => k end))
  (at level 61, p pattern, r at next level, right associativity).

(** ** Tensors *)

Module Tensor.

Abbreviation vec := (list R).                (* 1-D *)
Abbreviation mat := (list (list R)).         (* 2-D, (samples, dim) *)
Abbreviation cube := (list (list (list R))). (* 3-D, (samples, time, dim) *)

Inductive tensor : Type :=
| T0 (x : R)
| T1 (v : vec)
| T2 (m : mat)
| T3 (c : cube).

Definition ndim (t : tensor) : nat :=
  match t with T0 _ => 0 | T1 _ => 1 | T2 _ => 2 | T3 _ => 3 end.

Definition shape (t : tensor) : list nat :=
  match t with
  | T0 _ => []
  | T1 v => [length v]
  | T2 m => [length m; length (hd [] m)]
  | T3 c => [length c; length (hd [] c); length (hd [] (hd [] c))]
  end.

(** An element of a Python list of states or constants: [None], a tensor,
    or a list of tensors (the per-gate dropout masks). *)
Inductive pyobj : Type :=
| PyNone
| Tensor (t : tensor)
| PyList (l : list tensor).

Definition of_state (s : option tensor) : pyobj :=
  match s with None => PyNone | Some t => Tensor t end.

(** The elementwise operations are written with [map2], which stops at the
    end of the shorter list.  On operands of one shape this is the backend's
    elementwise operation; on operands of different shapes the backend
    broadcasts or raises and [map2] truncates, so the operations are to be
    read on operands of one shape, which the properties state with
    [has_shape]. *)
Fixpoint map2 {A B C : Type} (f : A -> B -> C) (l : list A) (l' : list B)
  : list C :=
  match l, l' with
  | a :: t, b :: t' => f a b :: map2 f t t'
  | _, _ => []
  end.

Local Open Scope R_scope.

Definition Rsum (l : list R) : R := fold_right Rplus 0 l.

Definition vadd : vec -> vec -> vec := map2 Rplus.
Definition vmul : vec -> vec -> vec := map2 Rmult.
Definition vscale (a : R) (v : vec) : vec := map (Rmult a) v.
Definition madd : mat -> mat -> mat := map2 vadd.
Definition mmul : mat -> mat -> mat := map2 vmul.
Definition mmap (f : R -> R) (m : mat) : mat := map (map f) m.
Definition cmul : cube -> cube -> cube := map2 mmul.

(** [1 - z], elementwise. *)
Definition one_minus (m : mat) : mat := mmap (fun x => 1 - x) m.

Definition zeros (rows cols : nat) : mat := repeat (repeat 0 cols) rows.
Definition ones (rows cols : nat) : mat := repeat (repeat 1 cols) rows.

(** Column slices [m[:, a:b]] and [m[:, a:]]. *)
Definition cols (a b : nat) (m : mat) : mat :=
  map (fun row => firstn (b - a) (skipn a row)) m.
Definition cols_from (a : nat) (m : mat) : mat := map (skipn a) m.

Definition n_samples (c : cube) : nat := length c.
Definition n_timesteps (c : cube) : nat := length (hd [] c).
Definition n_dim (c : cube) : nat := length (hd [] (hd [] c)).

(** [x[:, t, :]] *)
Definition time_slice (c : cube) (t : nat) : mat :=
  map (fun sample => nth t sample []) c.

(** [x.dimshuffle((1, 0, 2))]: the list of the time slices. *)
Definition time_major (c : cube) : list mat :=
  map (time_slice c) (seq 0 (n_timesteps c)).

(** The inverse layout change, for [samples] samples. *)
Definition sample_major (samples : nat) (slices : list mat) : cube :=
  map (fun i => map (fun slice => nth i slice []) slices) (seq 0 samples).

(** [m[i, k]], where the matrix has such an entry. *)
Definition entry (m : mat) (i k : nat) : option R :=
  match nth_error m i with
  | Some row => nth_error row k
  | None => None
  end.

(** A 2-D tensor of shape [(rows, width)]. *)
Definition has_shape (rows width : nat) (m : mat) : Prop :=
  length m = rows /\ Forall (fun row => length row = width) m.

End Tensor.

Import Tensor.

(** ** The backend [K]

    [keras/backend] is not among the sources of this development.  Its
    functions are modelled from what the specification and the docstrings of
    [recurrent.py] say about them; each one is marked. *)

Module K.

Local Open Scope R_scope.

(** A symbolic 3-D input: its value, and whether the static shape
    [K.int_shape(x)] knows the time dimension ([None] otherwise). *)
Record ktensor : Type := {
  value : cube;
  time_defined : bool
}.

(** Modelled from the spec: [K.int_shape], the static shape of a tensor,
    here the three entries of a 3-D input. *)
Definition int_shape (x : ktensor) : option nat * option nat * option nat :=
  (Some (n_samples (value x)),
   if time_defined x then Some (n_timesteps (value x)) else None,
   Some (n_dim (value x))).

(** The state of a backend session: the learning phase and the random
    stream the dropout masks are drawn from. *)
Record session : Type := {
  learning_phase : bool;
  rng_bits : nat -> bool;
  rng_pos : nat
}.

(** The session after [n] bits of the random stream have been used. *)
Definition advance (s : session) (n : nat) : session :=
  {| learning_phase := learning_phase s;
     rng_bits := rng_bits s;
     rng_pos := (rng_pos s + n)%nat |}.

(** The [i]-th bit still to come, as the factor 1 (keep) or 0 (drop). *)
Definition keep (s : session) (i : nat) : R :=
  if rng_bits s (rng_pos s + i)%nat then 1 else 0.

Definition indexed {A : Type} (l : list A) : list (nat * A) :=
  combine (seq 0 (length l)) l.

(** Modelled from the spec: [K.dropout(x, level)], "a random binary/scaling
    mask": every entry is kept or zeroed by the next bit of the random
    stream and scaled by [1 / (1 - level)].  The backend rejects a level
    outside [[0, 1)]; the definition is to be read at the levels inside it,
    where the layers call it behind their tests [0 < rate < 1]. *)
Definition dropout (s : session) (x : mat) (level : R) : mat * session :=
  let width := length (hd [] x) in
  (map (fun ir =>
          map (fun kv =>
                 snd kv * keep s (fst ir * width + fst kv) / (1 - level))
              (indexed (snd ir)))
       (indexed x),
   advance s (length x * width)).

(** Modelled from the spec: the training flag of [K.in_train_phase],
    "dropout-mask generation tied to a training-phase flag": an explicit
    [training] decides, [None] defers to the session's learning phase. *)
Definition training_now (s : session) (training : option bool) : bool :=
  match training with
  | Some b => b
  | None => learning_phase s
  end.

(** Modelled from the spec: [K.in_train_phase(x, alt, training)] for a
    callable [x]: [x()] in the training phase, [alt] otherwise. *)
Definition in_train_phase {A : Type} (s : session)
    (x : session -> A * session) (alt : A) (training : option bool)
  : A * session :=
  if training_now s training then x s else (alt, s).

(** Modelled from the spec: [K.in_train_phase(x, alt, training)] for a
    tensor [x]. *)
Definition in_train_phase_value {A : Type} (s : session)
    (x alt : A) (training : option bool) : A :=
  if training_now s training then x else alt.

Definition ncols (w : mat) : nat := length (hd [] w).

Definition column (w : mat) (k : nat) : vec := map (fun row => nth k row 0) w.

Definition inner (v w : vec) : R := Rsum (vmul v w).

(** Modelled from the spec: [K.dot(x, w)] for 2-D [x] and [w], the "dense
    matrix multiply".  The backend raises when the width of [x] is not the
    number of rows of [w]; the definition is total and is the product only
    where the two agree. *)
Definition dot (x w : mat) : mat :=
  map (fun row => map (fun k => inner row (column w k)) (seq 0 (ncols w))) x.

(** Modelled from the spec: [K.dot(x, w)] for a 3-D [x] and a 1-D [w]. *)
Definition dot31 (x : cube) (w : vec) : mat :=
  map (fun sample => map (fun v => inner v w) sample) x.

(** Modelled from the spec: [K.bias_add(x, b)], [b] added to every row. *)
Definition bias_add (x : mat) (b : vec) : mat :=
  map (fun row => vadd row b) x.

(** Modelled from the spec: [K.zeros_like]. *)
Definition zeros_like (c : cube) : cube := map (map (map (fun _ => 0))) c.

(** Modelled from the spec: [K.sum(x, axis=(1, 2))]. *)
Definition sum_axes_1_2 (c : cube) : vec :=
  map (fun sample => Rsum (map Rsum sample)) c.

(** Modelled from the spec: [K.expand_dims(x)] on a 1-D tensor. *)
Definition expand_dims (v : vec) : mat := map (fun x => [x]) v.

(** Modelled from the spec: [K.tile(x, [1, n])]. *)
Definition tile_cols (m : mat) (n : nat) : mat :=
  map (fun row => concat (repeat row n)) m.

(** Modelled from the spec: [K.repeat(x, n)], a 2-D [(samples, dim)]
    tensor repeated [n] times along a new time axis. *)
Definition repeat_time (m : mat) (n : nat) : cube :=
  map (fun row => repeat row n) m.

(** Modelled from the spec: [K.ones_like(K.reshape(inputs[:, 0, 0],
    (-1, 1)))], one [1] per sample. *)
Definition ones_per_sample (c : cube) : mat :=
  map (fun _ => [1]) c.

(** Modelled from the spec: [K.set_value(x, value)].  The target is a
    backend variable; assigning through [None] fails as an attribute
    lookup on [None] does. *)
Definition set_value (x : option tensor) (v : tensor)
  : result (option tensor) :=
  match x with
  | Some _ => Ok (Some v)
  | None =>
      Raise (AttributeError "NoneType object has no attribute set_value")
  end.

(** Modelled from the spec: the choice [K.rnn] makes for a masked sample,
    [switch(mask, new, old)] on the rows of a batch. *)
Definition switch_rows {A : Type} (m : list bool) (new old : list A)
  : list A :=
  map2 (fun (b : bool) (no : A * A) => if b then fst no else snd no)
       m (combine new old).

Definition switch_state (m : list bool) (new old : pyobj) : pyobj :=
  match new, old with
  | Tensor (T2 n), Tensor (T2 o) => Tensor (T2 (switch_rows m n o))
  | _, _ => new
  end.

Definition step_function : Type :=
  mat -> list pyobj -> result (mat * list pyobj).

(** Modelled from the spec: the loop of [K.rnn], one application of the
    step function per time slice, to the slice and to the states of the
    previous iteration followed by the constants.  Where a mask is given, a
    masked sample keeps its previous output (zeros before the first one) and
    states. *)
Fixpoint scan (step : step_function) (constants : list pyobj)
    (slices : list (mat * option (list bool)))
    (prev : option mat) (states : list pyobj)
  : result (list mat * list pyobj) :=
  match slices with
  | [] => Ok ([], states)
  | (x, m) :: rest =>
      '(output, new_states) <- step x (states ++ constants) ;;
      let output' :=
        match m with
        | None => output
        | Some mt =>
            switch_rows mt output
              (match prev with
               | Some p => p
               | None => mmap (fun _ => 0) output
               end)
        end in
      let states' :=
        match m with
        | None => new_states
        | Some mt => map2 (switch_state mt) new_states states
        end in
      '(outputs, final) <- scan step constants rest (Some output') states' ;;
      Ok (output' :: outputs, final)
  end.

(** The mask of every timestep, for a mask of shape [(samples, time)]. *)
Definition mask_time_major (mask : list (list bool)) (timesteps : nat)
  : list (list bool) :=
  map (fun t => map (fun row => nth t row false) mask) (seq 0 timesteps).

(** The order in which the timesteps are visited. *)
Definition backwards {A : Type} (go_backwards : bool) (l : list A) : list A :=
  if go_backwards then rev l else l.

(** Modelled from the spec: [K.rnn], "a generic scan/loop primitive over
    a symbolic tensor", "the recurrence that folds a sequence of inputs
    into a sequence of hidden states under a fixed per-step transition
    function".  It iterates over the time dimension of [inputs], backwards
    if [go_backwards] ("process the input sequence backwards and return the
    reversed sequence"), and returns the last output, the outputs of all
    timesteps and the final states; a sequence without timesteps has no
    last output.  [unroll] and [input_length] choose how the loop is built,
    not what it computes. *)
Definition rnn (step : step_function) (inputs : cube)
    (initial_states : list pyobj) (go_backwards : bool)
    (mask : option (list (list bool))) (constants : list pyobj)
    (unroll : bool) (input_length : option nat)
  : result (mat * cube * list pyobj) :=
  let xs := backwards go_backwards (time_major inputs) in
  let ms :=
    match mask with
    | None => map (fun _ => None) xs
    | Some m =>
        map Some
            (backwards go_backwards
               (mask_time_major m (n_timesteps inputs)))
    end in
  '(outputs, states) <- scan step constants (combine xs ms) None
                             initial_states ;;
  match outputs with
  | [] => Raise IndexError
  | _ :: _ =>
      Ok (last outputs [], sample_major (n_samples inputs) outputs, states)
  end.

(** Modelled from the spec: [K.softmax] on the rows of a 2-D tensor, the
    formula of the attention layers' docstring:
    [alpha_i = exp(e_i) / sum_j exp(e_j)]. *)
Definition softmax_row (e : vec) : vec :=
  map (fun x => exp x / Rsum (map exp e)) e.

Definition softmax (e : mat) : mat := map softmax_row e.

End K.

(** ** [class Recurrent(Layer)] *)

Module Recurrent.

(** The attributes of a built recurrent layer.  [batch_size] is
    [self.input_spec[0].shape[0]]; an entry of [states] is [None] until
    [reset_states] creates its backend variable.  [implementation] ranges
    over the documented modes 0, 1, 2 and the numbers above them; a negative
    number, which the constructor would also store, has no counterpart
    here. *)
Record attrs : Type := {
  return_sequences : bool;
  return_state : bool;
  go_backwards : bool;
  stateful : bool;
  unroll : bool;
  implementation : nat;
  units : nat;
  states : list (option tensor);
  batch_size : option nat;
  dropout : R;
  recurrent_dropout : R;
  name : string
}.

Definition set_states (self : attrs) (new_states : list (option tensor))
  : attrs :=
  {| return_sequences := return_sequences self;
     return_state := return_state self;
     go_backwards := go_backwards self;
     stateful := stateful self;
     unroll := unroll self;
     implementation := implementation self;
     units := units self;
     states := new_states;
     batch_size := batch_size self;
     dropout := dropout self;
     recurrent_dropout := recurrent_dropout self;
     name := name self |}.

(** The methods a subclass overrides. *)
Class Layer (Self : Type) : Type := {
  base : Self -> attrs;
  step : Self -> K.step_function;
  get_constants :
    Self -> K.session -> K.ktensor -> option bool
    -> list pyobj * K.session;
  preprocess_input :
    Self -> K.session -> K.ktensor -> option bool -> cube * K.session
}.

(** [Recurrent] itself: [step] is abstract, there are no constants and
    the input is not preprocessed. *)
#[global] Instance abstract_layer : Layer attrs := {
  base := fun self => self;
  step := fun _ _ _ => Raise NotImplementedError;
  get_constants := fun _ s _ _ => ([], s);
  preprocess_input := fun _ s inputs _ => (K.value inputs, s)
}.

(** The [inputs] argument of [call]: a tensor, or a list whose first
    element is the input tensor and whose other elements are the initial
    states.  ([Layer.__call__] checks the list against [input_spec], whose
    first entry is the 3-D input, before [call] runs.) *)
Inductive call_inputs : Type :=
| InTensor (x : K.ktensor)
| InList (x : K.ktensor) (extra : list pyobj).

(** The [mask] argument of [call]: [None], a mask, or a list of masks of
    which the first is used. *)
Inductive call_mask : Type :=
| NoMask
| Mask (m : list (list bool))
| MaskList (first : option (list (list bool)))
           (others : list (option (list (list bool)))).

(** What [call] returns: a tensor, or the list [[output] + states]. *)
Inductive returned : Type :=
| RTensor (t : tensor)
| RList (l : list pyobj).

(** A registered update [(self.states[i], value)]. *)
Definition update : Type := (nat * pyobj)%type.

Section Methods.

Context {Self : Type} `{Layer Self}.

Definition get_initial_state (self : Self) (inputs : K.ktensor)
  : list pyobj :=
  (* build an all-zero tensor of shape (samples, units) *)
  let initial_state := K.zeros_like (K.value inputs) in
  let initial_state := K.sum_axes_1_2 initial_state in
  let initial_state := K.expand_dims initial_state in
  let initial_state := K.tile_cols initial_state (units (base self)) in
  map (fun _ => Tensor (T2 initial_state))
      (seq 0 (length (states (base self)))).

(** [for i in range(len(states)): updates.append((self.states[i],
    states[i]))] *)
Fixpoint state_updates (n_stored i : nat) (new_states : list pyobj)
  : result (list update) :=
  match new_states with
  | [] => Ok []
  | s :: rest =>
      if i <? n_stored then
        updates <- state_updates n_stored (S i) rest ;;
        Ok ((i, s) :: updates)
      else Raise IndexError
  end.

(** What the caller supplied as initial states: the extra elements of
    a list of inputs, or the [initial_state] argument. *)
Definition supplied_initial_state (inputs : call_inputs)
    (initial_state : option (list pyobj)) : option (list pyobj) :=
  match inputs with
  | InList _ extra => Some extra
  | InTensor _ => initial_state
  end.

Definition input_tensor (inputs : call_inputs) : K.ktensor :=
  match inputs with
  | InList x _ => x
  | InTensor x => x
  end.

(** The initial states [call] settles on. *)
Definition initial_state_of (self : Self) (inputs : call_inputs)
    (initial_state : option (list pyobj)) : list pyobj :=
  match supplied_initial_state inputs initial_state with
  | Some given => given
  | None =>
      if stateful (base self)
      then map of_state (states (base self))
      else get_initial_state self (input_tensor inputs)
  end.

Definition mask_of (mask : call_mask) : option (list (list bool)) :=
  match mask with
  | NoMask => None
  | Mask m => Some m
  | MaskList first _ => first
  end.

(** [constants = self.get_constants(inputs, training=None)] and
    [preprocessed_input = self.preprocess_input(inputs, training=None)]:
    both before the scan, once. *)
Definition constants_and_input (self : Self) (s : K.session)
    (inputs : K.ktensor) : list pyobj * cube * K.session :=
  let '(constants, s) := get_constants self s inputs None in
  let '(preprocessed_input, s) := preprocess_input self s inputs None in
  (constants, preprocessed_input, s).

(** [call] from [input_shape = K.int_shape(inputs)] on: the scan and
    what is made of its results. *)
Definition scan_and_return (self : Self) (s : K.session)
    (inputs : K.ktensor) (mask : option (list (list bool)))
    (initial_state : list pyobj)
  : result (returned * list update * K.session) :=
  let input_shape := K.int_shape inputs in
  if unroll (base self) && negb (K.time_defined inputs) then
    Raise (ValueError UnrollUndefinedTime)
  else
  let '(constants, preprocessed_input, s) :=
    constants_and_input self s inputs in
  '(last_output, outputs, new_states) <-
    K.rnn (step self) preprocessed_input initial_state
          (go_backwards (base self)) mask constants
          (unroll (base self)) (snd (fst input_shape)) ;;
  updates <-
    (if stateful (base self)
     then state_updates (length (states (base self))) 0 new_states
     else Ok []) ;;
  let output :=
    if return_sequences (base self) then T3 outputs else T2 last_output in
  if return_state (base self)
  then Ok (RList (Tensor output :: new_states), updates, s)
  else Ok (RTensor output, updates, s).

Definition call (self : Self) (s : K.session) (inputs : call_inputs)
    (mask : call_mask) (training : option bool)
    (initial_state : option (list pyobj))
  : result (returned * list update * K.session) :=
  let initial_state := initial_state_of self inputs initial_state in
  let inputs := input_tensor inputs in
  let mask := mask_of mask in
  if negb (length initial_state =? length (states (base self))) then
    Raise (ValueError (StateCountMismatch (length (states (base self)))
                                          (length initial_state)))
  else scan_and_return self s inputs mask initial_state.

(** The output among what [call] returned. *)
Definition output_of (r : returned) : option tensor :=
  match r with
  | RTensor t => Some t
  | RList (Tensor t :: _) => Some t
  | RList _ => None
  end.

End Methods.

(** Modelled from the spec: the updates registered with
    [Layer.add_update] are assignments the backend performs when the batch
    is run, "a layer that persists its hidden state across batches". *)
Fixpoint run_updates (stored : list (option tensor)) (updates : list update)
  : list (option tensor) :=
  match updates with
  | [] => stored
  | (i, Tensor t) :: rest =>
      run_updates (firstn i stored ++ Some t :: skipn (S i) stored) rest
  | (_, _) :: rest => run_updates stored rest
  end.

(** The [states] argument of [reset_states]: [None], an array, or a list
    of arrays. *)
Inductive states_arg : Type :=
| NoStates
| OneState (v : tensor)
| StateList (vs : list tensor).

(** [a == b] on shapes. *)
Fixpoint shape_eqb (a b : list nat) : bool :=
  match a, b with
  | [], [] => true
  | x :: a', y :: b' => (x =? y) && shape_eqb a' b'
  | _, _ => false
  end.

(** [for index, (value, state) in enumerate(zip(states, self.states))]:
    the stored states as the loop leaves them, and how it ended. *)
Fixpoint set_states_loop (batch units index : nat)
    (pairs : list (tensor * option tensor))
  : list (option tensor) * result unit :=
  match pairs with
  | [] => ([], Ok tt)
  | (value, state) :: rest =>
      if negb (shape_eqb (shape value) [batch; units]) then
        (map snd pairs,
         Raise (ValueError (ResetShapeMismatch index [batch; units]
                                               (shape value))))
      else
        match K.set_value state value with
        | Raise e => (map snd pairs, Raise e)
        | Ok state' =>
            let '(rest', r) := set_states_loop batch units (S index) rest in
            (state' :: rest', r)
        end
  end.

(** [for state in self.states: K.set_value(state, np.zeros(...))] *)
Fixpoint zero_states_loop (batch units : nat) (stored : list (option tensor))
  : list (option tensor) * result unit :=
  match stored with
  | [] => ([], Ok tt)
  | state :: rest =>
      match K.set_value state (T2 (zeros batch units)) with
      | Raise e => (stored, Raise e)
      | Ok state' =>
          let '(rest', r) := zero_states_loop batch units rest in
          (state' :: rest', r)
      end
  end.

(** [reset_states]: the layer as the call leaves it, and how it ended. *)
Definition reset_states (self : attrs) (new_states : states_arg)
  : attrs * result unit :=
  if negb (stateful self) then
    (self, Raise (AttributeError "Layer must be stateful."))
  else
    match batch_size self with
    | None | Some 0 => (self, Raise (ValueError BatchSizeUnknown))
    | Some batch =>
        (* initialize state if None *)
        match states self with
        | [] => (self, Raise IndexError)
        | None :: _ =>
            (set_states self
               (map (fun _ => Some (T2 (zeros batch (units self))))
                    (states self)),
             Ok tt)
        | Some _ :: _ =>
            match new_states with
            | NoStates =>
                let '(stored, r) :=
                  zero_states_loop batch (units self) (states self) in
                (set_states self stored, r)
            | _ =>
                let values :=
                  match new_states with
                  | StateList vs => vs
                  | OneState v => [v]
                  | NoStates => []
                  end in
                if negb (length values =? length (states self)) then
                  (self,
                   Raise (ValueError (ResetCountMismatch
                                        (length (states self))
                                        (length values))))
                else
                  let '(stored, r) :=
                    set_states_loop batch (units self) 0
                                    (combine values (states self)) in
                  (set_states self stored, r)
            end
        end
    end.

Definition is_none {A : Type} (o : option A) : bool :=
  match o with None => true | Some _ => false end.

Definition is_some {A : Type} (o : option A) : bool :=
  match o with None => false | Some _ => true end.

(** The stored states as [build] and [reset_states] leave them: all
    [None], or all backend variables. *)
Definition uniform (stored : list (option tensor)) : bool :=
  forallb is_none stored || forallb is_some stored.

End Recurrent.

(** ** Indexing and arithmetic on the elements of a [states] list *)

Module Dyn.

Local Open Scope R_scope.

(** [l[i]] *)
Definition item {A : Type} (l : list A) (i : nat) : result A :=
  match nth_error l i with
  | Some v => Ok v
  | None => Raise IndexError
  end.

Definition as_tensor (v : pyobj) : result tensor :=
  match v with
  | Tensor t => Ok t
  | _ => Raise TypeError
  end.

Definition as_mat (v : pyobj) : result mat :=
  match v with
  | Tensor (T2 m) => Ok m
  | _ => Raise TypeError
  end.

Definition as_cube (v : pyobj) : result cube :=
  match v with
  | Tensor (T3 c) => Ok c
  | _ => Raise TypeError
  end.

(** [v[i]] for a list of dropout masks [v]. *)
Definition mask_item (v : pyobj) (i : nat) : result tensor :=
  match v with
  | PyList l => item l i
  | _ => Raise TypeError
  end.

(** [x * m] for a 2-D [x] and a dropout constant [m]: the scalar
    [K.cast_to_floatx(1.)] or a mask of the shape of [x] (a 1-D [m]
    broadcasts over the rows).  The layers build no other constant; a 3-D
    one is rejected. *)
Definition times (x : mat) (m : tensor) : result mat :=
  match m with
  | T0 c => Ok (mmap (fun v => v * c) x)
  | T1 v => Ok (map (fun row => vmul row v) x)
  | T2 m' => Ok (mmul x m')
  | T3 _ => Raise TypeError
  end.

(** [x + b] and [K.bias_add(x, b)] for an attribute [b] that is [None]
    when the layer has no bias. *)
Definition plus_bias (x : mat) (b : option vec) : result mat :=
  match b with
  | Some b' => Ok (K.bias_add x b')
  | None => Raise TypeError
  end.

(** [if self.use_bias: x = K.bias_add(x, self.bias)] *)
Definition bias_if (use_bias : bool) (x : mat) (b : option vec)
  : result mat :=
  if use_bias then plus_bias x b else Ok x.

(** [0 < d < 1] *)
Definition in_unit_interval (d : R) : bool :=
  if Rlt_dec 0 d then (if Rlt_dec d 1 then true else false) else false.

End Dyn.

Import Dyn.

(** ** [_time_distributed_dense] *)

Module TimeDistributed.

Local Open Scope R_scope.

(** A dimension argument that is used when truthy, and read off the
    tensor otherwise: [if not input_dim: input_dim = K.shape(x)[2]]. *)
Definition or_else (given : option nat) (actual : nat) : nat :=
  match given with
  | Some (S n) => S n
  | _ => actual
  end.

(** Row-major reshapes: [K.reshape(x, (-1, n))] cuts a flat list into rows
    of [n]. *)
Definition chunk {A : Type} (n : nat) (l : list A) : list (list A) :=
  map (fun i => firstn n (skipn (i * n) l)) (seq 0 (length l / n)).

Definition reshape2 (x : cube) (n : nat) : mat :=
  chunk n (concat (concat x)).

Definition reshape3 (x : mat) (timesteps n : nat) : cube :=
  chunk timesteps (chunk n (concat x)).

(** The first half of the function: "apply the same dropout pattern at
    every timestep". *)
Definition dropout_input (s : K.session) (x : cube) (dropout : option R)
    (input_dim timesteps : nat) (training : option bool)
  : cube * K.session :=
  match dropout with
  | Some d =>
      if in_unit_interval d then
        let ones_ := map (fun _ : mat => repeat 1 input_dim) x in
        let '(dropout_matrix, s') := K.dropout s ones_ d in
        let expanded_dropout_matrix :=
          K.repeat_time dropout_matrix timesteps in
        (K.in_train_phase_value s' (cmul x expanded_dropout_matrix) x
                                training, s')
      else (x, s)
  | None => (x, s)
  end.

(** The reshapes and the product raise in the backend when the dimensions
    given or found do not fit; the definition is to be read on a well-shaped
    input and a kernel with as many rows as the input has features. *)
Definition _time_distributed_dense (s : K.session) (x : cube) (w : mat)
    (b : option vec) (dropout : option R)
    (input_dim output_dim timesteps : option nat) (training : option bool)
  : cube * K.session :=
  let input_dim := or_else input_dim (n_dim x) in
  let timesteps := or_else timesteps (n_timesteps x) in
  let output_dim := or_else output_dim (K.ncols w) in
  let '(x, s) := dropout_input s x dropout input_dim timesteps training in
  (* collapse time dimension and batch dimension together *)
  let x := reshape2 x input_dim in
  let x := K.dot x w in
  let x := match b with Some b' => K.bias_add x b' | None => x end in
  (* reshape to 3D tensor *)
  (reshape3 x timesteps output_dim, s).

End TimeDistributed.

Import TimeDistributed.

(** The dropout constants shared by the [get_constants] methods. *)

Module Constants.

Local Open Scope R_scope.

(** [K.cast_to_floatx(1.)] *)
Definition one : tensor := T0 1.

(** [ones = K.ones_like(K.reshape(inputs[:, 0, 0], (-1, 1)))] followed by
    [ones = K.tile(ones, (1, width))]. *)
Definition ones_mask (inputs : K.ktensor) (width : nat) : mat :=
  K.tile_cols (K.ones_per_sample (K.value inputs)) width.

(** [K.in_train_phase(dropped_inputs, ones, training=training)] with
    [dropped_inputs = lambda: K.dropout(ones, level)]. *)
Definition dropout_mask (s : K.session) (ones_ : mat) (level : R)
    (training : option bool) : tensor * K.session :=
  let '(m, s') :=
    K.in_train_phase s (fun s0 => K.dropout s0 ones_ level) ones_ training in
  (T2 m, s').

(** [[K.in_train_phase(dropped_inputs, ones, training=training)
      for _ in range(n)]] *)
Fixpoint dropout_masks (n : nat) (s : K.session) (ones_ : mat) (level : R)
    (training : option bool) : list tensor * K.session :=
  match n with
  | O => ([], s)
  | S n' =>
      let '(m, s1) := dropout_mask s ones_ level training in
      let '(ms, s2) := dropout_masks n' s1 ones_ level training in
      (m :: ms, s2)
  end.

End Constants.

(** ** [class SimpleRNN(Recurrent)] *)

Module SimpleRNN.

Record t : Type := {
  attrs : Recurrent.attrs;
  kernel : mat;                       (* (input_dim, units) *)
  recurrent_kernel : mat;             (* (units, units) *)
  bias : option vec;                  (* None unless use_bias *)
  activation : option (mat -> mat)
}.

Definition dropout (self : t) : R := Recurrent.dropout (attrs self).
Definition recurrent_dropout (self : t) : R :=
  Recurrent.recurrent_dropout (attrs self).
Definition implementation (self : t) : nat :=
  Recurrent.implementation (attrs self).
Definition units (self : t) : nat := Recurrent.units (attrs self).

Definition preprocess_input (self : t) (s : K.session)
    (inputs : K.ktensor) (training : option bool) : cube * K.session :=
  if 0 <? implementation self then (K.value inputs, s)
  else
    let input_shape := K.int_shape inputs in
    let input_dim := snd input_shape in
    let timesteps := snd (fst input_shape) in
    _time_distributed_dense s (K.value inputs) (kernel self) (bias self)
                            (Some (dropout self)) input_dim
                            (Some (units self)) timesteps training.

Definition step (self : t) (inputs : mat) (states : list pyobj)
  : result (mat * list pyobj) :=
  h <-
    (if implementation self =? 0 then Ok inputs
     else
       h <-
         (if in_unit_interval (dropout self) then
            m <- (v <- item states 1 ;; as_tensor v) ;;
            x <- times inputs m ;;
            Ok (K.dot x (kernel self))
          else Ok (K.dot inputs (kernel self))) ;;
       match bias self with
       | Some b => Ok (K.bias_add h b)
       | None => Ok h
       end) ;;
  prev_output <- (v <- item states 0 ;; as_mat v) ;;
  prev_output <-
    (if in_unit_interval (recurrent_dropout self) then
       m <- (v <- item states 2 ;; as_tensor v) ;;
       times prev_output m
     else Ok prev_output) ;;
  let output := madd h (K.dot prev_output (recurrent_kernel self)) in
  let output :=
    match activation self with
    | Some f => f output
    | None => output
    end in
  Ok (output, [Tensor (T2 output)]).

Definition get_constants (self : t) (s : K.session) (inputs : K.ktensor)
    (training : option bool) : list pyobj * K.session :=
  let '(dp_mask, s) :=
    if negb (implementation self =? 0) && in_unit_interval (dropout self)
    then
      let ones_ := Constants.ones_mask inputs (n_dim (K.value inputs)) in
      Constants.dropout_mask s ones_ (dropout self) training
    else (Constants.one, s) in
  let '(rec_dp_mask, s) :=
    if in_unit_interval (recurrent_dropout self) then
      let ones_ := Constants.ones_mask inputs (units self) in
      Constants.dropout_mask s ones_ (recurrent_dropout self) training
    else (Constants.one, s) in
  ([Tensor dp_mask; Tensor rec_dp_mask], s).

#[global] Instance layer : Recurrent.Layer t := {
  Recurrent.base := attrs;
  Recurrent.step := step;
  Recurrent.get_constants := get_constants;
  Recurrent.preprocess_input := preprocess_input
}.


End SimpleRNN.

(** ** [class GRU(Recurrent)] *)

Module GRU.

Record t : Type := {
  attrs : Recurrent.attrs;
  kernel : mat;                       (* (input_dim, 3 * units) *)
  recurrent_kernel : mat;             (* (units, 3 * units) *)
  use_bias : bool;
  bias : option vec;                  (* None unless use_bias *)
  activation : mat -> mat;
  recurrent_activation : mat -> mat
}.

Definition dropout (self : t) : R := Recurrent.dropout (attrs self).
Definition recurrent_dropout (self : t) : R :=
  Recurrent.recurrent_dropout (attrs self).
Definition implementation (self : t) : nat :=
  Recurrent.implementation (attrs self).
Definition units (self : t) : nat := Recurrent.units (attrs self).

(** The slices [build] takes of the weights. *)
Definition kernel_z (self : t) : mat := cols 0 (units self) (kernel self).
Definition kernel_r (self : t) : mat :=
  cols (units self) (units self * 2) (kernel self).
Definition kernel_h (self : t) : mat :=
  cols_from (units self * 2) (kernel self).
Definition recurrent_kernel_z (self : t) : mat :=
  cols 0 (units self) (recurrent_kernel self).
Definition recurrent_kernel_r (self : t) : mat :=
  cols (units self) (units self * 2) (recurrent_kernel self).
Definition recurrent_kernel_h (self : t) : mat :=
  cols_from (units self * 2) (recurrent_kernel self).

Definition bias_slice (self : t) (f : vec -> vec) : option vec :=
  if use_bias self then option_map f (bias self) else None.
Definition bias_z (self : t) : option vec :=
  bias_slice self (firstn (units self)).
Definition bias_r (self : t) : option vec :=
  bias_slice self (fun b => firstn (units self * 2 - units self)
                                   (skipn (units self) b)).
Definition bias_h (self : t) : option vec :=
  bias_slice self (skipn (units self * 2)).

Definition preprocess_input (self : t) (s : K.session)
    (inputs : K.ktensor) (training : option bool) : cube * K.session :=
  if implementation self =? 0 then
    let input_shape := K.int_shape inputs in
    let input_dim := snd input_shape in
    let timesteps := snd (fst input_shape) in
    let dense s w b :=
      _time_distributed_dense s (K.value inputs) w b (Some (dropout self))
                              input_dim (Some (units self)) timesteps
                              training in
    let '(x_z, s) := dense s (kernel_z self) (bias_z self) in
    let '(x_r, s) := dense s (kernel_r self) (bias_r self) in
    let '(x_h, s) := dense s (kernel_h self) (bias_h self) in
    (* K.concatenate([x_z, x_r, x_h], axis=2) *)
    (map2 (fun zr h => map2 (@app R) zr h)
          (map2 (fun z r => map2 (@app R) z r) x_z x_r) x_h, s)
  else (K.value inputs, s).

Definition get_constants (self : t) (s : K.session) (inputs : K.ktensor)
    (training : option bool) : list pyobj * K.session :=
  let '(dp_mask, s) :=
    if negb (implementation self =? 0) && in_unit_interval (dropout self)
    then
      let ones_ := Constants.ones_mask inputs (n_dim (K.value inputs)) in
      Constants.dropout_masks 3 s ones_ (dropout self) training
    else (repeat Constants.one 3, s) in
  let '(rec_dp_mask, s) :=
    if in_unit_interval (recurrent_dropout self) then
      let ones_ := Constants.ones_mask inputs (units self) in
      Constants.dropout_masks 3 s ones_ (recurrent_dropout self) training
    else (repeat Constants.one 3, s) in
  ([PyList dp_mask; PyList rec_dp_mask], s).

(** The first part of [step]: the previous memory [h_tm1], the update
    gate [z] and the candidate [hh]. *)
Definition gates (self : t) (inputs : mat) (states : list pyobj)
  : result (mat * mat * mat) :=
  h_tm1 <- (v <- item states 0 ;; as_mat v) ;;  (* previous memory *)
  dp_mask <- item states 1 ;;  (* dropout matrices for recurrent units *)
  rec_dp_mask <- item states 2 ;;
  let u := units self in
  let act := activation self in
  let ract := recurrent_activation self in
  if implementation self =? 2 then
    matrix_x <-
      (x <- (m <- mask_item dp_mask 0 ;; times inputs m) ;;
       bias_if (use_bias self) (K.dot x (kernel self)) (bias self)) ;;
    matrix_inner <-
      (x <- (m <- mask_item rec_dp_mask 0 ;; times h_tm1 m) ;;
       Ok (K.dot x (cols 0 (2 * u) (recurrent_kernel self)))) ;;
    let x_z := cols 0 u matrix_x in
    let x_r := cols u (2 * u) matrix_x in
    let recurrent_z := cols 0 u matrix_inner in
    let recurrent_r := cols u (2 * u) matrix_inner in
    let z := ract (madd x_z recurrent_z) in
    let r := ract (madd x_r recurrent_r) in
    let x_h := cols_from (2 * u) matrix_x in
    recurrent_h <-
      (x <- (m <- mask_item rec_dp_mask 0 ;; times (mmul r h_tm1) m) ;;
       Ok (K.dot x (cols_from (2 * u) (recurrent_kernel self)))) ;;
    let hh := act (madd x_h recurrent_h) in
    Ok (h_tm1, z, hh)
  else
    '(x_z, x_r, x_h) <-
      (if implementation self =? 0 then
         Ok (cols 0 u inputs, cols u (2 * u) inputs, cols_from (2 * u) inputs)
       else if implementation self =? 1 then
         x_z <- (x <- (m <- mask_item dp_mask 0 ;; times inputs m) ;;
                 Ok (K.dot x (kernel_z self))) ;;
         x_r <- (x <- (m <- mask_item dp_mask 1 ;; times inputs m) ;;
                 Ok (K.dot x (kernel_r self))) ;;
         x_h <- (x <- (m <- mask_item dp_mask 2 ;; times inputs m) ;;
                 Ok (K.dot x (kernel_h self))) ;;
         if use_bias self then
           x_z <- plus_bias x_z (bias_z self) ;;
           x_r <- plus_bias x_r (bias_r self) ;;
           x_h <- plus_bias x_h (bias_h self) ;;
           Ok (x_z, x_r, x_h)
         else Ok (x_z, x_r, x_h)
       else Raise (ValueError UnknownImplementation)) ;;
    z <- (x <- (m <- mask_item rec_dp_mask 0 ;; times h_tm1 m) ;;
          Ok (ract (madd x_z (K.dot x (recurrent_kernel_z self))))) ;;
    r <- (x <- (m <- mask_item rec_dp_mask 1 ;; times h_tm1 m) ;;
          Ok (ract (madd x_r (K.dot x (recurrent_kernel_r self))))) ;;
    hh <- (x <- (m <- mask_item rec_dp_mask 2 ;; times (mmul r h_tm1) m) ;;
           Ok (act (madd x_h (K.dot x (recurrent_kernel_h self))))) ;;
    Ok (h_tm1, z, hh).

Definition step (self : t) (inputs : mat) (states : list pyobj)
  : result (mat * list pyobj) :=
  '(h_tm1, z, hh) <- gates self inputs states ;;
  let h := madd (mmul z h_tm1) (mmul (one_minus z) hh) in
  Ok (h, [Tensor (T2 h)]).

#[global] Instance layer : Recurrent.Layer t := {
  Recurrent.base := attrs;
  Recurrent.step := step;
  Recurrent.get_constants := get_constants;
  Recurrent.preprocess_input := preprocess_input
}.

End GRU.

(** ** [class LSTM(Recurrent)] *)

Module LSTM.

Record t : Type := {
  attrs : Recurrent.attrs;
  kernel : mat;                       (* (input_dim, 4 * units) *)
  recurrent_kernel : mat;             (* (units, 4 * units) *)
  use_bias : bool;
  bias : option vec;                  (* None unless use_bias *)
  activation : mat -> mat;
  recurrent_activation : mat -> mat
}.

Definition dropout (self : t) : R := Recurrent.dropout (attrs self).
Definition recurrent_dropout (self : t) : R :=
  Recurrent.recurrent_dropout (attrs self).
Definition implementation (self : t) : nat :=
  Recurrent.implementation (attrs self).
Definition units (self : t) : nat := Recurrent.units (attrs self).

Definition kernel_i (self : t) : mat := cols 0 (units self) (kernel self).
Definition kernel_f (self : t) : mat :=
  cols (units self) (units self * 2) (kernel self).
Definition kernel_c (self : t) : mat :=
  cols (units self * 2) (units self * 3) (kernel self).
Definition kernel_o (self : t) : mat :=
  cols_from (units self * 3) (kernel self).

Definition recurrent_kernel_i (self : t) : mat :=
  cols 0 (units self) (recurrent_kernel self).
Definition recurrent_kernel_f (self : t) : mat :=
  cols (units self) (units self * 2) (recurrent_kernel self).
Definition recurrent_kernel_c (self : t) : mat :=
  cols (units self * 2) (units self * 3) (recurrent_kernel self).
Definition recurrent_kernel_o (self : t) : mat :=
  cols_from (units self * 3) (recurrent_kernel self).

Definition bias_slice (self : t) (f : vec -> vec) : option vec :=
  if use_bias self then option_map f (bias self) else None.
Definition bias_i (self : t) : option vec :=
  bias_slice self (firstn (units self)).
Definition bias_f (self : t) : option vec :=
  bias_slice self (fun b => firstn (units self * 2 - units self)
                                   (skipn (units self) b)).
Definition bias_c (self : t) : option vec :=
  bias_slice self (fun b => firstn (units self * 3 - units self * 2)
                                   (skipn (units self * 2) b)).
Definition bias_o (self : t) : option vec :=
  bias_slice self (skipn (units self * 3)).

(** The first part of [step]: the previous cell state [c_tm1], the gates
    [i], [f] and [o], and the candidate that [i] admits. *)
Definition gates (self : t) (inputs : mat) (states : list pyobj)
  : result (mat * mat * mat * mat * mat) :=
  h_tm1 <- (v <- item states 0 ;; as_mat v) ;;
  c_tm1 <- (v <- item states 1 ;; as_mat v) ;;
  dp_mask <- item states 2 ;;
  rec_dp_mask <- item states 3 ;;
  let u := units self in
  let act := activation self in
  let ract := recurrent_activation self in
  if implementation self =? 2 then
    z <- (x <- (m <- mask_item dp_mask 0 ;; times inputs m) ;;
          Ok (K.dot x (kernel self))) ;;
    z <- (x <- (m <- mask_item rec_dp_mask 0 ;; times h_tm1 m) ;;
          Ok (madd z (K.dot x (recurrent_kernel self)))) ;;
    z <- bias_if (use_bias self) z (bias self) ;;
    let z0 := cols 0 u z in
    let z1 := cols u (2 * u) z in
    let z2 := cols (2 * u) (3 * u) z in
    let z3 := cols_from (3 * u) z in
    let i := ract z0 in
    let f := ract z1 in
    let o := ract z3 in
    Ok (c_tm1, i, f, act z2, o)
  else
    '(x_i, x_f, x_c, x_o) <-
      (if implementation self =? 0 then
         Ok (cols 0 u inputs, cols u (2 * u) inputs,
             cols (2 * u) (3 * u) inputs, cols_from (3 * u) inputs)
       else if implementation self =? 1 then
         x_i <- (x <- (m <- mask_item dp_mask 0 ;; times inputs m) ;;
                 plus_bias (K.dot x (kernel_i self)) (bias_i self)) ;;
         x_f <- (x <- (m <- mask_item dp_mask 1 ;; times inputs m) ;;
                 plus_bias (K.dot x (kernel_f self)) (bias_f self)) ;;
         x_c <- (x <- (m <- mask_item dp_mask 2 ;; times inputs m) ;;
                 plus_bias (K.dot x (kernel_c self)) (bias_c self)) ;;
         x_o <- (x <- (m <- mask_item dp_mask 3 ;; times inputs m) ;;
                 plus_bias (K.dot x (kernel_o self)) (bias_o self)) ;;
         Ok (x_i, x_f, x_c, x_o)
       else Raise (ValueError UnknownImplementation)) ;;
    i <- (x <- (m <- mask_item rec_dp_mask 0 ;; times h_tm1 m) ;;
          Ok (ract (madd x_i (K.dot x (recurrent_kernel_i self))))) ;;
    f <- (x <- (m <- mask_item rec_dp_mask 1 ;; times h_tm1 m) ;;
          Ok (ract (madd x_f (K.dot x (recurrent_kernel_f self))))) ;;
    c' <- (x <- (m <- mask_item rec_dp_mask 2 ;; times h_tm1 m) ;;
           Ok (act (madd x_c (K.dot x (recurrent_kernel_c self))))) ;;
    o <- (x <- (m <- mask_item rec_dp_mask 3 ;; times h_tm1 m) ;;
          Ok (ract (madd x_o (K.dot x (recurrent_kernel_o self))))) ;;
    Ok (c_tm1, i, f, c', o).

Definition step (self : t) (inputs : mat) (states : list pyobj)
  : result (mat * list pyobj) :=
  '(c_tm1, i, f, candidate, o) <- gates self inputs states ;;
  let c := madd (mmul f c_tm1) (mmul i candidate) in
  let h := mmul o (activation self c) in
  Ok (h, [Tensor (T2 h); Tensor (T2 c)]).

Definition preprocess_input (self : t) (s : K.session)
    (inputs : K.ktensor) (training : option bool) : cube * K.session :=
  if implementation self =? 0 then
    let input_shape := K.int_shape inputs in
    let input_dim := snd input_shape in
    let timesteps := snd (fst input_shape) in
    let dense s w b :=
      _time_distributed_dense s (K.value inputs) w b (Some (dropout self))
                              input_dim (Some (units self)) timesteps
                              training in
    let '(x_i, s) := dense s (kernel_i self) (bias_i self) in
    let '(x_f, s) := dense s (kernel_f self) (bias_f self) in
    let '(x_c, s) := dense s (kernel_c self) (bias_c self) in
    let '(x_o, s) := dense s (kernel_o self) (bias_o self) in
    (* K.concatenate([x_i, x_f, x_c, x_o], axis=2) *)
    let join := map2 (fun a b => map2 (@app R) a b) in
    (join (join (join x_i x_f) x_c) x_o, s)
  else (K.value inputs, s).

Definition get_constants (self : t) (s : K.session) (inputs : K.ktensor)
    (training : option bool) : list pyobj * K.session :=
  let '(dp_mask, s) :=
    if negb (implementation self =? 0) && in_unit_interval (dropout self)
    then
      let ones_ := Constants.ones_mask inputs (n_dim (K.value inputs)) in
      Constants.dropout_masks 4 s ones_ (dropout self) training
    else (repeat Constants.one 4, s) in
  let '(rec_dp_mask, s) :=
    if in_unit_interval (recurrent_dropout self) then
      let ones_ := Constants.ones_mask inputs (units self) in
      Constants.dropout_masks 4 s ones_ (recurrent_dropout self) training
    else (repeat Constants.one 4, s) in
  ([PyList dp_mask; PyList rec_dp_mask], s).

#[global] Instance layer : Recurrent.Layer t := {
  Recurrent.base := attrs;
  Recurrent.step := step;
  Recurrent.get_constants := get_constants;
  Recurrent.preprocess_input := preprocess_input
}.

End LSTM.

(** ** [class AttLSTMCond(Recurrent)]: the step function *)

Module AttLSTMCond.

Local Open Scope R_scope.

Record t : Type := {
  units : nat;
  kernel : mat;                       (* (context_dim, 4 * units) *)
  recurrent_kernel : mat;             (* (units, 4 * units) *)
  attention_recurrent_kernel : mat;   (* (units, att_units) *)
  attention_context_wa : vec;         (* (att_units,) *)
  use_bias : bool;
  bias : option vec;                  (* None unless use_bias *)
  bias_ca : option vec;               (* None unless use_bias *)
  activation : mat -> mat;
  recurrent_activation : mat -> mat
}.

(** [mask[:, :, None] * x] *)
Definition mask_positions (mask : mat) (x : cube) : cube :=
  map2 (fun mrow sample => map2 vscale mrow sample) mask x.

(** [x + p[:, None, :]] *)
Definition add_to_positions (x : cube) (p : mat) : cube :=
  map2 (fun sample pv => map (fun v => vadd v pv) sample) x p.

(** [context * alphas[:, :, None]] *)
Definition weigh_positions (context : cube) (alphas : mat) : cube :=
  map2 (fun sample arow =>
          map2 (fun v a => map (fun x => x * a) v) sample arow)
       context alphas.

(** [x.sum(axis=1)] of a 3-D tensor. *)
Definition sum_positions (x : cube) : mat :=
  map (fun sample =>
         map (fun k => Rsum (map (fun v => nth k v 0) sample))
             (seq 0 (length (hd [] sample))))
      x.

(** [if mask_context.ndim > 1], for the masks a caller passes: 2-D,
    or of fewer dimensions. *)
Definition context_mask (mask_context : tensor) : result (option mat) :=
  match mask_context with
  | T2 m => Ok (Some m)
  | T0 _ | T1 _ => Ok None
  | T3 _ => Raise TypeError
  end.

(** The scores [e] of the attention model. *)
Definition scores (self : t) (h_tm1 : mat) (att_dp_mask : tensor)
    (pctx_ : cube) (mask : option mat) : result mat :=
  let pctx_ :=
    match mask with
    | Some m => mask_positions m pctx_
    | None => pctx_
    end in
  p_state_ <- (x <- times h_tm1 att_dp_mask ;;
               Ok (K.dot x (attention_recurrent_kernel self))) ;;
  let pctx_ := map (map (map tanh)) (add_to_positions pctx_ p_state_) in
  e <- plus_bias (K.dot31 pctx_ (attention_context_wa self))
                 (bias_ca self) ;;
  match mask with
  | Some m => Ok (mmul m e)
  | None => Ok e
  end.

(** [# Attention model]: the context vectors [ctx_] and the weights
    [alphas]. *)
Definition attention (self : t) (states : list pyobj)
  : result (mat * mat) :=
  h_tm1 <- (v <- item states 0 ;; as_mat v) ;;
  att_dp_mask <- (v <- item states 6 ;; mask_item v 0) ;;
  pctx_ <- (v <- item states 7 ;; as_cube v) ;;
  context <- (v <- item states 8 ;; as_cube v) ;;
  mask <- (v <- item states 9 ;; t <- as_tensor v ;; context_mask t) ;;
  let context :=
    match mask with
    | Some m => mask_positions m context
    | None => context
    end in
  e <- scores self h_tm1 att_dp_mask pctx_ mask ;;
  let alphas := K.softmax e in
  (* sum over the in_timesteps dimension *)
  let ctx_ := sum_positions (weigh_positions context alphas) in
  Ok (ctx_, alphas).

Definition step (self : t) (x : mat) (states : list pyobj)
  : result (mat * list pyobj) :=
  h_tm1 <- (v <- item states 0 ;; as_mat v) ;;      (* State *)
  c_tm1 <- (v <- item states 1 ;; as_mat v) ;;      (* Memory *)
  non_used_x_att <- item states 2 ;;
  non_used_alphas_att <- item states 3 ;;
  dp_mask <- item states 4 ;;                       (* Dropout W *)
  rec_dp_mask <- item states 5 ;;                   (* Dropout U *)
  '(ctx_, alphas) <- attention self states ;;
  (* LSTM *)
  z <- (r <- (x' <- (m <- mask_item rec_dp_mask 0 ;; times h_tm1 m) ;;
              Ok (K.dot x' (recurrent_kernel self))) ;;
        k <- (x' <- (m <- mask_item dp_mask 0 ;; times ctx_ m) ;;
              Ok (K.dot x' (kernel self))) ;;
        Ok (madd (madd x r) k)) ;;
  z <- bias_if (use_bias self) z (bias self) ;;
  let u := units self in
  let z0 := cols 0 u z in
  let z1 := cols u (2 * u) z in
  let z2 := cols (2 * u) (3 * u) z in
  let z3 := cols_from (3 * u) z in
  let i := recurrent_activation self z0 in
  let f := recurrent_activation self z1 in
  let o := recurrent_activation self z3 in
  let c := madd (mmul f c_tm1) (mmul i (activation self z2)) in
  let h := mmul o (activation self c) in
  Ok (h, [Tensor (T2 h); Tensor (T2 c); Tensor (T2 ctx_);
          Tensor (T2 alphas)]).

(** What the specification says of the context vector, in its words: for
    every sample the sum over the positions [j] of the context sequence of
    [alpha_j * x_j]. *)
Definition weighted_sum (alphas : vec) (xs : list vec) (k : nat) : R :=
  Rsum (map2 (fun a x => a * nth k x 0) alphas xs).

(** Two context sequences of one shape that differ at most at the positions
    the mask zeroes: position by position, the vectors have the same length
    and are equal where the mask is not 0. *)
Fixpoint agree_sample (mrow : vec) (s s' : mat) : Prop :=
  match s, s' with
  | [], [] => True
  | v :: t, v' :: t' =>
      length v = length v'
      /\ match mrow with
         | mv :: _ => mv <> 0 -> v = v'
         | [] => True
         end
      /\ agree_sample (tl mrow) t t'
  | _, _ => False
  end.

Fixpoint agree_off_mask (m : mat) (c c' : cube) : Prop :=
  match c, c' with
  | [], [] => True
  | s :: t, s' :: t' =>
      agree_sample (hd [] m) s s' /\ agree_off_mask (tl m) t t'
  | _, _ => False
  end.

End AttLSTMCond.

(** ** The recurrence, in the words of the specification *)

Module Spec.

(** "The recurrence that folds a sequence of inputs into a sequence of
    hidden states under a fixed per-step transition function":
    [Folds step constants xs s0 outputs final] holds when, starting from
    the states [s0], the output and the states at each timestep are the
    result of the step function on the input at that timestep and the
    states produced at the timestep before (with the constants of the
    layer), [final] being the states after the last input. *)
Inductive Folds (step : K.step_function) (constants : list pyobj)
  : list mat -> list pyobj -> list mat -> list pyobj -> Prop :=
| Folds_done : forall states,
    Folds step constants [] states [] states
| Folds_step : forall x xs states output new_states outputs final,
    step x (states ++ constants) = Ok (output, new_states) ->
    Folds step constants xs new_states outputs final ->
    Folds step constants (x :: xs) states (output :: outputs) final.

End Spec.

(** ** Sample layers and inputs *)

Module Examples.

Local Open Scope R_scope.

Definition session0 : K.session :=
  {| K.learning_phase := false; K.rng_bits := Nat.even; K.rng_pos := 0 |}.

(** A stateful layer of one unit and two states, built for batches of
    one sample and reset. *)
Definition stateful_pair : Recurrent.attrs :=
  {| Recurrent.return_sequences := false;
     Recurrent.return_state := false;
     Recurrent.go_backwards := false;
     Recurrent.stateful := true;
     Recurrent.unroll := false;
     Recurrent.implementation := 2;
     Recurrent.units := 1;
     Recurrent.states := [Some (T2 [[0]]); Some (T2 [[0]])];
     Recurrent.batch_size := Some 1%nat;
     Recurrent.dropout := 0;
     Recurrent.recurrent_dropout := 0;
     Recurrent.name := "pair" |}.

(** One sample, two timesteps, one feature. *)
Definition two_steps : K.ktensor :=
  {| K.value := [[[1]; [0]]]; K.time_defined := true |}.

(** A [SimpleRNN] of one unit that reads its input backwards:
    [h_t = x_t + 2 * h_tm1], no bias, linear activation, no dropout. *)
Definition backwards_rnn : SimpleRNN.t :=
  {| SimpleRNN.attrs :=
       {| Recurrent.return_sequences := false;
          Recurrent.return_state := false;
          Recurrent.go_backwards := true;
          Recurrent.stateful := false;
          Recurrent.unroll := false;
          Recurrent.implementation := 2;
          Recurrent.units := 1;
          Recurrent.states := [None];
          Recurrent.batch_size := None;
          Recurrent.dropout := 0;
          Recurrent.recurrent_dropout := 0;
          Recurrent.name := "backwards" |};
     SimpleRNN.kernel := [[1]];
     SimpleRNN.recurrent_kernel := [[2]];
     SimpleRNN.bias := None;
     SimpleRNN.activation := Some (fun m => m) |}.

Definition plain_attrs (implementation units : nat) : Recurrent.attrs :=
  {| Recurrent.return_sequences := false;
     Recurrent.return_state := false;
     Recurrent.go_backwards := false;
     Recurrent.stateful := false;
     Recurrent.unroll := false;
     Recurrent.implementation := implementation;
     Recurrent.units := units;
     Recurrent.states := [None];
     Recurrent.batch_size := None;
     Recurrent.dropout := 0;
     Recurrent.recurrent_dropout := 0;
     Recurrent.name := "plain" |}.

(** A [GRU] of one unit, in the mode whose inputs are already projected,
    with linear activations and a recurrent kernel of zeros: the gate [z] is
    the first column of the input. *)
Definition gru : GRU.t :=
  {| GRU.attrs := plain_attrs 0 1;
     GRU.kernel := [[1; 1; 1]];
     GRU.recurrent_kernel := [[0; 0; 0]];
     GRU.use_bias := false;
     GRU.bias := None;
     GRU.activation := fun m => m;
     GRU.recurrent_activation := fun m => m |}.

(** The dropout constants of a layer without dropout. *)
Definition no_dropout (n : nat) : pyobj := PyList (repeat Constants.one n).

(** An attention layer of one unit over a context of two features, with
    an attention space of one dimension. *)
Definition att : AttLSTMCond.t :=
  {| AttLSTMCond.units := 1;
     AttLSTMCond.kernel := [[1; 1; 1; 1]; [1; 1; 1; 1]];
     AttLSTMCond.recurrent_kernel := [[1; 1; 1; 1]];
     AttLSTMCond.attention_recurrent_kernel := [[1]];
     AttLSTMCond.attention_context_wa := [1];
     AttLSTMCond.use_bias := true;
     AttLSTMCond.bias := Some [0; 0; 0; 0];
     AttLSTMCond.bias_ca := Some [0; 0];
     AttLSTMCond.activation := fun m => m;
     AttLSTMCond.recurrent_activation := fun m => m |}.

(** The states and constants of a step of [att] for one sample whose
    context has two positions, the second of them padding. *)
Definition att_states (pctx_ context : cube) : list pyobj :=
  [Tensor (T2 [[0]]); Tensor (T2 [[0]]);
   Tensor (T2 [[0; 0]]); Tensor (T2 [[0; 0]]);
   no_dropout 4; no_dropout 4; no_dropout 1;
   Tensor (T3 pctx_); Tensor (T3 context); Tensor (T2 [[1; 0]])].

(** A [SimpleRNN] of one unit with both dropouts at one half. *)
Definition dropout_rnn : SimpleRNN.t :=
  {| SimpleRNN.attrs :=
       {| Recurrent.return_sequences := true;
          Recurrent.return_state := false;
          Recurrent.go_backwards := false;
          Recurrent.stateful := false;
          Recurrent.unroll := false;
          Recurrent.implementation := 2;
          Recurrent.units := 1;
          Recurrent.states := [None];
          Recurrent.batch_size := None;
          Recurrent.dropout := 1 / 2;
          Recurrent.recurrent_dropout := 1 / 2;
          Recurrent.name := "dropout" |};
     SimpleRNN.kernel := [[1]];
     SimpleRNN.recurrent_kernel := [[2]];
     SimpleRNN.bias := None;
     SimpleRNN.activation := Some (fun m => m) |}.

(** A session in the training phase. *)
Definition training_session : K.session :=
  {| K.learning_phase := true; K.rng_bits := Nat.even; K.rng_pos := 0 |}.

End Examples.

(** ** What [_time_distributed_dense] is documented to compute *)

Module Dense.

(** "Apply [y . w + b] for every temporal slice [y] of [x]": the image of
    one vector [y]. *)
Definition dense (w : mat) (b : option vec) (y : vec) : vec :=
  let yw := map (fun k => K.inner y (K.column w k)) (seq 0 (K.ncols w)) in
  match b with
  | Some b' => vadd yw b'
  | None => yw
  end.

(** A dimension argument that, when it is given and not 0, is the dimension
    the tensor has. *)
Definition consistent (given : option nat) (actual : nat) : Prop :=
  given = None \/ given = Some 0 \/ given = Some actual.

(** A 3-D tensor whose samples all have [timesteps] vectors of [dim]
    entries. *)
Definition well_shaped (timesteps dim : nat) (x : cube) : Prop :=
  Forall (fun sample =>
            length sample = timesteps
            /\ Forall (fun v : vec => length v = dim) sample) x.

(** The dropout of the function does not apply: none is asked for, the
    rate is outside [(0, 1)], or this is not the training phase. *)
Definition no_dropout (s : K.session) (dropout : option R)
    (training : option bool) : Prop :=
  match dropout with
  | None => True
  | Some d => in_unit_interval d = false \/ K.training_now s training = false
  end.

(** The three projections of [GRU.preprocess_input], side by side as
    [K.concatenate([x_z, x_r, x_h], axis=2)] puts them. *)
Definition gru_projections (self : GRU.t) (y : vec) : vec :=
  (dense (GRU.kernel_z self) (GRU.bias_z self) y
   ++ dense (GRU.kernel_r self) (GRU.bias_r self) y)
  ++ dense (GRU.kernel_h self) (GRU.bias_h self) y.

(** The four projections of [LSTM.preprocess_input], side by side as
    [K.concatenate([x_i, x_f, x_c, x_o], axis=2)] puts them. *)
Definition lstm_projections (self : LSTM.t) (y : vec) : vec :=
  ((dense (LSTM.kernel_i self) (LSTM.bias_i self) y
    ++ dense (LSTM.kernel_f self) (LSTM.bias_f self) y)
   ++ dense (LSTM.kernel_c self) (LSTM.bias_c self) y)
  ++ dense (LSTM.kernel_o self) (LSTM.bias_o self) y.

End Dense.

(** ** The same layer in another implementation mode *)

Module Modes.

(** The attributes of a layer built with [implementation=n], everything
    else alike. *)
Definition set_implementation (a : Recurrent.attrs) (n : nat)
  : Recurrent.attrs :=
  {| Recurrent.return_sequences := Recurrent.return_sequences a;
     Recurrent.return_state := Recurrent.return_state a;
     Recurrent.go_backwards := Recurrent.go_backwards a;
     Recurrent.stateful := Recurrent.stateful a;
     Recurrent.unroll := Recurrent.unroll a;
     Recurrent.implementation := n;
     Recurrent.units := Recurrent.units a;
     Recurrent.states := Recurrent.states a;
     Recurrent.batch_size := Recurrent.batch_size a;
     Recurrent.dropout := Recurrent.dropout a;
     Recurrent.recurrent_dropout := Recurrent.recurrent_dropout a;
     Recurrent.name := Recurrent.name a |}.

Definition simple_rnn (self : SimpleRNN.t) (n : nat) : SimpleRNN.t :=
  {| SimpleRNN.attrs := set_implementation (SimpleRNN.attrs self) n;
     SimpleRNN.kernel := SimpleRNN.kernel self;
     SimpleRNN.recurrent_kernel := SimpleRNN.recurrent_kernel self;
     SimpleRNN.bias := SimpleRNN.bias self;
     SimpleRNN.activation := SimpleRNN.activation self |}.

Definition gru (self : GRU.t) (n : nat) : GRU.t :=
  {| GRU.attrs := set_implementation (GRU.attrs self) n;
     GRU.kernel := GRU.kernel self;
     GRU.recurrent_kernel := GRU.recurrent_kernel self;
     GRU.use_bias := GRU.use_bias self;
     GRU.bias := GRU.bias self;
     GRU.activation := GRU.activation self;
     GRU.recurrent_activation := GRU.recurrent_activation self |}.

Definition lstm (self : LSTM.t) (n : nat) : LSTM.t :=
  {| LSTM.attrs := set_implementation (LSTM.attrs self) n;
     LSTM.kernel := LSTM.kernel self;
     LSTM.recurrent_kernel := LSTM.recurrent_kernel self;
     LSTM.use_bias := LSTM.use_bias self;
     LSTM.bias := LSTM.bias self;
     LSTM.activation := LSTM.activation self;
     LSTM.recurrent_activation := LSTM.recurrent_activation self |}.

End Modes.

(** ** [Recurrent.__call__] *)

Module Call.

Section Dunder.

(** The tensors passed as initial states, of which the method only asks
    whether they are Keras tensors ([hasattr(tensor, '_keras_history')]); the
    input specifications; the inputs; the other keyword arguments; and what
    the call returns. *)
Context {T S X KW A : Type}.
Variable is_keras : T -> bool.

(** [self.input_spec] or [self.state_spec]: a list, or a value that is
    not a list ([None] among them). *)
Inductive attr : Type :=
| Single (s : option S)
| Several (l : list (option S)).

(** [if not isinstance(spec, list): spec = [spec]] *)
Definition as_list (a : attr) : list (option S) :=
  match a with
  | Single s => [s]
  | Several l => l
  end.

(** The [initial_state] argument. *)
Inductive initial_state_arg : Type :=
| NoInitialState
| OneTensor (t : T)
| TensorList (l : list T).

(** The first argument of [Layer.__call__]: the inputs, or the list
    [[inputs] + list(initial_state)]. *)
Inductive super_inputs : Type :=
| Plain (x : X)
| WithStates (x : X) (states : list T).

Inductive outcome : Type :=
| Returned (output : A)
| Raised (e : exn)
| RaisedMixed.          (* ValueError: a mix of Keras and other tensors *)

(** [super(Recurrent, self).__call__(inputs, **kwargs)], run with a
    given [self.input_spec]: what it leaves in [self.input_spec], and what it
    returns or raises.  The last argument is [kwargs['initial_state']]. *)
Variable super_call :
  attr -> super_inputs -> KW -> option (list T) -> attr * result A.

Definition of_result (r : result A) : outcome :=
  match r with
  | Ok output => Returned output
  | Raise e => Raised e
  end.

(** [for tensor in initial_state: if hasattr(tensor, '_keras_history') !=
    is_keras_tensor: raise ValueError]: whether the loop raises. *)
Fixpoint mixed (is_keras_tensor : bool) (initial_state : list T) : bool :=
  match initial_state with
  | [] => false
  | tensor :: rest =>
      if negb (Bool.eqb (is_keras tensor) is_keras_tensor) then true
      else mixed is_keras_tensor rest
  end.

(** [__call__]: [self.input_spec] as the call leaves it, and how it
    ended. *)
Definition __call__ (input_spec state_spec : attr) (inputs : X)
    (initial_state : initial_state_arg) (kwargs : KW) : attr * outcome :=
  match initial_state with
  | NoInitialState =>
      let '(after, r) := super_call input_spec (Plain inputs) kwargs None in
      (after, of_result r)
  | _ =>
      let initial_state :=
        match initial_state with
        | TensorList l => l
        | OneTensor t => [t]
        | NoInitialState => []
        end in
      match initial_state with
      | [] => (input_spec, Raised IndexError)
      | first :: _ =>
          let is_keras_tensor := is_keras first in
          if mixed is_keras_tensor initial_state then
            (input_spec, RaisedMixed)
          else if is_keras_tensor then
            (* Compute the full input spec, including state *)
            let input_spec := as_list input_spec in
            let state_spec := as_list state_spec in
            (* Perform the call *)
            let '(after, r) :=
              super_call (Several (input_spec ++ state_spec))
                         (WithStates inputs initial_state) kwargs None in
            match r with
            | Ok output =>
                (* Restore original input spec *)
                (Several input_spec, Returned output)
            | Raise e => (after, Raised e)
            end
          else
            let '(after, r) :=
              super_call input_spec (Plain inputs) kwargs
                         (Some initial_state) in
            (after, of_result r)
      end
  end.

End Dunder.

End Call.

(** ** [Recurrent.compute_output_shape] and [Recurrent.compute_mask] *)

Module Shapes.

(** A shape tuple, whose entries are integers or [None]. *)
Abbreviation dims := (list (option nat)).

(** The [input_shape] argument: a shape, or a list of shapes. *)
Inductive shape_arg : Type :=
| OneShape (s : dims)
| ShapeList (l : list dims).

(** What [compute_output_shape] returns: a shape, or a list of shapes. *)
Inductive shapes : Type :=
| AShape (s : dims)
| Shapes (l : list dims).

Definition compute_output_shape (self : Recurrent.attrs)
    (input_shape : shape_arg) : result shapes :=
  input_shape <-
    match input_shape with
    | ShapeList l => item l 0
    | OneShape s => Ok s
    end ;;
  output_shape <-
    (if Recurrent.return_sequences self then
       d0 <- item input_shape 0 ;;
       d1 <- item input_shape 1 ;;
       Ok [d0; d1; Some (Recurrent.units self)]
     else
       d0 <- item input_shape 0 ;;
       Ok [d0; Some (Recurrent.units self)]) ;;
  if Recurrent.return_state self then
    state_shape <-
      (match Recurrent.states self with
       | [] => Ok []
       | _ :: _ =>
           d0 <- item input_shape 0 ;;
           Ok (map (fun _ => [d0; Some (Recurrent.units self)])
                   (Recurrent.states self))
       end) ;;
    Ok (Shapes (output_shape :: state_shape))
  else Ok (AShape output_shape).

(** A mask, or [None]. *)
Abbreviation mask := (option (list (list bool))).

(** The [mask] argument: a mask or [None], or a list of them. *)
Inductive mask_arg : Type :=
| OneMask (m : mask)
| Masks (l : list mask).

Inductive masks : Type :=
| AMask (m : mask)
| MaskList (l : list mask).

Definition compute_mask (self : Recurrent.attrs) (mask : mask_arg)
  : result masks :=
  mask <-
    match mask with
    | Masks l => item l 0
    | OneMask m => Ok m
    end ;;
  let output_mask := if Recurrent.return_sequences self then mask else None in
  if Recurrent.return_state self then
    let state_mask := map (fun _ => None) (Recurrent.states self) in
    Ok (MaskList (output_mask :: state_mask))
  else Ok (AMask output_mask).

(** [K.int_shape(inputs)] as a shape argument. *)
Definition dims_of (x : K.ktensor) : dims :=
  let '(samples, timesteps, dim) := K.int_shape x in
  [samples; timesteps; dim].

(** An entry of a shape agrees with a length: it is that length, or
    [None]. *)
Definition dim_ok (d : option nat) (n : nat) : Prop :=
  match d with
  | Some k => k = n
  | None => True
  end.

(** A tensor has a given shape. *)
Definition fits_tensor (d : dims) (t : tensor) : Prop :=
  match d, t with
  | [rows; width], T2 m =>
      dim_ok rows (length m)
      /\ Forall (fun row => dim_ok width (length row)) m
  | [samples; timesteps; width], T3 c =>
      dim_ok samples (length c)
      /\ Forall (fun sample =>
                   dim_ok timesteps (length sample)
                   /\ Forall (fun v : vec => dim_ok width (length v)) sample)
                c
  | _, _ => False
  end.

(** What [call] returned has the shapes [compute_output_shape] gave: a
    tensor for a shape, a list of tensors for a list of as many shapes. *)
Definition fits (s : shapes) (r : Recurrent.returned) : Prop :=
  match s, r with
  | AShape d, Recurrent.RTensor t => fits_tensor d t
  | Shapes l, Recurrent.RList objs =>
      Forall2 (fun d o =>
                 match o with
                 | Tensor t => fits_tensor d t
                 | _ => False
                 end) l objs
  | _, _ => False
  end.

(** A dropout constant that [times] can multiply a matrix of [rows] rows
    by without losing rows. *)
Definition rows_ok (rows : nat) (m : tensor) : Prop :=
  match m with
  | T0 _ | T1 _ => True
  | T2 m' => length m' = rows
  | T3 _ => False
  end.

(** What [call] returned has the form of what [compute_mask] gave: a
    tensor for a mask, a list for a list of as many masks. *)
Definition same_form (m : masks) (r : Recurrent.returned) : Prop :=
  match m, r with
  | AMask _, Recurrent.RTensor _ => True
  | MaskList l, Recurrent.RList objs => length l = length objs
  | _, _ => False
  end.

End Shapes.

(** ** The dropout rates [__init__] stores *)

Module Init.

Local Open Scope R_scope.

(** [min(1., max(0., rate))] *)
Definition clamp (rate : R) : R := Rmin 1 (Rmax 0 rate).

(** [self.dropout = min(1., max(0., dropout))] and
    [self.recurrent_dropout = min(1., max(0., recurrent_dropout))], the two
    assignments of the [__init__] of [SimpleRNN], [GRU] and [LSTM], on the
    attributes of the layer. *)
Definition set_rates (a : Recurrent.attrs) (dropout recurrent_dropout : R)
  : Recurrent.attrs :=
  {| Recurrent.return_sequences := Recurrent.return_sequences a;
     Recurrent.return_state := Recurrent.return_state a;
     Recurrent.go_backwards := Recurrent.go_backwards a;
     Recurrent.stateful := Recurrent.stateful a;
     Recurrent.unroll := Recurrent.unroll a;
     Recurrent.implementation := Recurrent.implementation a;
     Recurrent.units := Recurrent.units a;
     Recurrent.states := Recurrent.states a;
     Recurrent.batch_size := Recurrent.batch_size a;
     Recurrent.dropout := clamp dropout;
     Recurrent.recurrent_dropout := clamp recurrent_dropout;
     Recurrent.name := Recurrent.name a |}.

End Init.

(** ** A sequence fed to a stateful layer in two parts *)

Module Chunks.

(** Two batches of the same samples, one after the other in time:
    [K.concatenate([x1, x2], axis=1)]. *)
Definition concat_time (x1 x2 : K.ktensor) : K.ktensor :=
  {| K.value := map2 (@app vec) (K.value x1) (K.value x2);
     K.time_defined := K.time_defined x1 && K.time_defined x2 |}.

(** The layer once the backend has run the updates of a call. *)
Definition after_updates (self : SimpleRNN.t)
    (updates : list Recurrent.update) : SimpleRNN.t :=
  {| SimpleRNN.attrs :=
       Recurrent.set_states
         (SimpleRNN.attrs self)
         (Recurrent.run_updates (Recurrent.states (SimpleRNN.attrs self))
                                updates);
     SimpleRNN.kernel := SimpleRNN.kernel self;
     SimpleRNN.recurrent_kernel := SimpleRNN.recurrent_kernel self;
     SimpleRNN.bias := SimpleRNN.bias self;
     SimpleRNN.activation := SimpleRNN.activation self |}.

(** What two calls returned, as one: output sequences one after the other
    in time, and of anything else what the second call returned. *)
Definition join (r1 r2 : Recurrent.returned) : Recurrent.returned :=
  match r1, r2 with
  | Recurrent.RTensor (T3 o1), Recurrent.RTensor (T3 o2) =>
      Recurrent.RTensor (T3 (map2 (@app vec) o1 o2))
  | Recurrent.RList (Tensor (T3 o1) :: _),
    Recurrent.RList (Tensor (T3 o2) :: states) =>
      Recurrent.RList (Tensor (T3 (map2 (@app vec) o1 o2)) :: states)
  | _, _ => r2
  end.

End Chunks.

(** ** What [AttLSTMCond] hands to its step *)

Module Attention.

Local Open Scope R_scope.

(** The attributes of a built [AttLSTMCond] that its step does not read:
    [context], [init_state] and [init_memory] are what [call] stored from
    its inputs. *)
Record t : Type := {
  cell : AttLSTMCond.t;
  dropout : R;
  recurrent_dropout : R;
  attention_dropout : R;
  context_dim : nat;
  attention_context_kernel : mat;     (* (context_dim, att_units) *)
  bias_ba : option vec;               (* None unless use_bias *)
  mask_value : R;
  context : cube;
  init_state : option pyobj;
  init_memory : option pyobj
}.

(** Modelled from the spec: [K.sum(x, axis=2)] of a 3-D tensor. *)
Definition sum_axis_2 (c : cube) : mat := map (map Rsum) c.

(** Modelled from the spec: [K.not_equal(x, value)], as the tensor of
    ones and zeros that the step multiplies the scores by. *)
Definition not_equal (m : mat) (v : R) : mat :=
  mmap (fun x => if Req_dec_T x v then 0 else 1) m.

(** Modelled from the spec: [K.dot(x, w)] for a 3-D [x] and a 2-D [w]. *)
Definition dot32 (c : cube) (w : mat) : cube :=
  map (fun sample => K.dot sample w) c.

(** Modelled from the spec: [K.bias_add(x, b)] for a 3-D [x]. *)
Definition bias_add3 (c : cube) (b : vec) : cube :=
  map (fun sample => K.bias_add sample b) c.

(** Modelled from the spec: [K.dropout(x, level)] for a 3-D [x], entry
    by entry as [K.dropout] on a matrix. *)
Definition dropout3 (s : K.session) (x : cube) (level : R)
  : cube * K.session :=
  let timesteps := n_timesteps x in
  let width := n_dim x in
  (map (fun ir =>
          map (fun jr =>
                 map (fun kv =>
                        snd kv
                        * K.keep s ((fst ir * timesteps + fst jr) * width
                                    + fst kv)
                        / (1 - level))
                     (K.indexed (snd jr)))
              (K.indexed (snd ir)))
       (K.indexed x),
   K.advance s (length x * timesteps * width)).

Definition units (self : t) : nat := AttLSTMCond.units (cell self).

Definition get_initial_states (self : t) (inputs : cube) : list pyobj :=
  (* build an all-zero tensor of shape (samples, units) *)
  let zero_state :=
    let initial_state := K.zeros_like inputs in
    let initial_state := K.sum_axes_1_2 initial_state in
    let initial_state := K.expand_dims initial_state in
    Tensor (T2 (K.tile_cols initial_state (units self))) in
  let initial_states :=
    match init_state self with
    | None =>
        match init_memory self with
        | None => [zero_state; zero_state]
        | Some initial_memory => [zero_state; initial_memory]
        end
    | Some initial_state =>
        match init_memory self with
        | Some initial_memory => [initial_state; initial_memory]
        | None => [initial_state; initial_state]
        end
    end in
  let initial_state := K.zeros_like (context self) in
  let initial_state_alphas := sum_axis_2 initial_state in
  let initial_state := AttLSTMCond.sum_positions initial_state in
  let extra_states :=
    [Tensor (T2 initial_state); Tensor (T2 initial_state_alphas)] in
  initial_states ++ extra_states.

(** [get_constants]: the six constants, or the exception of
    [K.bias_add(pctx, self.bias_ba)], and the session afterwards.  The
    static shape of the context is taken to be known, as [int(input_dim)]
    needs it. *)
Definition get_constants (self : t) (s : K.session) (inputs : K.ktensor)
    (mask_context : option tensor) (training : option bool)
  : result (list pyobj) * K.session :=
  (* States[4] - Dropout_W *)
  let '(dp_mask, s) :=
    if in_unit_interval (dropout self) then
      let input_dim := n_dim (context self) in
      let ones_ := Constants.ones_mask inputs input_dim in
      Constants.dropout_masks 4 s ones_ (dropout self) training
    else (repeat Constants.one 4, s) in
  (* States[5] - Dropout_U *)
  let '(rec_dp_mask, s) :=
    if in_unit_interval (recurrent_dropout self) then
      let ones_ := Constants.ones_mask inputs (units self) in
      Constants.dropout_masks 4 s ones_ (recurrent_dropout self) training
    else (repeat Constants.one 4, s) in
  (* States[6] - Dropout_Wa *)
  let '(att_dp_mask, s) :=
    if in_unit_interval (attention_dropout self) then
      let input_dim := units self in
      let ones_ := Constants.ones_mask inputs input_dim in
      Constants.dropout_masks 1 s ones_ (recurrent_dropout self) training
    else (repeat Constants.one 1, s) in
  let '(pctx, s) :=
    if in_unit_interval (attention_dropout self) then
      let input_dim := context_dim self in
      let ones_ := map (map (fun _ : vec => repeat 1 input_dim))
                       (context self) in
      let '(dropped, s') := dropout3 s ones_ (attention_dropout self) in
      let B_Ua := K.in_train_phase_value s' dropped ones_ None in
      (dot32 (cmul (context self) B_Ua) (attention_context_kernel self), s')
    else (dot32 (context self) (attention_context_kernel self), s) in
  let pctx :=
    if AttLSTMCond.use_bias (cell self) then
      match bias_ba self with
      | Some b => Ok (bias_add3 pctx b)
      | None => Raise TypeError
      end
    else Ok pctx in
  (* States[9] - mask_context *)
  let mask_context :=
    match mask_context with
    | None => T2 (not_equal (sum_axis_2 (context self)) (mask_value self))
    | Some m => m
    end in
  (pctx <- pctx ;;
   Ok [PyList dp_mask; PyList rec_dp_mask; PyList att_dp_mask;
       (* States[7] - pctx_ *)
       Tensor (T3 pctx);
       (* States[8] - context *)
       Tensor (T3 (context self));
       Tensor mask_context],
   s).

(** The layer built with another [attention_dropout]. *)
Definition with_attention_dropout (self : t) (rate : R) : t :=
  {| cell := cell self;
     dropout := dropout self;
     recurrent_dropout := recurrent_dropout self;
     attention_dropout := rate;
     context_dim := context_dim self;
     attention_context_kernel := attention_context_kernel self;
     bias_ba := bias_ba self;
     mask_value := mask_value self;
     context := context self;
     init_state := init_state self;
     init_memory := init_memory self |}.

(** A list of masks as [get_constants] builds them: [n] scalars or
    matrices. *)
Definition mask_list (n : nat) (l : list tensor) : Prop :=
  length l = n /\ Forall (fun t => (ndim t <= 2)%nat) l.

End Attention.

(** ** More layers to evaluate the code on *)

Module Layers.

Local Open Scope R_scope.

(** An [LSTM] of one unit with a bias of zeros and linear activations. *)
Definition lstm : LSTM.t :=
  {| LSTM.attrs :=
       {| Recurrent.return_sequences := false;
          Recurrent.return_state := false;
          Recurrent.go_backwards := false;
          Recurrent.stateful := false;
          Recurrent.unroll := false;
          Recurrent.implementation := 1;
          Recurrent.units := 1;
          Recurrent.states := [None; None];
          Recurrent.batch_size := None;
          Recurrent.dropout := 0;
          Recurrent.recurrent_dropout := 0;
          Recurrent.name := "lstm" |};
     LSTM.kernel := [[1; 1; 1; 1]];
     LSTM.recurrent_kernel := [[0; 0; 0; 0]];
     LSTM.use_bias := true;
     LSTM.bias := Some [0; 0; 0; 0];
     LSTM.activation := fun m => m;
     LSTM.recurrent_activation := fun m => m |}.

(** The same layer built with [use_bias=False]. *)
Definition lstm_without_bias : LSTM.t :=
  {| LSTM.attrs := LSTM.attrs lstm;
     LSTM.kernel := LSTM.kernel lstm;
     LSTM.recurrent_kernel := LSTM.recurrent_kernel lstm;
     LSTM.use_bias := false;
     LSTM.bias := None;
     LSTM.activation := LSTM.activation lstm;
     LSTM.recurrent_activation := LSTM.recurrent_activation lstm |}.

(** The states and constants of a step of [lstm] for one sample. *)
Definition lstm_states : list pyobj :=
  [Tensor (T2 [[0]]); Tensor (T2 [[0]]);
   Examples.no_dropout 4; Examples.no_dropout 4].

(** The attention layer [Examples.att] built with [use_bias=False]. *)
Definition att_without_bias : AttLSTMCond.t :=
  {| AttLSTMCond.units := AttLSTMCond.units Examples.att;
     AttLSTMCond.kernel := AttLSTMCond.kernel Examples.att;
     AttLSTMCond.recurrent_kernel := AttLSTMCond.recurrent_kernel Examples.att;
     AttLSTMCond.attention_recurrent_kernel :=
       AttLSTMCond.attention_recurrent_kernel Examples.att;
     AttLSTMCond.attention_context_wa :=
       AttLSTMCond.attention_context_wa Examples.att;
     AttLSTMCond.use_bias := false;
     AttLSTMCond.bias := None;
     AttLSTMCond.bias_ca := None;
     AttLSTMCond.activation := AttLSTMCond.activation Examples.att;
     AttLSTMCond.recurrent_activation :=
       AttLSTMCond.recurrent_activation Examples.att |}.

(** A [Layer.__call__] that stores a further specification in
    [self.input_spec] and returns the number of specifications it was run
    with. *)
Definition building_call (spec : @Call.attr nat)
    (inputs : @Call.super_inputs bool unit) (kwargs : unit)
    (initial_state : option (list bool)) : @Call.attr nat * result nat :=
  (Call.Several (None :: Call.as_list spec), Ok (length (Call.as_list spec))).

(** A stateful [SimpleRNN] of one unit, built for batches of one sample
    and reset: [h_t = x_t + 2 * h_tm1], all outputs returned. *)
Definition stateful_rnn : SimpleRNN.t :=
  {| SimpleRNN.attrs :=
       {| Recurrent.return_sequences := true;
          Recurrent.return_state := false;
          Recurrent.go_backwards := false;
          Recurrent.stateful := true;
          Recurrent.unroll := false;
          Recurrent.implementation := 2;
          Recurrent.units := 1;
          Recurrent.states := [Some (T2 [[0]])];
          Recurrent.batch_size := Some 1%nat;
          Recurrent.dropout := 0;
          Recurrent.recurrent_dropout := 0;
          Recurrent.name := "stateful" |};
     SimpleRNN.kernel := [[1]];
     SimpleRNN.recurrent_kernel := [[2]];
     SimpleRNN.bias := None;
     SimpleRNN.activation := Some (fun m => m) |}.

(** [Examples.att] as a built layer without dropout, called on a context
    of one sample, two positions and two features. *)
Definition attention : Attention.t :=
  {| Attention.cell := Examples.att;
     Attention.dropout := 0;
     Attention.recurrent_dropout := 0;
     Attention.attention_dropout := 0;
     Attention.context_dim := 2;
     Attention.attention_context_kernel := [[1]; [1]];
     Attention.bias_ba := Some [0];
     Attention.mask_value := 0;
     Attention.context := [[[1; 2]; [3; 4]]];
     Attention.init_state := None;
     Attention.init_memory := None |}.


End Layers.

(** ** The gates of [GRU] and [LSTM], written out

    The gates as the papers cited in the class docstrings define them: the
    update gate [z], the reset gate [r] and the candidate [hh] of a GRU, the
    gates [i], [f], [o] and the candidate of an LSTM, as functions of the
    input [x] of a timestep, the previous state [h], the weights and the
    dropout masks on the input and on the recurrent connections. *)

Module Gates.

Local Open Scope R_scope.

(** [x * m] for a dropout constant [m] as [get_constants] builds them: the
    scalar [K.cast_to_floatx(1.)], or a mask of the shape of [x]. *)
Definition masked (x : mat) (m : tensor) : mat :=
  match m with
  | T0 c => mmap (fun v => v * c) x
  | T2 m' => mmul x m'
  | T1 _ | T3 _ => x
  end.

(** A dropout constant for operands of shape [(rows, width)]. *)
Definition mask_for (rows width : nat) (m : tensor) : Prop :=
  match m with
  | T0 _ => True
  | T2 m' => has_shape rows width m'
  | T1 _ | T3 _ => False
  end.

(** [m + b], for a bias that a layer built with [use_bias=False] lacks. *)
Definition with_bias (m : mat) (b : option vec) : mat :=
  match b with
  | Some b' => K.bias_add m b'
  | None => m
  end.

(** The mask of gate number [g] among the masks of a layer: its own in the
    implementations 0 and 1, the first of the list in implementation 2. *)
Definition mask_of_gate (implementation g : nat) (masks : list tensor)
  : tensor :=
  nth (match implementation with 2 => 0 | _ => g end) masks Constants.one.

(** What the input contributes to a gate whose slices of the kernel and of
    the bias are [w] and [b]: in implementation 0 the gate's slice of an
    input that was projected beforehand, otherwise the projection
    [(x * mask) . w + b]. *)
Definition input_part (implementation : nat) (slice : mat -> mat) (w : mat)
    (b : option vec) (mask : tensor) (x : mat) : mat :=
  match implementation with
  | 0 => slice x
  | _ => with_bias (K.dot (masked x mask) w) b
  end.

(** The update gate [z = sigma(x_z + (h * mask_z) . U_z)]. *)
Definition gru_z (self : GRU.t) (dp rdp : list tensor) (x h : mat) : mat :=
  let mode := GRU.implementation self in
  let u := GRU.units self in
  GRU.recurrent_activation self
    (madd (input_part mode (cols 0 u) (GRU.kernel_z self) (GRU.bias_z self)
                      (mask_of_gate mode 0 dp) x)
          (K.dot (masked h (mask_of_gate mode 0 rdp))
                 (GRU.recurrent_kernel_z self))).

(** The reset gate [r = sigma(x_r + (h * mask_r) . U_r)]. *)
Definition gru_r (self : GRU.t) (dp rdp : list tensor) (x h : mat) : mat :=
  let mode := GRU.implementation self in
  let u := GRU.units self in
  GRU.recurrent_activation self
    (madd (input_part mode (cols u (2 * u)) (GRU.kernel_r self)
                      (GRU.bias_r self) (mask_of_gate mode 1 dp) x)
          (K.dot (masked h (mask_of_gate mode 1 rdp))
                 (GRU.recurrent_kernel_r self))).

(** The candidate [hh = tanh(x_h + ((r * h) * mask_h) . U_h)]. *)
Definition gru_hh (self : GRU.t) (dp rdp : list tensor) (x h : mat) : mat :=
  let mode := GRU.implementation self in
  let u := GRU.units self in
  GRU.activation self
    (madd (input_part mode (cols_from (2 * u)) (GRU.kernel_h self)
                      (GRU.bias_h self) (mask_of_gate mode 2 dp) x)
          (K.dot (masked (mmul (gru_r self dp rdp x h) h)
                         (mask_of_gate mode 2 rdp))
                 (GRU.recurrent_kernel_h self))).

(** The new state of a GRU: [z * h + (1 - z) * hh]. *)
Definition gru (self : GRU.t) (dp rdp : list tensor) (x h : mat) : mat :=
  let z := gru_z self dp rdp x h in
  madd (mmul z h) (mmul (one_minus z) (gru_hh self dp rdp x h)).

(** What an LSTM gate applies its activation to: the contribution of the
    input, the contribution [(h * mask) . U] of the previous state and the
    bias.  Implementation 1 adds the bias to the contribution of the input,
    implementation 2 adds it last; in implementation 0 it is part of the
    projected input. *)
Definition lstm_sum (self : LSTM.t) (g : nat) (slice : mat -> mat)
    (w u : mat) (b : option vec) (dp rdp : list tensor) (x h : mat) : mat :=
  let mode := LSTM.implementation self in
  let from_state := K.dot (masked h (mask_of_gate mode g rdp)) u in
  let from_input := K.dot (masked x (mask_of_gate mode g dp)) w in
  match mode with
  | 0 => madd (slice x) from_state
  | 1 => madd (with_bias from_input b) from_state
  | _ => with_bias (madd from_input from_state) b
  end.

(** The input gate [i]. *)
Definition lstm_i (self : LSTM.t) (dp rdp : list tensor) (x h : mat) : mat :=
  let u := LSTM.units self in
  LSTM.recurrent_activation self
    (lstm_sum self 0 (cols 0 u) (LSTM.kernel_i self)
              (LSTM.recurrent_kernel_i self) (LSTM.bias_i self) dp rdp x h).

(** The forget gate [f]. *)
Definition lstm_f (self : LSTM.t) (dp rdp : list tensor) (x h : mat) : mat :=
  let u := LSTM.units self in
  LSTM.recurrent_activation self
    (lstm_sum self 1 (cols u (2 * u)) (LSTM.kernel_f self)
              (LSTM.recurrent_kernel_f self) (LSTM.bias_f self) dp rdp x h).

(** The candidate cell state. *)
Definition lstm_candidate (self : LSTM.t) (dp rdp : list tensor)
    (x h : mat) : mat :=
  let u := LSTM.units self in
  LSTM.activation self
    (lstm_sum self 2 (cols (2 * u) (3 * u)) (LSTM.kernel_c self)
              (LSTM.recurrent_kernel_c self) (LSTM.bias_c self) dp rdp x h).

(** The output gate [o]. *)
Definition lstm_o (self : LSTM.t) (dp rdp : list tensor) (x h : mat) : mat :=
  let u := LSTM.units self in
  LSTM.recurrent_activation self
    (lstm_sum self 3 (cols_from (3 * u)) (LSTM.kernel_o self)
              (LSTM.recurrent_kernel_o self) (LSTM.bias_o self) dp rdp x h).

(** The new cell state of an LSTM: [f * c + i * candidate]. *)
Definition lstm_c (self : LSTM.t) (dp rdp : list tensor) (x h c : mat)
  : mat :=
  madd (mmul (lstm_f self dp rdp x h) c)
       (mmul (lstm_i self dp rdp x h) (lstm_candidate self dp rdp x h)).

(** The new hidden state of an LSTM: [o * tanh(c)]. *)
Definition lstm_h (self : LSTM.t) (dp rdp : list tensor) (x h c : mat)
  : mat :=
  mmul (lstm_o self dp rdp x h)
       (LSTM.activation self (lstm_c self dp rdp x h c)).


(** The width of the input a step is handed: the input dimension, or in
    implementation 0 the width of the [gates] projections side by side. *)
Definition input_width (implementation input_dim units gates : nat) : nat :=
  match implementation with
  | 0 => gates * units
  | _ => input_dim
  end.

(** An activation that returns a tensor of the shape of its argument, as
    the elementwise activations of [keras.activations] do. *)
Definition keeps_shape (f : mat -> mat) (rows width : nat) : Prop :=
  forall m, has_shape rows width m -> has_shape rows width (f m).

(** The weights of a [GRU] as [build] creates them for inputs of dimension
    [input_dim]: a kernel of shape [(input_dim, 3 * units)], a recurrent
    kernel of shape [(units, 3 * units)] and, with [use_bias], a bias of
    [3 * units] entries. *)
Definition gru_built (self : GRU.t) (input_dim : nat) : Prop :=
  (0 < input_dim)%nat
  /\ (0 < GRU.units self)%nat
  /\ has_shape input_dim (3 * GRU.units self)%nat (GRU.kernel self)
  /\ has_shape (GRU.units self) (3 * GRU.units self)%nat
               (GRU.recurrent_kernel self)
  /\ (GRU.use_bias self = true ->
      exists b, GRU.bias self = Some b /\ length b = (3 * GRU.units self)%nat).

(** The weights of an [LSTM] as [build] creates them: a kernel of shape
    [(input_dim, 4 * units)], a recurrent kernel of shape
    [(units, 4 * units)] and, with [use_bias], a bias of [4 * units]
    entries. *)
Definition lstm_built (self : LSTM.t) (input_dim : nat) : Prop :=
  (0 < input_dim)%nat
  /\ (0 < LSTM.units self)%nat
  /\ has_shape input_dim (4 * LSTM.units self)%nat (LSTM.kernel self)
  /\ has_shape (LSTM.units self) (4 * LSTM.units self)%nat
               (LSTM.recurrent_kernel self)
  /\ (LSTM.use_bias self = true ->
      exists b, LSTM.bias self = Some b /\ length b = (4 * LSTM.units self)%nat).



End Gates.

(** ** [AttLSTMCond.preprocess_input]: the masks of the conditional input *)

Module Conditional.

Local Open Scope R_scope.

(** The attributes the method reads. *)
Record t : Type := {
  conditional_dropout : R;
  recurrent_dropout : R;
  input_dim : nat
}.


(** [[K.in_train_phase(dropped_inputs, ones, training=training)
      for _ in range(n)]] with
    [dropped_inputs = lambda: K.dropout(ones, level)], for 3-D [ones]. *)
Fixpoint dropout_masks (n : nat) (s : K.session) (ones_ : cube) (level : R)
    (training : option bool) : list tensor * K.session :=
  match n with
  | O => ([], s)
  | S n' =>
      let '(m, s1) :=
        K.in_train_phase s (fun s0 => Attention.dropout3 s0 ones_ level)
                         ones_ training in
      let '(ms, s2) := dropout_masks n' s1 ones_ level training in
      (T3 m :: ms, s2)
  end.



End Conditional.

(** ** The attention of [AttLSTMCond], written out

    The attention model of the class docstring: the score of a position of
    the context is [wa . tanh(pctx + h . Wa) + ca], the weights are the
    softmax of the scores, and the context vector is the sum of the
    positions of the context weighted by them. *)

Module Attend.

Local Open Scope R_scope.

(** A 3-D tensor of shape [(samples, positions, width)]. *)
Definition has_shape3 (samples positions width : nat) (c : cube) : Prop :=
  length c = samples /\ Dense.well_shaped positions width c.

(** The weights of an [AttLSTMCond] as [build] creates them with
    [use_bias] for a context of [positions] positions and [context_dim]
    features and an attention space of [att_units] dimensions. *)
Definition built (self : AttLSTMCond.t) (context_dim att_units positions : nat)
  : Prop :=
  let u := AttLSTMCond.units self in
  (0 < context_dim)%nat /\ (0 < att_units)%nat /\ (0 < positions)%nat
  /\ (0 < u)%nat
  /\ has_shape context_dim (4 * u) (AttLSTMCond.kernel self)
  /\ has_shape u (4 * u) (AttLSTMCond.recurrent_kernel self)
  /\ has_shape u att_units (AttLSTMCond.attention_recurrent_kernel self)
  /\ length (AttLSTMCond.attention_context_wa self) = att_units
  /\ (exists bca, AttLSTMCond.bias_ca self = Some bca
                  /\ length bca = positions)
  /\ (AttLSTMCond.use_bias self = true ->
      exists b, AttLSTMCond.bias self = Some b /\ length b = (4 * u)%nat).

(** The mask of the context a step is handed: of shape
    [(samples, positions)], or of fewer than two dimensions, which the step
    takes for no mask. *)
Definition mask_fits (samples positions : nat) (mask_context : tensor)
  : Prop :=
  match mask_context with
  | T2 m => has_shape samples positions m
  | T0 _ | T1 _ => True
  | T3 _ => False
  end.

(** The context the weights apply to: under a 2-D mask, the context with
    its masked positions zeroed. *)
Definition masked_context (mask_context : tensor) (context : cube) : cube :=
  match mask_context with
  | T2 m => AttLSTMCond.mask_positions m context
  | _ => context
  end.

(** [(h * mask) . Wa], the part of the scores that comes from the previous
    hidden state. *)
Definition projected_state (self : AttLSTMCond.t) (h : mat)
    (att_dp_mask : tensor) : mat :=
  K.dot (Gates.masked h att_dp_mask)
        (AttLSTMCond.attention_recurrent_kernel self).

(** The scoring function on the projected context [p] of a position, the
    projected state [q] of the sample and the bias [b] of the position:
    [wa . tanh(p + q) + b]. *)
Definition score (self : AttLSTMCond.t) (p q : vec) (b : R) : R :=
  K.inner (map tanh (vadd p q)) (AttLSTMCond.attention_context_wa self) + b.

(** The score of position [j] of sample [i]; a 2-D mask multiplies the
    projected context of the position and its score. *)
Definition score_at (self : AttLSTMCond.t) (h : mat) (att_dp_mask : tensor)
    (pctx_ : cube) (mask_context : tensor) (bca : vec) (i j : nat) : R :=
  let p := nth j (nth i pctx_ []) [] in
  let q := nth i (projected_state self h att_dp_mask) [] in
  let b := nth j bca 0 in
  match mask_context with
  | T2 m =>
      let mij := nth j (nth i m []) 0 in
      mij * score self (vscale mij p) q b
  | _ => score self p q b
  end.

(** An initial state or memory passed to the layer: none, or a tensor of
    shape [(samples, units)]. *)
Definition state_fits (samples units : nat) (o : option pyobj) : Prop :=
  match o with
  | None => True
  | Some (Tensor (T2 m)) => has_shape samples units m
  | Some _ => False
  end.

(** The mask of the context passed to [get_constants]: none, or one that
    fits. *)
Definition mask_arg_fits (samples positions : nat) (o : option tensor)
  : Prop :=
  match o with
  | None => True
  | Some m => mask_fits samples positions m
  end.

End Attend.

(** * Properties *)

Import Recurrent.

Ltac inv H := inversion H; subst; clear H.

Lemma bind_ok {A B : Type} (r : result A) (k : A -> result B) (b : B) :
  Py.bind r k = Ok b -> exists a, r = Ok a /\ k a = Ok b.
Proof.
  destruct r as [a|e]; simpl; intros E; [eauto | discriminate].
Qed.

Lemma shape_eqb_eq (a b : list nat) : shape_eqb a b = true <-> a = b.
Proof.
  revert b; induction a as [|x a IH]; intros [|y b]; simpl;
    try (split; [discriminate | discriminate]); [tauto|].
  rewrite andb_true_iff, Nat.eqb_eq, IH.
  split; [intros [-> ->]; reflexivity | intros E; inv E; auto].
Qed.

(** *** C9: the number of initial states is checked first *)

(** C9.  When the caller supplies initial states, as extra inputs or as
    the [initial_state] argument, and their number differs from the number
    of states of the layer, [call] raises the [ValueError] of the count
    check, whatever the step function would do; when the numbers agree the
    check raises nothing and [call] is the scan that follows it. *)
Theorem call_checks_state_count :
  forall (Self : Type) (L : Layer Self) (self : Self) (s : K.session)
         (inputs : call_inputs) (mask : call_mask) (training : option bool)
         (initial_state : option (list pyobj)) (given : list pyobj),
    supplied_initial_state inputs initial_state = Some given ->
    (length given <> length (states (base self)) ->
     call self s inputs mask training initial_state
     = Raise (ValueError (StateCountMismatch (length (states (base self)))
                                             (length given))))
    /\ (length given = length (states (base self)) ->
        call self s inputs mask training initial_state
        = scan_and_return self s (input_tensor inputs) (mask_of mask) given).
Proof.
  intros Self L self s inputs mask training initial_state given Hs.
  unfold call, initial_state_of; rewrite Hs.
  split; intros Hlen.
  - apply Nat.eqb_neq in Hlen; rewrite Hlen; reflexivity.
  - apply Nat.eqb_eq in Hlen; rewrite Hlen; reflexivity.
Qed.

(** A stateful layer of two states called with one initial state. *)
Lemma call_checks_state_count_witness :
  call Examples.stateful_pair Examples.session0
       (InTensor Examples.two_steps) NoMask None
       (Some [Tensor (T2 [[0%R]])])
  = Raise (ValueError (StateCountMismatch 2 1)).
Proof.
  apply (proj1 (call_checks_state_count attrs abstract_layer
                  Examples.stateful_pair Examples.session0
                  (InTensor Examples.two_steps) NoMask None
                  (Some [Tensor (T2 [[0%R]])]) [Tensor (T2 [[0%R]])]
                  eq_refl)).
  simpl. discriminate.
Defined.

(** *** C10: [reset_states] *)

Lemma uniform_head_some (t : tensor) (rest : list (option tensor)) :
  uniform (Some t :: rest) = true -> forallb is_some rest = true.
Proof.
  unfold uniform; simpl; intros H; exact H.
Qed.

Lemma zero_states_loop_all (batch units : nat) (stored : list (option tensor)) :
  forallb is_some stored = true ->
  zero_states_loop batch units stored
  = (map (fun _ => Some (T2 (zeros batch units))) stored, Ok tt).
Proof.
  induction stored as [|[t|] rest IH]; simpl; intros H;
    [reflexivity | | discriminate].
  rewrite (IH H); reflexivity.
Qed.

Lemma set_states_loop_no_attribute_error
    (batch units : nat) (vs : list tensor) :
  forall (stored : list (option tensor)) (index : nat),
    forallb is_some stored = true ->
    is_attribute_error
      (snd (set_states_loop batch units index (combine vs stored))) = false.
Proof.
  induction vs as [|v vs IH]; intros [|[t|] rest] index H; simpl in *;
    try reflexivity; try discriminate.
  destruct (shape_eqb (shape v) [batch; units]); simpl; [|reflexivity].
  specialize (IH rest (S index) H).
  destruct (set_states_loop batch units (S index) (combine vs rest)) as [r' e'].
  exact IH.
Qed.

Lemma set_states_loop_mismatch (batch units : nat) (vs : list tensor) :
  forall (stored : list (option tensor)) (index k : nat),
    forallb is_some stored = true ->
    length vs = length stored ->
    k < length vs ->
    (forall j, j < k -> shape (nth j vs (T0 0)) = [batch; units]) ->
    shape (nth k vs (T0 0)) <> [batch; units] ->
    set_states_loop batch units index (combine vs stored)
    = (map Some (firstn k vs) ++ skipn k stored,
       Raise (ValueError (ResetShapeMismatch (index + k) [batch; units]
                                             (shape (nth k vs (T0 0)))))).
Proof.
  induction vs as [|v vs IH]; intros stored index k Hs Hlen Hk Hpre Hbad;
    simpl in Hk; [lia|].
  destruct stored as [|[t|] rest]; simpl in *; try discriminate.
  destruct k as [|k].
  - simpl in Hbad.
    destruct (shape_eqb (shape v) [batch; units]) eqn:E.
    + apply shape_eqb_eq in E; contradiction.
    + simpl. rewrite Nat.add_0_r. repeat f_equal.
      clear -Hlen. revert rest Hlen.
      induction vs as [|v' vs IHvs]; intros [|r rest] Hlen; simpl in *;
        try discriminate; try reflexivity.
      f_equal. apply IHvs. lia.
  - assert (E : shape_eqb (shape v) [batch; units] = true).
    { apply shape_eqb_eq. apply (Hpre 0). lia. }
    rewrite E; simpl.
    rewrite (IH rest (S index) k Hs); try lia.
    + simpl. repeat f_equal. lia.
    + intros j Hj. apply (Hpre (S j)). lia.
    + exact Hbad.
Qed.

Lemma set_states_loop_all (batch units : nat) (vs : list tensor) :
  forall (stored : list (option tensor)) (index : nat),
    forallb is_some stored = true ->
    length vs = length stored ->
    (forall j, j < length vs -> shape (nth j vs (T0 0)) = [batch; units]) ->
    set_states_loop batch units index (combine vs stored)
    = (map Some vs, Ok tt).
Proof.
  induction vs as [|v vs IH]; intros [|[t|] rest] index Hs Hlen Hall;
    simpl in *; try discriminate; [reflexivity|].
  assert (E : shape_eqb (shape v) [batch; units] = true).
  { apply shape_eqb_eq. apply (Hall 0). lia. }
  rewrite E; simpl.
  rewrite (IH rest (S index) Hs); [reflexivity | lia |].
  intros j Hj. apply (Hall (S j)). lia.
Qed.

(** C10, as the code has it.  For a layer whose stored states are all unset
    or all set: [reset_states] raises [AttributeError] if and only if the
    layer is not stateful, and then leaves the layer as it was.  For a
    stateful layer with a known batch size: without an argument every stored
    state becomes the all-zero array of shape [(batch_size, units)]; while
    the states are still unset the argument is ignored and they are created
    as zeros; a list of the wrong length raises [ValueError] and updates
    nothing; a value of the wrong shape at position [k] raises [ValueError]
    after the states before [k] have been set to the values passed for them,
    the states from [k] on keeping their values; and values of the right
    shapes are all stored. *)
Theorem reset_states_outcomes :
  forall (self : attrs) (arg : states_arg),
    uniform (states self) = true ->
    let r := reset_states self arg in
    (is_attribute_error (snd r) = true <-> stateful self = false)
    /\ (stateful self = false -> fst r = self)
    /\ (forall batch,
          stateful self = true -> batch_size self = Some (S batch) ->
          states self <> [] -> arg = NoStates ->
          r = (set_states self
                 (map (fun _ => Some (T2 (zeros (S batch) (units self))))
                      (states self)),
               Ok tt))
    /\ (forall batch rest,
          stateful self = true -> batch_size self = Some (S batch) ->
          states self = None :: rest ->
          r = (set_states self
                 (map (fun _ => Some (T2 (zeros (S batch) (units self))))
                      (states self)),
               Ok tt))
    /\ (forall batch vs t rest,
          stateful self = true -> batch_size self = Some (S batch) ->
          states self = Some t :: rest -> arg = StateList vs ->
          length vs <> length (states self) ->
          r = (self,
               Raise (ValueError (ResetCountMismatch (length (states self))
                                                     (length vs)))))
    /\ (forall batch vs t rest k,
          stateful self = true -> batch_size self = Some (S batch) ->
          states self = Some t :: rest -> arg = StateList vs ->
          length vs = length (states self) ->
          k < length vs ->
          (forall j, j < k ->
                     shape (nth j vs (T0 0)) = [S batch; units self]) ->
          shape (nth k vs (T0 0)) <> [S batch; units self] ->
          r = (set_states self
                 (map Some (firstn k vs) ++ skipn k (states self)),
               Raise (ValueError
                        (ResetShapeMismatch k [S batch; units self]
                                            (shape (nth k vs (T0 0)))))))
    /\ (forall batch vs t rest,
          stateful self = true -> batch_size self = Some (S batch) ->
          states self = Some t :: rest -> arg = StateList vs ->
          length vs = length (states self) ->
          (forall j, j < length vs ->
                     shape (nth j vs (T0 0)) = [S batch; units self]) ->
          r = (set_states self (map Some vs), Ok tt)).
Proof.
  intros self arg Hu r; subst r.
  repeat split.
  - (* AttributeError only when not stateful *)
    unfold reset_states.
    destruct (stateful self); simpl; [|reflexivity].
    destruct (batch_size self) as [[|batch]|]; simpl; try discriminate.
    destruct (states self) as [|[t|] rest] eqn:Est;
      cbv beta iota; try (simpl; discriminate).
    assert (Hall : forallb is_some (Some t :: rest) = true)
      by exact (uniform_head_some _ _ Hu).
    destruct arg as [|v|vs]; cbv beta iota.
    + rewrite (zero_states_loop_all _ _ _ Hall); simpl; discriminate.
    + destruct (negb (length [v] =? length (Some t :: rest)));
        [simpl; discriminate|].
      pose proof (set_states_loop_no_attribute_error (S batch) (units self)
                    [v] (Some t :: rest) 0 Hall) as Hno.
      destruct (set_states_loop (S batch) (units self) 0
                  (combine [v] (Some t :: rest))) as [st e].
      cbn [snd] in *. rewrite Hno; discriminate.
    + destruct (negb (length vs =? length (Some t :: rest)));
        [simpl; discriminate|].
      pose proof (set_states_loop_no_attribute_error (S batch) (units self)
                    vs (Some t :: rest) 0 Hall) as Hno.
      destruct (set_states_loop (S batch) (units self) 0
                  (combine vs (Some t :: rest))) as [st e].
      cbn [snd] in *. rewrite Hno; discriminate.
  - intros Hst. unfold reset_states. rewrite Hst. reflexivity.
  - intros Hst. unfold reset_states. rewrite Hst. reflexivity.
  - intros batch Hst Hb Hne ->.
    unfold reset_states. rewrite Hst, Hb; simpl.
    destruct (states self) as [|[t|] rest] eqn:Est; [contradiction| |reflexivity].
    cbv beta iota.
    rewrite (zero_states_loop_all (S batch) (units self) (Some t :: rest)
               (uniform_head_some _ _ Hu)).
    reflexivity.
  - intros batch rest Hst Hb Est.
    unfold reset_states. rewrite Hst, Hb, Est; reflexivity.
  - intros batch vs t rest Hst Hb Est -> Hlen.
    unfold reset_states. rewrite Hst, Hb; simpl. rewrite Est in *.
    apply Nat.eqb_neq in Hlen. rewrite Hlen; reflexivity.
  - intros batch vs t rest k Hst Hb Est -> Hlen Hk Hpre Hbad.
    unfold reset_states. rewrite Hst, Hb; simpl. rewrite Est in *.
    pose proof Hlen as Hlen'. apply Nat.eqb_eq in Hlen'. rewrite Hlen'; simpl.
    rewrite (@set_states_loop_mismatch (S batch) (units self) vs
               (Some t :: rest) 0 k (uniform_head_some _ _ Hu) Hlen Hk Hpre Hbad).
    reflexivity.
  - intros batch vs t rest Hst Hb Est -> Hlen Hall.
    unfold reset_states. rewrite Hst, Hb; simpl. rewrite Est in *.
    pose proof Hlen as Hlen'. apply Nat.eqb_eq in Hlen'. rewrite Hlen'; simpl.
    rewrite (@set_states_loop_all (S batch) (units self) vs
               (Some t :: rest) 0 (uniform_head_some _ _ Hu) Hlen Hall).
    reflexivity.
Qed.

(** A layer of two states reset with a second value of the wrong shape. *)
Lemma reset_states_outcomes_witness :
  uniform (states Examples.stateful_pair) = true
  /\ reset_states Examples.stateful_pair
                  (StateList [T2 [[5%R]]; T2 [[1%R; 2%R]]])
     = (set_states Examples.stateful_pair
                   [Some (T2 [[5%R]]); Some (T2 [[0%R]])],
        Raise (ValueError (ResetShapeMismatch 1 [1; 1] [1; 2]))).
Proof.
  split; [reflexivity|].
  pose proof (reset_states_outcomes Examples.stateful_pair
                (StateList [T2 [[5%R]]; T2 [[1%R; 2%R]]]) eq_refl) as H.
  cbv zeta in H.
  destruct H as (_ & _ & _ & _ & _ & H & _).
  apply (H 0 [T2 [[5%R]]; T2 [[1%R; 2%R]]] (T2 [[0%R]]) [Some (T2 [[0%R]])] 1);
    try reflexivity.
  - simpl; lia.
  - intros j Hj. assert (j = 0) as -> by lia. reflexivity.
  - simpl; discriminate.
Defined.

(** C10, where the specification's sentence fails: a value of the wrong
    shape in second position raises [ValueError], but the first state has
    been updated by then. *)
Lemma reset_states_updates_before_mismatch :
  let self := Examples.stateful_pair in
  let r := reset_states self (StateList [T2 [[5%R]]; T2 [[1%R; 2%R]]]) in
  snd r = Raise (ValueError (ResetShapeMismatch 1 [1; 1] [1; 2]))
  /\ nth 0 (states (fst r)) None = Some (T2 [[5%R]])
  /\ nth 0 (states (fst r)) None <> nth 0 (states self) None.
Proof.
  cbv zeta. repeat split; try reflexivity.
  simpl. intros E. inv E. lra.
Qed.

(** *** C7: stateful and stateless initial states *)

Lemma Rsum_zeros {A : Type} (l : list A) :
  Rsum (map (fun _ => 0%R) l) = 0%R.
Proof.
  induction l as [|a l IH]; simpl; [reflexivity | rewrite IH; lra].
Qed.

Lemma concat_repeat_singleton {A : Type} (a : A) (n : nat) :
  concat (repeat [a] n) = repeat a n.
Proof.
  induction n as [|n IH]; simpl; [reflexivity | rewrite IH; reflexivity].
Qed.

Lemma map_const_repeat {A B : Type} (b : B) (l : list A) :
  map (fun _ => b) l = repeat b (length l).
Proof.
  induction l as [|a l IH]; simpl; [reflexivity | rewrite IH; reflexivity].
Qed.

Lemma sum_zeros_sample (sample : mat) :
  Rsum (map Rsum (map (map (fun _ : R => 0%R)) sample)) = 0%R.
Proof.
  rewrite map_map.
  rewrite (map_ext _ (fun _ => 0%R) (fun v => Rsum_zeros v)).
  apply Rsum_zeros.
Qed.

Lemma zero_state_tensor (c : cube) (units : nat) :
  K.tile_cols (K.expand_dims (K.sum_axes_1_2 (K.zeros_like c))) units
  = zeros (length c) units.
Proof.
  unfold K.tile_cols, K.expand_dims, K.sum_axes_1_2, K.zeros_like, zeros.
  rewrite !map_map.
  rewrite <- (map_const_repeat (repeat 0%R units) c).
  apply map_ext; intros sample.
  rewrite sum_zeros_sample.
  apply concat_repeat_singleton.
Qed.

Lemma get_initial_state_zeros {Self : Type} {L : Layer Self} (self : Self)
    (x : K.ktensor) :
  get_initial_state self x
  = repeat (Tensor (T2 (zeros (n_samples (K.value x)) (units (base self)))))
           (length (states (base self))).
Proof.
  unfold get_initial_state. rewrite zero_state_tensor.
  rewrite map_const_repeat, length_seq. reflexivity.
Qed.





(** *** C1: [call] folds the sequence *)

Lemma scan_unmasked_folds (step : K.step_function) (constants : list pyobj)
    (xs : list mat) :
  forall (prev : option mat) (states : list pyobj)
         (outputs : list mat) (final : list pyobj),
    K.scan step constants (combine xs (map (fun _ => None) xs)) prev states
    = Ok (outputs, final)
    <-> Spec.Folds step constants xs states outputs final.
Proof.
  induction xs as [|x xs IH]; intros prev states outputs final; simpl.
  - split; intros E.
    + inv E; constructor.
    + inv E; reflexivity.
  - split; intros E.
    + apply bind_ok in E. destruct E as ([output new_states] & Estep & E).
      apply bind_ok in E. destruct E as ([outs fin] & Escan & E).
      inv E. econstructor; [exact Estep|].
      apply (IH (Some output)); exact Escan.
    + inversion E as [|? ? ? output new_states outs fin Hstep Hrest]; subst.
      rewrite Hstep; simpl.
      apply (IH (Some output)) in Hrest. rewrite Hrest; reflexivity.
Qed.

Lemma rnn_unmasked_folds (step : K.step_function) (inputs : cube)
    (initial_states constants : list pyobj) (go_backwards unroll : bool)
    (input_length : option nat) (last_output : mat) (outputs : cube)
    (final : list pyobj) :
  K.rnn step inputs initial_states go_backwards None constants unroll
        input_length
  = Ok (last_output, outputs, final)
  <-> exists outs,
        Spec.Folds step constants
                   (K.backwards go_backwards (time_major inputs))
                   initial_states outs final
        /\ outs <> []
        /\ last_output = last outs []
        /\ outputs = sample_major (n_samples inputs) outs.
Proof.
  unfold K.rnn. split.
  - intros E. apply bind_ok in E. destruct E as ([outs fin] & Escan & E).
    apply scan_unmasked_folds in Escan.
    destruct outs as [|o outs]; [discriminate|]. inv E.
    exists (o :: outs). repeat split; [exact Escan | discriminate].
  - intros (outs & HF & Hne & -> & ->).
    apply (scan_unmasked_folds step constants _ None) in HF.
    rewrite HF; simpl.
    destruct outs as [|o outs]; [contradiction | reflexivity].
Qed.

(** C1, as the code has it.  For a layer called without a mask, [call]
    returns exactly when the number of initial states is right, the loop can
    be built, and the step function succeeds at every timestep of a sequence
    that has one at least.  The outputs and states are then those of the
    recurrence over the preprocessed sequence, taken in time order, or from
    the last timestep to the first when [go_backwards] is set: starting from
    the initial state, the output and states of each step are the result of
    the step function on the input of that step and the states of the step
    before.  With [return_sequences] the outputs of all steps are returned,
    otherwise the last one; with [return_state] the final states follow. *)
Theorem call_folds_sequence :
  forall (Self : Type) (L : Layer Self) (self : Self) (s : K.session)
         (inputs : call_inputs) (mask : call_mask) (training : option bool)
         (initial_state : option (list pyobj))
         (constants : list pyobj) (preprocessed_input : cube)
         (s1 : K.session),
    mask_of mask = None ->
    constants_and_input self s (input_tensor inputs)
    = (constants, preprocessed_input, s1) ->
    forall (ret : returned) (updates : list update) (s' : K.session),
      call self s inputs mask training initial_state = Ok (ret, updates, s')
      <-> (length (initial_state_of self inputs initial_state)
           = length (states (base self))
           /\ unroll (base self) && negb (K.time_defined (input_tensor inputs))
              = false
           /\ exists outputs final,
               Spec.Folds (step self) constants
                          (K.backwards (go_backwards (base self))
                                       (time_major preprocessed_input))
                          (initial_state_of self inputs initial_state)
                          outputs final
               /\ outputs <> []
               /\ (if stateful (base self)
                   then state_updates (length (states (base self))) 0 final
                   else Ok [])
                  = Ok updates
               /\ s' = s1
               /\ ret =
                  (let output :=
                     if return_sequences (base self)
                     then T3 (sample_major (n_samples preprocessed_input)
                                           outputs)
                     else T2 (last outputs []) in
                   if return_state (base self)
                   then RList (Tensor output :: final)
                   else RTensor output)).
Proof.
  intros Self L self s inputs mask training initial_state constants pre s1
         Hmask Hci ret updates s'.
  unfold call, scan_and_return. rewrite Hmask, Hci.
  destruct (Nat.eqb_spec (length (initial_state_of self inputs initial_state))
                         (length (states (base self)))) as [Hlen|Hlen];
    simpl negb; cbv iota.
  2:{ split; [discriminate | intros (Hl & _); contradiction]. }
  destruct (unroll (base self) && negb (K.time_defined (input_tensor inputs)));
    [split; [discriminate | intros (_ & Hu & _); discriminate]|].
  split.
  - intros E.
    apply bind_ok in E. destruct E as ([[last_output outs3] final] & Ernn & E).
    apply bind_ok in E. destruct E as (us & Eup & E).
    apply rnn_unmasked_folds in Ernn.
    destruct Ernn as (outs & HF & Hne & -> & ->).
    repeat split; [exact Hlen|].
    exists outs, final.
    destruct (return_state (base self)); inv E;
      repeat split; auto.
  - intros (_ & _ & outs & final & HF & Hne & Eup & -> & ->).
    assert (Ernn :
              K.rnn (step self) pre
                    (initial_state_of self inputs initial_state)
                    (go_backwards (base self)) None constants
                    (unroll (base self))
                    (snd (fst (K.int_shape (input_tensor inputs))))
              = Ok (last outs [], sample_major (n_samples pre) outs, final)).
    { apply rnn_unmasked_folds. exists outs. repeat split; auto. }
    rewrite Ernn; simpl. rewrite Eup; simpl.
    destruct (return_state (base self)); reflexivity.
Qed.

Lemma in_unit_interval_0 : in_unit_interval 0%R = false.
Proof.
  unfold in_unit_interval. destruct (Rlt_dec 0 0); [lra | reflexivity].
Qed.

Lemma backwards_rnn_constants :
  constants_and_input Examples.backwards_rnn Examples.session0
                      Examples.two_steps
  = ([Tensor Constants.one; Tensor Constants.one],
     [[[1%R]; [0%R]]], Examples.session0).
Proof.
  unfold constants_and_input.
  cbn -[in_unit_interval].
  unfold SimpleRNN.get_constants, SimpleRNN.dropout,
    SimpleRNN.recurrent_dropout.
  change (Recurrent.dropout (SimpleRNN.attrs Examples.backwards_rnn))
    with 0%R.
  change (Recurrent.recurrent_dropout (SimpleRNN.attrs Examples.backwards_rnn))
    with 0%R.
  rewrite !in_unit_interval_0.
  reflexivity.
Qed.

Lemma backwards_rnn_initial_state :
  initial_state_of Examples.backwards_rnn (InTensor Examples.two_steps) None
  = [Tensor (T2 [[0%R]])].
Proof.
  change (initial_state_of Examples.backwards_rnn
            (InTensor Examples.two_steps) None)
    with (get_initial_state Examples.backwards_rnn Examples.two_steps).
  rewrite get_initial_state_zeros. reflexivity.
Qed.

Lemma backwards_rnn_step (x h : R) :
  SimpleRNN.step Examples.backwards_rnn [[x]]
                 [Tensor (T2 [[h]]); Tensor Constants.one;
                  Tensor Constants.one]
  = Ok ([[(x * 1 + 0 + (h * 2 + 0))%R]],
        [Tensor (T2 [[(x * 1 + 0 + (h * 2 + 0))%R]])]).
Proof.
  unfold SimpleRNN.step, SimpleRNN.dropout, SimpleRNN.recurrent_dropout.
  change (Recurrent.dropout (SimpleRNN.attrs Examples.backwards_rnn))
    with 0%R.
  change (Recurrent.recurrent_dropout (SimpleRNN.attrs Examples.backwards_rnn))
    with 0%R.
  rewrite !in_unit_interval_0.
  reflexivity.
Qed.

Lemma backwards_rnn_call :
  call Examples.backwards_rnn Examples.session0
       (InTensor Examples.two_steps) NoMask None None
  = Ok (RTensor (T2 [[1%R]]), [], Examples.session0).
Proof.
  unfold call. rewrite backwards_rnn_initial_state.
  unfold scan_and_return.
  change (input_tensor (InTensor Examples.two_steps))
    with Examples.two_steps.
  rewrite backwards_rnn_constants.
  cbn -[SimpleRNN.step].
  unfold K.rnn. cbn -[SimpleRNN.step].
  rewrite backwards_rnn_step. cbn -[SimpleRNN.step].
  rewrite backwards_rnn_step. cbn -[SimpleRNN.step].
  repeat f_equal. lra.
Qed.

(** The call of the backwards layer on the sequence [1, 0], from its
    recurrence. *)
Lemma call_folds_sequence_witness :
  call Examples.backwards_rnn Examples.session0
       (InTensor Examples.two_steps) NoMask None None
  = Ok (RTensor
          (T2 [[(1 * 1 + 0 + ((0 * 1 + 0 + (0 * 2 + 0)) * 2 + 0))%R]]),
        [], Examples.session0).
Proof.
  apply (proj2 (call_folds_sequence
                  SimpleRNN.t SimpleRNN.layer Examples.backwards_rnn
                  Examples.session0 (InTensor Examples.two_steps) NoMask
                  None None _ _ _ eq_refl backwards_rnn_constants _ _ _)).
  split; [rewrite backwards_rnn_initial_state; reflexivity|].
  split; [reflexivity|].
  exists [[[(0 * 1 + 0 + (0 * 2 + 0))%R]];
          [[(1 * 1 + 0 + ((0 * 1 + 0 + (0 * 2 + 0)) * 2 + 0))%R]]].
  exists [Tensor
            (T2 [[(1 * 1 + 0 + ((0 * 1 + 0 + (0 * 2 + 0)) * 2 + 0))%R]])].
  rewrite backwards_rnn_initial_state.
  split.
  - apply Spec.Folds_step
      with (new_states := [Tensor (T2 [[(0 * 1 + 0 + (0 * 2 + 0))%R]])]).
    + apply backwards_rnn_step.
    + eapply Spec.Folds_step.
      * apply backwards_rnn_step.
      * apply Spec.Folds_done.
  - repeat split; try reflexivity. discriminate.
Defined.

(** C1, where the specification's sentence fails: a layer with
    [go_backwards] does not produce the recurrence over the input in time
    order.  The layer [h_t = x_t + 2 * h_tm1] on the sequence [1, 0] returns
    [1] as its last output; the recurrence from the first timestep to the
    last ends on [2]. *)
Lemma call_go_backwards_not_forward_fold :
  let self := Examples.backwards_rnn in
  let x := Examples.two_steps in
  call self Examples.session0 (InTensor x) NoMask None None
  = Ok (RTensor (T2 [[1%R]]), [], Examples.session0)
  /\ ~ (exists outputs final,
           Spec.Folds (step self)
                      [Tensor Constants.one; Tensor Constants.one]
                      (time_major (K.value x))
                      (initial_state_of self (InTensor x) None)
                      outputs final
           /\ T2 [[1%R]] = T2 (last outputs [])).
Proof.
  cbv zeta. split; [exact backwards_rnn_call|].
  intros (outputs & final & HF & Hlast).
  rewrite backwards_rnn_initial_state in HF.
  change (time_major (K.value Examples.two_steps))
    with [[[1%R]]; [[0%R]]] in HF.
  inversion HF as [|? ? ? o1 st1 outs1 fin1 Hs1 HF1]; subst.
  change (step Examples.backwards_rnn)
    with (SimpleRNN.step Examples.backwards_rnn) in Hs1.
  simpl app in Hs1. rewrite backwards_rnn_step in Hs1. inv Hs1.
  inversion HF1 as [|? ? ? o2 st2 outs2 fin2 Hs2 HF2]; subst.
  change (step Examples.backwards_rnn)
    with (SimpleRNN.step Examples.backwards_rnn) in Hs2.
  simpl app in Hs2. rewrite backwards_rnn_step in Hs2. inv Hs2.
  inv HF2. simpl in Hlast. inv Hlast. lra.
Qed.

(** *** The entries of a gated state update *)

Lemma nth_error_map2 {A B C : Type} (f : A -> B -> C) (l : list A) :
  forall (l' : list B) (i : nat),
    nth_error (map2 f l l') i
    = match nth_error l i, nth_error l' i with
      | Some a, Some b => Some (f a b)
      | _, _ => None
      end.
Proof.
  induction l as [|a l IH]; intros [|b l'] [|i]; simpl; try reflexivity.
  - destruct (nth_error l i); reflexivity.
  - apply IH.
Qed.

Lemma entry_map2 (f : R -> R -> R) (a b : mat) (i k : nat) :
  entry (map2 (map2 f) a b) i k
  = match entry a i k, entry b i k with
    | Some x, Some y => Some (f x y)
    | _, _ => None
    end.
Proof.
  unfold entry. rewrite nth_error_map2.
  destruct (nth_error a i) as [ra|], (nth_error b i) as [rb|];
    try reflexivity.
  - apply nth_error_map2.
  - destruct (nth_error ra k); reflexivity.
Qed.

Lemma entry_mmap (f : R -> R) (a : mat) (i k : nat) :
  entry (mmap f a) i k = option_map f (entry a i k).
Proof.
  unfold entry, mmap. rewrite nth_error_map.
  destruct (nth_error a i) as [ra|]; simpl; [|reflexivity].
  apply nth_error_map.
Qed.

Lemma entry_gru_state (z h_tm1 hh : mat) (i k : nat) :
  entry (madd (mmul z h_tm1) (mmul (one_minus z) hh)) i k
  = match entry z i k, entry h_tm1 i k, entry hh i k with
    | Some zv, Some pv, Some cv => Some (zv * pv + (1 - zv) * cv)%R
    | _, _, _ => None
    end.
Proof.
  unfold madd, mmul, vadd, vmul, one_minus.
  rewrite !entry_map2, entry_mmap.
  destruct (entry z i k), (entry h_tm1 i k), (entry hh i k); reflexivity.
Qed.

Lemma entry_lstm_cell (f c_tm1 i' candidate : mat) (i k : nat) :
  entry (madd (mmul f c_tm1) (mmul i' candidate)) i k
  = match entry f i k, entry c_tm1 i k, entry i' i k, entry candidate i k with
    | Some fv, Some cv, Some iv, Some gv => Some (fv * cv + iv * gv)%R
    | _, _, _, _ => None
    end.
Proof.
  unfold madd, mmul, vadd, vmul.
  rewrite !entry_map2.
  destruct (entry f i k), (entry c_tm1 i k), (entry i' i k),
    (entry candidate i k); reflexivity.
Qed.

Lemma convex_between (z p c : R) :
  (0 <= z <= 1 ->
   Rmin p c <= z * p + (1 - z) * c <= Rmax p c)%R.
Proof.
  intros [H0 H1].
  unfold Rmin, Rmax. destruct (Rle_dec p c); split; nra.
Qed.

(** *** The softmax and the weighted sum *)

Lemma Rsum_map_div {A : Type} (f : A -> R) (c : R) (l : list A) :
  Rsum (map (fun x => f x / c)%R l) = (Rsum (map f l) / c)%R.
Proof.
  induction l as [|a l IH]; simpl.
  - unfold Rdiv; ring.
  - rewrite IH. unfold Rdiv; ring.
Qed.

Lemma Rsum_exp_pos (e : vec) : e <> [] -> (0 < Rsum (map exp e))%R.
Proof.
  induction e as [|x e IH]; [contradiction|]. intros _. simpl.
  pose proof (exp_pos x) as Hx.
  destruct e as [|y e].
  - simpl. lra.
  - assert (0 < Rsum (map exp (y :: e)))%R by (apply IH; discriminate). lra.
Qed.

Lemma exp_le_Rsum (e : vec) (x : R) :
  In x e -> (exp x <= Rsum (map exp e))%R.
Proof.
  induction e as [|y e IH]; simpl; [contradiction|].
  intros [->|Hin].
  - destruct e as [|z e]; [simpl; lra|].
    assert (0 < Rsum (map exp (z :: e)))%R
      by (apply Rsum_exp_pos; discriminate).
    lra.
  - pose proof (exp_pos y). specialize (IH Hin). lra.
Qed.

Lemma softmax_row_sum (e : vec) :
  e <> [] -> Rsum (K.softmax_row e) = 1%R.
Proof.
  intros He. unfold K.softmax_row.
  rewrite (Rsum_map_div exp).
  pose proof (Rsum_exp_pos e He). field. lra.
Qed.

Lemma softmax_row_range (e : vec) (a : R) :
  In a (K.softmax_row e) -> (0 < a <= 1)%R.
Proof.
  unfold K.softmax_row. intros Hin.
  apply in_map_iff in Hin. destruct Hin as (x & <- & Hx).
  assert (He : e <> []) by (intros ->; contradiction).
  pose proof (Rsum_exp_pos e He) as Hpos.
  pose proof (exp_pos x) as Hx0.
  pose proof (exp_le_Rsum e x Hx) as Hle.
  split.
  - apply Rdiv_lt_0_compat; assumption.
  - replace 1%R with (Rsum (map exp e) / Rsum (map exp e))%R
      by (field; lra).
    unfold Rdiv. apply Rmult_le_compat_r; [|exact Hle].
    left. apply Rinv_0_lt_compat. exact Hpos.
Qed.

Lemma nth_error_seq_value (a n k x : nat) :
  nth_error (seq a n) k = Some x -> x = a + k.
Proof.
  revert a k; induction n as [|n IH]; intros a [|k]; simpl; intros E;
    try discriminate.
  - inv E. lia.
  - apply IH in E. lia.
Qed.

Lemma nth_scaled (v : vec) (a : R) (k : nat) :
  nth k (map (fun x => x * a)%R v) 0%R = (a * nth k v 0)%R.
Proof.
  revert k; induction v as [|x v IH]; intros [|k]; simpl;
    try ring. apply IH.
Qed.

Lemma weighted_column (sample : mat) :
  forall (arow : vec) (k : nat),
    Rsum (map (fun v => nth k v 0%R)
              (map2 (fun v a => map (fun x => x * a)%R v) sample arow))
    = AttLSTMCond.weighted_sum arow sample k.
Proof.
  unfold AttLSTMCond.weighted_sum.
  induction sample as [|v sample IH]; intros [|a arow] k; simpl;
    try reflexivity.
  rewrite nth_scaled, IH. reflexivity.
Qed.

Lemma context_vector_entry (context : cube) (alphas : mat) (i k : nat)
    (v : R) :
  entry (AttLSTMCond.sum_positions
           (AttLSTMCond.weigh_positions context alphas)) i k = Some v ->
  exists sample arow,
    nth_error context i = Some sample
    /\ nth_error alphas i = Some arow
    /\ v = AttLSTMCond.weighted_sum arow sample k.
Proof.
  unfold entry, AttLSTMCond.sum_positions, AttLSTMCond.weigh_positions.
  rewrite nth_error_map, nth_error_map2.
  destruct (nth_error context i) as [sample|]; [|discriminate].
  destruct (nth_error alphas i) as [arow|]; [|discriminate].
  simpl. rewrite nth_error_map.
  destruct (nth_error (seq 0 _) k) as [k'|] eqn:Ek; [|discriminate].
  apply nth_error_seq_value in Ek. simpl in Ek. subst k'.
  simpl. intros E. inv E.
  exists sample, arow. repeat split. apply weighted_column.
Qed.

(** *** C3: masked positions of the context *)

Lemma vscale_zero (v : vec) : vscale 0 v = repeat 0%R (length v).
Proof.
  unfold vscale. induction v as [|x v IH]; simpl; [reflexivity|].
  rewrite IH. f_equal. ring.
Qed.

Lemma agree_sample_masked (s : mat) :
  forall (mrow : vec) (s' : mat),
    AttLSTMCond.agree_sample mrow s s' ->
    map2 vscale mrow s = map2 vscale mrow s'.
Proof.
  induction s as [|v s IH]; intros mrow [|v' s'] H; simpl in H;
    try contradiction.
  - reflexivity.
  - destruct H as (Hlen & Hv & Hrest).
    destruct mrow as [|mv mrow]; simpl; [reflexivity|].
    simpl in Hrest. rewrite (IH mrow s' Hrest). f_equal.
    destruct (Req_dec mv 0) as [->|Hne].
    + rewrite !vscale_zero, Hlen. reflexivity.
    + rewrite (Hv Hne). reflexivity.
Qed.

Lemma agree_masked (c : cube) :
  forall (m : mat) (c' : cube),
    AttLSTMCond.agree_off_mask m c c' ->
    AttLSTMCond.mask_positions m c = AttLSTMCond.mask_positions m c'.
Proof.
  unfold AttLSTMCond.mask_positions.
  induction c as [|s c IH]; intros m [|s' c'] H; simpl in H;
    try contradiction.
  - reflexivity.
  - destruct H as (Hs & Hrest).
    destruct m as [|mrow m]; simpl; [reflexivity|].
    simpl in Hs, Hrest.
    rewrite (IH m c' Hrest), (agree_sample_masked s mrow s' Hs).
    reflexivity.
Qed.

Lemma masked_term_is_zero (m : mat) (context : cube) (alphas : mat)
    (i j : nat) (sample : mat) (v : vec) :
  entry m i j = Some 0%R ->
  nth_error (AttLSTMCond.weigh_positions
               (AttLSTMCond.mask_positions m context) alphas) i
  = Some sample ->
  nth_error sample j = Some v ->
  Forall (fun x => x = 0%R) v.
Proof.
  unfold entry, AttLSTMCond.weigh_positions, AttLSTMCond.mask_positions.
  intros Hm Hs Hv.
  rewrite !nth_error_map2 in Hs.
  destruct (nth_error m i) as [mrow|]; [|discriminate].
  destruct (nth_error context i) as [s|]; [|discriminate].
  destruct (nth_error alphas i) as [arow|]; [|discriminate].
  inv Hs. rewrite !nth_error_map2, Hm in Hv.
  destruct (nth_error s j) as [u|]; [|discriminate].
  destruct (nth_error arow j) as [a|]; [|discriminate].
  inv Hv. rewrite vscale_zero.
  apply Forall_forall. intros x Hx.
  apply in_map_iff in Hx. destruct Hx as (y & <- & Hy).
  apply repeat_spec in Hy. subst y. ring.
Qed.

Lemma agree_sample_refl (s : mat) :
  forall mrow, AttLSTMCond.agree_sample mrow s s.
Proof.
  induction s as [|v s IH]; intros mrow; simpl; [exact I|].
  repeat split; [destruct mrow; auto | apply IH].
Qed.

Lemma agree_off_mask_refl (c : cube) :
  forall m, AttLSTMCond.agree_off_mask m c c.
Proof.
  induction c as [|s c IH]; intros m; simpl; [exact I|].
  split; [apply agree_sample_refl | apply IH].
Qed.

(** C3.  In an attention step invoked with a 2-D context mask, the term a
    masked position (mask 0) adds to the weighted sum is the zero vector, and
    the whole result of the step, the context vector in it, is the same for
    two contexts of one shape that differ only at masked positions, whether
    the projected context handed to the step differs there too or not. *)
Theorem masked_context_positions_ignored :
  forall (self : AttLSTMCond.t) (x : mat)
         (s0 s1 s2 s3 s4 s5 s6 : pyobj) (m : mat)
         (pctx_ pctx_' context context' : cube),
    AttLSTMCond.agree_off_mask m pctx_ pctx_' ->
    AttLSTMCond.agree_off_mask m context context' ->
    AttLSTMCond.step self x
      [s0; s1; s2; s3; s4; s5; s6;
       Tensor (T3 pctx_); Tensor (T3 context); Tensor (T2 m)]
    = AttLSTMCond.step self x
        [s0; s1; s2; s3; s4; s5; s6;
         Tensor (T3 pctx_'); Tensor (T3 context'); Tensor (T2 m)]
    /\ AttLSTMCond.step self x
         [s0; s1; s2; s3; s4; s5; s6;
          Tensor (T3 pctx_); Tensor (T3 context); Tensor (T2 m)]
       = AttLSTMCond.step self x
           [s0; s1; s2; s3; s4; s5; s6;
            Tensor (T3 pctx_); Tensor (T3 context'); Tensor (T2 m)]
    /\ (forall alphas i j sample v,
           entry m i j = Some 0%R ->
           nth_error (AttLSTMCond.weigh_positions
                        (AttLSTMCond.mask_positions m context) alphas) i
           = Some sample ->
           nth_error sample j = Some v ->
           Forall (fun x => x = 0%R) v).
Proof.
  intros self x s0 s1 s2 s3 s4 s5 s6 m pctx_ pctx_' context context'
         Hp Hc.
  assert (Hstep : forall p p' : cube,
             AttLSTMCond.agree_off_mask m p p' ->
             AttLSTMCond.step self x
               [s0; s1; s2; s3; s4; s5; s6;
                Tensor (T3 p); Tensor (T3 context); Tensor (T2 m)]
             = AttLSTMCond.step self x
                 [s0; s1; s2; s3; s4; s5; s6;
                  Tensor (T3 p'); Tensor (T3 context'); Tensor (T2 m)]).
  { intros p p' Hpp.
    unfold AttLSTMCond.step, AttLSTMCond.attention, AttLSTMCond.scores.
    cbn [item nth_error as_cube as_tensor AttLSTMCond.context_mask Py.bind].
    rewrite (agree_masked p m p' Hpp).
    rewrite (agree_masked context m context' Hc).
    reflexivity. }
  split; [apply Hstep; exact Hp|].
  split; [apply Hstep; apply agree_off_mask_refl|].
  intros alphas i j sample v. apply masked_term_is_zero.
Qed.

(** Two contexts that differ at the padded second position only. *)
Lemma masked_context_positions_ignored_witness :
  AttLSTMCond.step Examples.att [[0%R; 0%R; 0%R; 0%R]]
    (Examples.att_states [[[1%R]; [2%R]]] [[[1%R; 2%R]; [7%R; 7%R]]])
  = AttLSTMCond.step Examples.att [[0%R; 0%R; 0%R; 0%R]]
      (Examples.att_states [[[1%R]; [5%R]]] [[[1%R; 2%R]; [9%R; 8%R]]]).
Proof.
  apply (proj1 (masked_context_positions_ignored Examples.att
                  [[0%R; 0%R; 0%R; 0%R]]
                  (Tensor (T2 [[0%R]])) (Tensor (T2 [[0%R]]))
                  (Tensor (T2 [[0%R; 0%R]])) (Tensor (T2 [[0%R; 0%R]]))
                  (Examples.no_dropout 4) (Examples.no_dropout 4)
                  (Examples.no_dropout 1) [[1%R; 0%R]]
                  [[[1%R]; [2%R]]] [[[1%R]; [5%R]]]
                  [[[1%R; 2%R]; [7%R; 7%R]]] [[[1%R; 2%R]; [9%R; 8%R]]]
                  ltac:(simpl; repeat split; intros; try reflexivity; lra)
                  ltac:(simpl; repeat split; intros; try reflexivity; lra))).
Defined.

(** *** C6: dropout outside the training phase *)

Lemma ones_mask_ones (inputs : K.ktensor) (width : nat) :
  Constants.ones_mask inputs width
  = ones (n_samples (K.value inputs)) width.
Proof.
  unfold Constants.ones_mask, K.tile_cols, K.ones_per_sample, ones, n_samples.
  rewrite map_map.
  rewrite <- (map_const_repeat (repeat 1%R width) (K.value inputs)).
  apply map_ext; intros _. apply concat_repeat_singleton.
Qed.



Lemma mmap_times_one (m : mat) : mmap (fun v => v * 1)%R m = m.
Proof.
  unfold mmap.
  rewrite (map_ext _ (fun row : vec => row)); [apply map_id|].
  intros row. rewrite (map_ext _ (fun v : R => v)); [apply map_id|].
  intros v. ring.
Qed.

Lemma times_one (x : mat) : times x Constants.one = Ok x.
Proof.
  simpl. rewrite mmap_times_one. reflexivity.
Qed.


Lemma dropout_input_inference (s : K.session) (x : cube) (dropout : option R)
    (input_dim timesteps : nat) (training : option bool) :
  K.training_now s training = false ->
  fst (dropout_input s x dropout input_dim timesteps training) = x.
Proof.
  intros Ht. unfold dropout_input.
  destruct dropout as [d|]; [|reflexivity].
  destruct (in_unit_interval d); [|reflexivity].
  unfold K.dropout, K.in_train_phase_value. cbn [fst].
  assert (Hs : forall n, K.training_now (K.advance s n) training = false)
    by (intros n; rewrite <- Ht; destruct training; reflexivity).
  rewrite Hs. reflexivity.
Qed.


Lemma dropout_masks_inference (n : nat) (s : K.session) (ones_ : mat)
    (level : R) (training : option bool) :
  K.training_now s training = false ->
  Constants.dropout_masks n s ones_ level training
  = (repeat (T2 ones_) n, s).
Proof.
  intros Ht. induction n as [|n IH]; simpl; [reflexivity|].
  unfold Constants.dropout_mask, K.in_train_phase.
  rewrite Ht, IH. reflexivity.
Qed.


Lemma in_unit_interval_half : in_unit_interval (1 / 2)%R = true.
Proof.
  unfold in_unit_interval.
  destruct (Rlt_dec 0 (1 / 2)); [|lra].
  destruct (Rlt_dec (1 / 2) 1); [reflexivity | lra].
Qed.


(** *** A mask repeated over the time axis *)


(** * Further properties of the code *)

(** *** [_time_distributed_dense] applies one dense map to every slice *)

Lemma length_concat_uniform {A : Type} (n : nat) (l : list (list A)) :
  Forall (fun r => length r = n) l -> length (concat l) = length l * n.
Proof.
  induction 1 as [|r l Hr HF IH]; simpl; [reflexivity|].
  rewrite length_app, IH, Hr. reflexivity.
Qed.

Lemma pieces_of_concat {A : Type} (n : nat) (l : list (list A)) :
  Forall (fun r => length r = n) l ->
  map (fun i => firstn n (skipn (i * n) (concat l))) (seq 0 (length l)) = l.
Proof.
  induction 1 as [|r l Hr HF IH]; simpl; [reflexivity|].
  f_equal.
  - rewrite firstn_app, Hr, Nat.sub_diag, firstn_O, app_nil_r.
    rewrite <- Hr. apply firstn_all.
  - rewrite <- seq_shift, map_map.
    etransitivity; [|exact IH].
    apply map_ext. intros i.
    replace (S i * n) with (length r + i * n) by (rewrite Hr; simpl; lia).
    rewrite skipn_app.
    rewrite skipn_all2 by lia.
    replace (length r + i * n - length r) with (i * n) by lia.
    reflexivity.
Qed.

Lemma chunk_concat {A : Type} (n : nat) (l : list (list A)) :
  0 < n -> Forall (fun r => length r = n) l -> chunk n (concat l) = l.
Proof.
  intros Hn HF. unfold chunk.
  rewrite (length_concat_uniform n l HF), Nat.div_mul by lia.
  apply pieces_of_concat. exact HF.
Qed.

Lemma chunk_nil {A : Type} (n : nat) : chunk n (@nil A) = [].
Proof.
  unfold chunk. simpl.
  destruct n; reflexivity.
Qed.

Lemma length_map2 {A B C : Type} (f : A -> B -> C) (l : list A) :
  forall l', length (map2 f l l') = Nat.min (length l) (length l').
Proof.
  induction l as [|a l IH]; intros [|b l']; simpl; try reflexivity.
  rewrite IH. reflexivity.
Qed.

Lemma or_else_consistent (given : option nat) (actual : nat) :
  Dense.consistent given actual -> 0 < actual -> or_else given actual = actual.
Proof.
  intros [->|[->| ->]] H; try reflexivity.
  destruct actual; [lia | reflexivity].
Qed.

Lemma dropout_input_unchanged (s : K.session) (x : cube) (dropout : option R)
    (input_dim timesteps : nat) (training : option bool) :
  Dense.no_dropout s dropout training ->
  fst (dropout_input s x dropout input_dim timesteps training) = x.
Proof.
  unfold Dense.no_dropout. destruct dropout as [d|]; [|reflexivity].
  intros [Hd|Ht].
  - unfold dropout_input. rewrite Hd. reflexivity.
  - apply dropout_input_inference. exact Ht.
Qed.

Lemma length_dense (w : mat) (b : option vec) (y : vec) :
  match b with Some b' => length b' = K.ncols w | None => True end ->
  length (Dense.dense w b y) = K.ncols w.
Proof.
  unfold Dense.dense. destruct b as [b'|]; intros Hb.
  - unfold vadd. rewrite length_map2, length_map, length_seq, Hb.
    apply Nat.min_id.
  - rewrite length_map, length_seq. reflexivity.
Qed.

Lemma dense_rows (m w : mat) (b : option vec) :
  match b with
  | Some b' => K.bias_add (K.dot m w) b'
  | None => K.dot m w
  end = map (Dense.dense w b) m.
Proof.
  unfold K.bias_add, K.dot, Dense.dense.
  destruct b as [b'|]; [rewrite map_map|]; reflexivity.
Qed.

(** The second half of [_time_distributed_dense]: reshaped to two
    dimensions, multiplied and reshaped back, a well-shaped input has the
    projection of its vector at every sample and timestep. *)
Lemma project_every_timestep (x : cube) (w : mat) (b : option vec)
    (input_dim output_dim timesteps : option nat) (T D : nat) :
  0 < T -> 0 < D -> 0 < K.ncols w ->
  Dense.well_shaped T D x ->
  match b with Some b' => length b' = K.ncols w | None => True end ->
  Dense.consistent input_dim D ->
  Dense.consistent timesteps T ->
  Dense.consistent output_dim (K.ncols w) ->
  reshape3
    (match b with
     | Some b' =>
         K.bias_add (K.dot (reshape2 x (or_else input_dim (n_dim x))) w) b'
     | None => K.dot (reshape2 x (or_else input_dim (n_dim x))) w
     end)
    (or_else timesteps (n_timesteps x)) (or_else output_dim (K.ncols w))
  = map (map (Dense.dense w b)) x.
Proof.
  intros HT HD HO Hx Hb Hci Hct Hco.
  rewrite dense_rows.
  destruct x as [|sample x'].
  { unfold reshape3, reshape2. cbn [concat app].
    rewrite chunk_nil. cbn [map concat]. rewrite !chunk_nil. reflexivity. }
  assert (Hs : length sample = T /\ Forall (fun v : vec => length v = D) sample)
    by (inversion Hx; assumption).
  destruct Hs as [HsT HsD].
  assert (Hnd : n_dim (sample :: x') = D).
  { unfold n_dim. simpl. destruct sample as [|v sample]; [simpl in HsT; lia|].
    inversion HsD; assumption. }
  assert (Hnt : n_timesteps (sample :: x') = T) by exact HsT.
  rewrite Hnd, Hnt.
  rewrite (or_else_consistent _ _ Hci HD), (or_else_consistent _ _ Hct HT),
    (or_else_consistent _ _ Hco HO).
  assert (Hrows : Forall (fun v : vec => length v = D)
                         (concat (sample :: x'))).
  { apply Forall_concat. eapply Forall_impl; [|exact Hx].
    intros a [_ Ha]. exact Ha. }
  unfold reshape2, reshape3.
  rewrite (chunk_concat D _ HD Hrows).
  rewrite (chunk_concat (K.ncols w)) by
    (try exact HO; apply Forall_map, Forall_forall; intros v _;
     apply length_dense; exact Hb).
  rewrite concat_map.
  apply chunk_concat; [exact HT|].
  apply Forall_map. eapply Forall_impl; [|exact Hx].
  intros a [Ha _]. rewrite length_map. exact Ha.
Qed.

(** X1.  Where its dropout does not apply, [_time_distributed_dense]
    computes what its docstring says: on a well-shaped input of dimension
    [D] and a kernel of [D] rows the result has the samples and timesteps of
    the input, and its vector at every sample and timestep is [y . w + b]
    for the vector [y] the input has there. *)
Theorem time_distributed_dense_applies_dense :
  forall (s : K.session) (x : cube) (w : mat) (b : option vec)
         (dropout : option R) (input_dim output_dim timesteps : option nat)
         (training : option bool) (T D : nat),
    0 < T -> 0 < D -> 0 < K.ncols w ->
    Dense.well_shaped T D x ->
    has_shape D (K.ncols w) w ->
    match b with Some b' => length b' = K.ncols w | None => True end ->
    Dense.consistent input_dim D ->
    Dense.consistent timesteps T ->
    Dense.consistent output_dim (K.ncols w) ->
    Dense.no_dropout s dropout training ->
    fst (_time_distributed_dense s x w b dropout input_dim output_dim
                                 timesteps training)
    = map (map (Dense.dense w b)) x.
Proof.
  intros s x w b dropout input_dim output_dim timesteps training T D
         HT HD HO Hx Hw Hb Hci Hct Hco Hdrop.
  unfold _time_distributed_dense.
  pose proof (dropout_input_unchanged s x dropout
                (or_else input_dim (n_dim x))
                (or_else timesteps (n_timesteps x)) training Hdrop) as Hin.
  destruct (dropout_input s x dropout _ _ training) as [x1 s1].
  cbn [fst] in *. subst x1.
  apply (project_every_timestep x w b input_dim output_dim timesteps T D);
    assumption.
Qed.

(** The theorem on a bias-carrying projection of a sequence of two steps. *)
Lemma time_distributed_dense_applies_dense_witness :
  fst (_time_distributed_dense Examples.session0 [[[1%R]; [0%R]]] [[2%R]]
                               (Some [3%R]) None None None None None)
  = [[Dense.dense [[2%R]] (Some [3%R]) [1%R];
      Dense.dense [[2%R]] (Some [3%R]) [0%R]]].
Proof.
  apply (time_distributed_dense_applies_dense
           Examples.session0 [[[1%R]; [0%R]]] [[2%R]] (Some [3%R])
           None None None None None 2 1);
    try (simpl; lia); try exact I; try (left; reflexivity).
  - repeat constructor.
  - split; [reflexivity | repeat constructor].
  - reflexivity.
Defined.

(** *** Column slices commute with products and biases *)

Lemma map_seq_from {B : Type} (g : nat -> B) (p a : nat) :
  map g (seq a p) = map (fun k => g (a + k)) (seq 0 p).
Proof.
  revert g; induction a as [|a IH]; intros g; [reflexivity|].
  rewrite <- seq_shift, map_map, (IH (fun k => g (S k))).
  reflexivity.
Qed.

Lemma firstn_seq_min (m a k : nat) :
  firstn m (seq a k) = seq a (Nat.min m k).
Proof.
  revert a k; induction m as [|m IH]; intros a [|k]; simpl; try reflexivity.
  rewrite IH. reflexivity.
Qed.

Lemma dot_cols (x w : mat) (a b : nat) :
  cols a b (K.dot x w) = K.dot x (cols a b w).
Proof.
  unfold cols, K.dot. rewrite map_map. apply map_ext. intros row.
  rewrite skipn_map, firstn_map, skipn_seq, firstn_seq_min.
  assert (Hn : K.ncols (map (fun r : vec => firstn (b - a) (skipn a r)) w)
               = Nat.min (b - a) (K.ncols w - a)).
  { unfold K.ncols. destruct w as [|r0 w]; simpl.
    - rewrite Nat.min_0_r. reflexivity.
    - rewrite length_firstn, length_skipn. reflexivity. }
  rewrite Hn. simpl. rewrite map_seq_from.
  apply map_ext_in. intros k Hk. apply in_seq in Hk.
  f_equal. unfold K.column. rewrite map_map. apply map_ext. intros r.
  rewrite nth_firstn, nth_skipn.
  destruct (Nat.ltb_spec k (b - a)); [reflexivity | lia].
Qed.

Lemma dot_cols_from (x w : mat) (a : nat) :
  cols_from a (K.dot x w) = K.dot x (cols_from a w).
Proof.
  unfold cols_from, K.dot. rewrite map_map. apply map_ext. intros row.
  rewrite skipn_map, skipn_seq.
  assert (Hn : K.ncols (map (skipn a) w) = K.ncols w - a).
  { unfold K.ncols. destruct w as [|r0 w]; simpl.
    - destruct a; reflexivity.
    - apply length_skipn. }
  rewrite Hn. simpl. rewrite map_seq_from.
  apply map_ext. intros k.
  f_equal. unfold K.column. rewrite map_map. apply map_ext. intros r.
  rewrite nth_skipn. reflexivity.
Qed.

Lemma skipn_map2 {A B C : Type} (f : A -> B -> C) (n : nat) :
  forall l l', skipn n (map2 f l l') = map2 f (skipn n l) (skipn n l').
Proof.
  induction n as [|n IH]; intros [|a l] [|b l']; simpl; try reflexivity.
  - destruct (skipn n l); reflexivity.
  - apply IH.
Qed.

Lemma firstn_map2 {A B C : Type} (f : A -> B -> C) (n : nat) :
  forall l l', firstn n (map2 f l l') = map2 f (firstn n l) (firstn n l').
Proof.
  induction n as [|n IH]; intros [|a l] [|b l']; simpl; try reflexivity.
  rewrite IH. reflexivity.
Qed.

Lemma bias_add_cols (m : mat) (v : vec) (a b : nat) :
  cols a b (K.bias_add m v)
  = K.bias_add (cols a b m) (firstn (b - a) (skipn a v)).
Proof.
  unfold cols, K.bias_add, vadd. rewrite !map_map. apply map_ext. intros row.
  rewrite skipn_map2, firstn_map2. reflexivity.
Qed.

Lemma bias_add_cols_from (m : mat) (v : vec) (a : nat) :
  cols_from a (K.bias_add m v) = K.bias_add (cols_from a m) (skipn a v).
Proof.
  unfold cols_from, K.bias_add, vadd. rewrite !map_map. apply map_ext.
  intros row. apply skipn_map2.
Qed.

Lemma cols_of_cols (m : mat) (a b c : nat) :
  b <= c -> cols a b (cols 0 c m) = cols a b m.
Proof.
  intros Hbc. unfold cols. rewrite map_map. apply map_ext. intros row.
  rewrite Nat.sub_0_r. simpl skipn at 2.
  rewrite skipn_firstn_comm, firstn_firstn.
  f_equal. lia.
Qed.

Lemma map_map2 {A B C D : Type} (g : C -> D) (f : A -> B -> C) :
  forall l l', map g (map2 f l l') = map2 (fun a b => g (f a b)) l l'.
Proof.
  induction l as [|a l IH]; intros [|b l']; simpl; try reflexivity.
  rewrite IH. reflexivity.
Qed.

Lemma map2_map_l {A A' B C : Type} (f : A' -> B -> C) (g : A -> A') :
  forall l l', map2 f (map g l) l' = map2 (fun a b => f (g a) b) l l'.
Proof.
  induction l as [|a l IH]; intros [|b l']; simpl; try reflexivity.
  rewrite IH. reflexivity.
Qed.

Lemma map2_ext {A B C : Type} (f g : A -> B -> C) :
  (forall a b, f a b = g a b) ->
  forall l l', map2 f l l' = map2 g l l'.
Proof.
  intros Hfg. induction l as [|a l IH]; intros [|b l']; simpl;
    try reflexivity.
  rewrite Hfg, IH. reflexivity.
Qed.

Lemma madd_cols (x y : mat) (a b : nat) :
  cols a b (madd x y) = madd (cols a b x) (cols a b y).
Proof.
  unfold cols, madd. rewrite map_map2, map2_map_l.
  revert y; induction x as [|r x IH]; intros [|r' y]; simpl;
    try reflexivity.
  rewrite IH. f_equal. unfold vadd. rewrite skipn_map2, firstn_map2.
  reflexivity.
Qed.

Lemma madd_cols_from (x y : mat) (a : nat) :
  cols_from a (madd x y) = madd (cols_from a x) (cols_from a y).
Proof.
  unfold cols_from, madd. rewrite map_map2, map2_map_l.
  revert y; induction x as [|r x IH]; intros [|r' y]; simpl;
    try reflexivity.
  rewrite IH. f_equal. unfold vadd. apply skipn_map2.
Qed.

(** *** The implementation modes of GRU and LSTM *)

(** Mode 2 multiplies by the whole kernels and slices the products, mode 1
    multiplies by the slices [build] took; on masks that are the same for
    every gate the gates come out alike. *)
Lemma gru_gates_modes_agree (self : GRU.t) (inputs : mat) (h0 : pyobj)
    (d r : tensor) (rest : list pyobj) :
  GRU.gates (Modes.gru self 2) inputs
            (h0 :: PyList [d; d; d] :: PyList [r; r; r] :: rest)
  = GRU.gates (Modes.gru self 1) inputs
              (h0 :: PyList [d; d; d] :: PyList [r; r; r] :: rest).
Proof.
  unfold GRU.gates.
  change (GRU.implementation (Modes.gru self 2)) with 2.
  change (GRU.implementation (Modes.gru self 1)) with 1.
  cbn [Nat.eqb].
  unfold GRU.kernel_z, GRU.kernel_r, GRU.kernel_h, GRU.recurrent_kernel_z,
    GRU.recurrent_kernel_r, GRU.recurrent_kernel_h, GRU.bias_z, GRU.bias_r,
    GRU.bias_h, GRU.bias_slice.
  change (GRU.units (Modes.gru self 2)) with (GRU.units self).
  change (GRU.units (Modes.gru self 1)) with (GRU.units self).
  cbn [Modes.gru GRU.kernel GRU.recurrent_kernel GRU.use_bias GRU.bias
       GRU.activation GRU.recurrent_activation].
  unfold item, mask_item. cbn [nth_error Py.bind item].
  rewrite !(Nat.mul_comm (GRU.units self) 2).
  set (u := GRU.units self).
  destruct (as_mat h0) as [h|e]; [|reflexivity]. cbn [Py.bind].
  destruct (times inputs d) as [x|e]; [|reflexivity]. cbn [Py.bind].
  destruct (GRU.use_bias self), (GRU.bias self) as [b|];
    cbn [bias_if plus_bias option_map Py.bind]; try reflexivity;
    rewrite ?bias_add_cols, ?bias_add_cols_from, !dot_cols, dot_cols_from,
      ?Nat.sub_0_r;
    cbn [skipn];
    (destruct (times h r) as [hx|e]; [|reflexivity]); cbn [Py.bind];
    rewrite !dot_cols, !cols_of_cols by lia;
    destruct (times _ r) as [rx|e]; reflexivity.
Qed.

(** Two step functions that agree on the states the loop can reach give
    the same loop. *)
Lemma scan_agree (step1 step2 : K.step_function) (constants : list pyobj)
    (P : list pyobj -> Prop) :
  (forall x st, P st -> step1 x (st ++ constants) = step2 x (st ++ constants)) ->
  (forall x st o ns,
      P st -> step2 x (st ++ constants) = Ok (o, ns) ->
      P ns /\ forall mt, P (map2 (K.switch_state mt) ns st)) ->
  forall slices prev st,
    P st ->
    K.scan step1 constants slices prev st
    = K.scan step2 constants slices prev st.
Proof.
  intros Hstep Hkeep slices.
  induction slices as [|[x m] slices IH]; intros prev st Hst;
    [reflexivity|].
  cbn [K.scan]. rewrite (Hstep x st Hst).
  destruct (step2 x (st ++ constants)) as [[o ns]|e] eqn:E; [|reflexivity].
  cbn [Py.bind].
  destruct (Hkeep x st o ns Hst E) as [Hns Hsw].
  rewrite IH; [reflexivity|].
  destruct m as [mt|]; [apply Hsw | exact Hns].
Qed.

Lemma rnn_agree (step1 step2 : K.step_function) (constants : list pyobj)
    (P : list pyobj -> Prop) :
  (forall x st, P st -> step1 x (st ++ constants) = step2 x (st ++ constants)) ->
  (forall x st o ns,
      P st -> step2 x (st ++ constants) = Ok (o, ns) ->
      P ns /\ forall mt, P (map2 (K.switch_state mt) ns st)) ->
  forall inputs initial_states go_backwards mask unroll input_length,
    P initial_states ->
    K.rnn step1 inputs initial_states go_backwards mask constants unroll
          input_length
    = K.rnn step2 inputs initial_states go_backwards mask constants unroll
            input_length.
Proof.
  intros Hstep Hkeep inputs initial_states go_backwards mask unroll
         input_length Hinit.
  unfold K.rnn.
  rewrite (scan_agree step1 step2 constants P Hstep Hkeep _ _ _ Hinit).
  reflexivity.
Qed.

Lemma gru_constants_shared (self : GRU.t) (s : K.session) (x : K.ktensor) :
  K.learning_phase s = false
  \/ (in_unit_interval (GRU.dropout self) = false
      /\ in_unit_interval (GRU.recurrent_dropout self) = false) ->
  exists d r s',
    GRU.get_constants self s x None
    = ([PyList [d; d; d]; PyList [r; r; r]], s').
Proof.
  intros [Hp|[Hd Hr]]; unfold GRU.get_constants.
  - destruct (negb (GRU.implementation self =? 0)
              && in_unit_interval (GRU.dropout self));
      destruct (in_unit_interval (GRU.recurrent_dropout self));
      repeat (rewrite dropout_masks_inference by exact Hp; cbv beta iota);
      cbn [repeat]; eauto.
  - rewrite Hd, Hr, andb_false_r. cbn [repeat]. cbv beta iota. eauto.
Qed.

Lemma gru_step_one_state (self : GRU.t) (x : mat) (states : list pyobj)
    (o : mat) (ns : list pyobj) :
  GRU.step self x states = Ok (o, ns) -> length ns = 1.
Proof.
  unfold GRU.step. destruct (GRU.gates self x states) as [[[h z] hh]|e];
    cbn [Py.bind]; intros E; inv E. reflexivity.
Qed.

(** X2.  On dropout masks that are the same for the three gates, the step
    function of a [GRU] built with [implementation=2] returns what the step
    function of the same layer built with [implementation=1] returns, the
    output and the new state or the exception, whatever the weights, the
    inputs and the previous state are: multiplying by the whole kernel and
    slicing the product is multiplying by the slices of the kernel. *)
Theorem gru_step_modes_agree :
  forall (self : GRU.t) (inputs : mat) (h0 : pyobj) (d r : tensor)
         (rest : list pyobj),
    GRU.step (Modes.gru self 2) inputs
             (h0 :: PyList [d; d; d] :: PyList [r; r; r] :: rest)
    = GRU.step (Modes.gru self 1) inputs
               (h0 :: PyList [d; d; d] :: PyList [r; r; r] :: rest).
Proof.
  intros self inputs h0 d r rest.
  unfold GRU.step. rewrite gru_gates_modes_agree. reflexivity.
Qed.

(** X3.  For a [GRU] with one stored state, [call] returns the same in
    [implementation=1] and [implementation=2], with the same updates and the
    same session, whenever the session is not in its learning phase or
    neither dropout rate is inside [(0, 1)]: the masks [get_constants]
    builds are then the same for every gate. *)
Theorem gru_call_modes_agree :
  forall (self : GRU.t) (s : K.session) (inputs : call_inputs)
         (mask : call_mask) (training : option bool)
         (initial_state : option (list pyobj)),
    length (Recurrent.states (GRU.attrs self)) = 1 ->
    K.learning_phase s = false
    \/ (in_unit_interval (GRU.dropout self) = false
        /\ in_unit_interval (GRU.recurrent_dropout self) = false) ->
    call (Modes.gru self 2) s inputs mask training initial_state
    = call (Modes.gru self 1) s inputs mask training initial_state.
Proof.
  intros self s inputs mask training initial_state Hone Hshared.
  unfold call.
  change (initial_state_of (Modes.gru self 2) inputs initial_state)
    with (initial_state_of (Modes.gru self 1) inputs initial_state).
  set (init := initial_state_of (Modes.gru self 1) inputs initial_state).
  change (states (base (Modes.gru self 2)))
    with (Recurrent.states (GRU.attrs self)).
  change (states (base (Modes.gru self 1)))
    with (Recurrent.states (GRU.attrs self)).
  rewrite Hone.
  destruct (length init =? 1) eqn:Hlen; [|reflexivity].
  apply Nat.eqb_eq in Hlen. cbn [negb].
  unfold scan_and_return, constants_and_input.
  cbn [base GRU.layer Modes.gru GRU.attrs Modes.set_implementation unroll
       go_backwards stateful states return_state return_sequences
       get_constants preprocess_input step].
  destruct (unroll (GRU.attrs self)
            && negb (K.time_defined (input_tensor inputs)));
    [reflexivity|].
  change (GRU.get_constants _ s (input_tensor inputs) None)
    with (GRU.get_constants (Modes.gru self 1) s (input_tensor inputs) None).
  destruct (gru_constants_shared (Modes.gru self 1) s (input_tensor inputs)
                                 Hshared)
    as (d & r & s' & Hc).
  rewrite Hc.
  change (GRU.preprocess_input _ s' (input_tensor inputs) None)
    with (K.value (input_tensor inputs), s').
  cbv beta iota.
  rewrite (rnn_agree (GRU.step (Modes.gru self 2))
             (GRU.step (Modes.gru self 1))
             [PyList [d; d; d]; PyList [r; r; r]]
             (fun st => length st = 1)); [reflexivity| | |exact Hlen].
  - intros x [|h0 [|? ?]] Hst; try discriminate Hst.
    cbn [app]. unfold GRU.step. rewrite gru_gates_modes_agree. reflexivity.
  - intros x st o ns Hst E. pose proof (gru_step_one_state _ _ _ _ _ E) as Hn.
    split; [exact Hn|]. intros mt. rewrite length_map2, Hn, Hst. reflexivity.
Qed.

(** The theorem on a layer without dropout, in a session at inference. *)
Lemma gru_call_modes_agree_witness :
  call (Modes.gru Examples.gru 2) Examples.session0
       (InTensor Examples.two_steps) NoMask None None
  = call (Modes.gru Examples.gru 1) Examples.session0
         (InTensor Examples.two_steps) NoMask None None.
Proof.
  apply (gru_call_modes_agree Examples.gru Examples.session0
           (InTensor Examples.two_steps) NoMask None None).
  - reflexivity.
  - left. reflexivity.
Defined.

(** X4.  For an [LSTM] built with [use_bias=False], the step function in
    [implementation=2] on an input [x] returns what the step function in
    [implementation=0] returns on the projection [(x * dp_mask[0]) . kernel]
    of that input, on recurrent dropout masks that are the same for the four
    gates: slicing the sum of the two products is adding, gate by gate, the
    slice of the projected input and the product by the slice of the
    recurrent kernel.  (With a bias the implementations add it at different
    places: 2 after the recurrent product, 0 and 1 before it.) *)
Theorem lstm_step_mode_2_projects :
  forall (self : LSTM.t) (inputs projected : mat) (h0 c0 : pyobj)
         (d r : tensor) (dl : list tensor) (rest : list pyobj),
    LSTM.use_bias self = false ->
    (x <- times inputs d ;; Ok (K.dot x (LSTM.kernel self))) = Ok projected ->
    LSTM.step (Modes.lstm self 2) inputs
              (h0 :: c0 :: PyList (d :: dl) :: PyList [r; r; r; r] :: rest)
    = LSTM.step (Modes.lstm self 0) projected
                (h0 :: c0 :: PyList (d :: dl) :: PyList [r; r; r; r]
                    :: rest).
Proof.
  intros self inputs projected h0 c0 d r dl rest Hu Hp.
  unfold LSTM.step, LSTM.gates.
  change (LSTM.implementation (Modes.lstm self 2)) with 2.
  change (LSTM.implementation (Modes.lstm self 0)) with 0.
  cbn [Nat.eqb].
  unfold LSTM.recurrent_kernel_i, LSTM.recurrent_kernel_f,
    LSTM.recurrent_kernel_c, LSTM.recurrent_kernel_o.
  change (LSTM.units (Modes.lstm self 2)) with (LSTM.units self).
  change (LSTM.units (Modes.lstm self 0)) with (LSTM.units self).
  cbn [Modes.lstm LSTM.kernel LSTM.recurrent_kernel LSTM.use_bias LSTM.bias
       LSTM.activation LSTM.recurrent_activation].
  rewrite Hu.
  unfold item, mask_item. cbn [nth_error Py.bind item].
  rewrite !(Nat.mul_comm (LSTM.units self) 2),
    !(Nat.mul_comm (LSTM.units self) 3).
  set (u := LSTM.units self).
  destruct (as_mat h0) as [h|e]; [|reflexivity]. cbn [Py.bind].
  destruct (as_mat c0) as [c|e]; [|reflexivity]. cbn [Py.bind].
  destruct (times inputs d) as [x|e]; [|discriminate Hp].
  cbn [Py.bind] in Hp. injection Hp as <-.
  cbn [Py.bind bias_if].
  destruct (times h r) as [hx|e]; [|reflexivity].
  cbn [Py.bind bias_if].
  rewrite !madd_cols, madd_cols_from.
  rewrite !(dot_cols hx), (dot_cols_from hx).
  reflexivity.
Qed.

(** The theorem on a layer of one unit without dropout. *)
Lemma lstm_step_mode_2_projects_witness :
  LSTM.step (Modes.lstm Layers.lstm_without_bias 2) [[1%R]]
            Layers.lstm_states
  = LSTM.step (Modes.lstm Layers.lstm_without_bias 0)
              (K.dot [[(1 * 1)%R]] (LSTM.kernel Layers.lstm_without_bias))
              Layers.lstm_states.
Proof.
  apply (lstm_step_mode_2_projects Layers.lstm_without_bias [[1%R]]
           (K.dot [[(1 * 1)%R]] (LSTM.kernel Layers.lstm_without_bias))
           (Tensor (T2 [[0%R]])) (Tensor (T2 [[0%R]]))
           Constants.one Constants.one (repeat Constants.one 3) []);
    reflexivity.
Defined.

(** *** Steps that cannot return *)

Ltac head_of r :=
  match r with
  | Py.bind ?r' _ => head_of r'
  | _ => r
  end.

Ltac raises :=
  repeat (cbn [Py.bind plus_bias];
          match goal with
          | |- exists e, Raise _ = Raise e => eexists; reflexivity
          | |- exists e, Py.bind ?r _ = Raise e =>
              let h := head_of r in destruct h
          end).

(** X5.  An [LSTM] built with [use_bias=False] has no step in
    [implementation=1]: that branch adds [self.bias_i], which [build] left
    [None], to the product of the input and the kernel, so the step function
    raises whatever the inputs and the states are. *)
Theorem lstm_mode_1_needs_bias :
  forall (self : LSTM.t) (inputs : mat) (states : list pyobj),
    LSTM.implementation self = 1 ->
    LSTM.use_bias self = false ->
    exists e, LSTM.step self inputs states = Raise e.
Proof.
  intros self inputs states Hi Hb.
  unfold LSTM.step, LSTM.gates. rewrite Hi. cbn [Nat.eqb].
  unfold LSTM.bias_i, LSTM.bias_slice. rewrite Hb.
  raises.
Qed.

(** The theorem on a layer of one unit and the states of a first step. *)
Lemma lstm_mode_1_needs_bias_witness :
  exists e,
    LSTM.step Layers.lstm_without_bias [[1%R]] Layers.lstm_states = Raise e.
Proof.
  apply (lstm_mode_1_needs_bias Layers.lstm_without_bias [[1%R]]
           Layers.lstm_states); reflexivity.
Defined.

(** X6.  The step of [AttLSTMCond] adds [self.bias_ca] to the attention
    scores whether or not the layer uses a bias; where [build] left it
    [None], as it does with [use_bias=False], the step function raises
    whatever the input and the states are. *)
Theorem attention_step_needs_bias_ca :
  forall (self : AttLSTMCond.t) (x : mat) (states : list pyobj),
    AttLSTMCond.bias_ca self = None ->
    exists e, AttLSTMCond.step self x states = Raise e.
Proof.
  intros self x states Hb.
  unfold AttLSTMCond.step, AttLSTMCond.attention, AttLSTMCond.scores.
  rewrite Hb.
  raises.
Qed.

(** The theorem on a layer of one unit over a context of two positions. *)
Lemma attention_step_needs_bias_ca_witness :
  exists e,
    AttLSTMCond.step Layers.att_without_bias [[0%R; 0%R; 0%R; 0%R]]
      (Examples.att_states [[[0%R]; [0%R]]] [[[1%R; 2%R]; [3%R; 4%R]]])
    = Raise e.
Proof.
  apply (attention_step_needs_bias_ca Layers.att_without_bias
           [[0%R; 0%R; 0%R; 0%R]]
           (Examples.att_states [[[0%R]; [0%R]]] [[[1%R; 2%R]; [3%R; 4%R]]])).
  reflexivity.
Defined.

(** X7.  With an [implementation] other than 0, 1 and 2 the step functions
    of [GRU] and [LSTM] raise [ValueError], once the previous states and the
    two lists of masks have been read off the states. *)
Theorem unknown_implementation_raises :
  forall (g : GRU.t) (l : LSTM.t) (inputs h c : mat) (dp rdp : pyobj)
         (rest : list pyobj),
    2 < GRU.implementation g -> 2 < LSTM.implementation l ->
    GRU.step g inputs (Tensor (T2 h) :: dp :: rdp :: rest)
    = Raise (ValueError UnknownImplementation)
    /\ LSTM.step l inputs (Tensor (T2 h) :: Tensor (T2 c) :: dp :: rdp :: rest)
       = Raise (ValueError UnknownImplementation).
Proof.
  intros g l inputs h c dp rdp rest Hg Hl.
  unfold GRU.step, GRU.gates, LSTM.step, LSTM.gates.
  destruct (GRU.implementation g) as [|[|[|n]]]; try lia.
  destruct (LSTM.implementation l) as [|[|[|m]]]; try lia.
  split; reflexivity.
Qed.

(** The theorem on two layers built with [implementation=3]. *)
Lemma unknown_implementation_raises_witness :
  GRU.step (Modes.gru Examples.gru 3) [[1%R]]
           [Tensor (T2 [[0%R]]); Examples.no_dropout 4; Examples.no_dropout 4]
  = Raise (ValueError UnknownImplementation)
  /\ LSTM.step (Modes.lstm Layers.lstm 3) [[1%R]]
               [Tensor (T2 [[0%R]]); Tensor (T2 [[0%R]]);
                Examples.no_dropout 4; Examples.no_dropout 4]
     = Raise (ValueError UnknownImplementation).
Proof.
  apply (unknown_implementation_raises (Modes.gru Examples.gru 3)
           (Modes.lstm Layers.lstm 3) [[1%R]] [[0%R]] [[0%R]]
           (Examples.no_dropout 4) (Examples.no_dropout 4) []).
  - unfold GRU.implementation; simpl; lia.
  - unfold LSTM.implementation; simpl; lia.
Defined.

(** *** What [reset_states] keeps *)

Lemma set_states_same (self : attrs) :
  set_states self (states self) = self.
Proof. destruct self; reflexivity. Qed.

Lemma zero_states_loop_length (batch units : nat)
    (stored : list (option tensor)) :
  length (fst (zero_states_loop batch units stored)) = length stored.
Proof.
  induction stored as [|[t|] rest IH]; simpl; try reflexivity.
  destruct (zero_states_loop batch units rest) as [rest' r]. simpl in *.
  rewrite IH. reflexivity.
Qed.

Lemma zero_states_loop_ok (batch units : nat)
    (stored : list (option tensor)) :
  snd (zero_states_loop batch units stored) = Ok tt ->
  forallb is_some (fst (zero_states_loop batch units stored)) = true.
Proof.
  induction stored as [|[t|] rest IH]; simpl; try reflexivity;
    try discriminate.
  destruct (zero_states_loop batch units rest) as [rest' r]. simpl in *.
  exact IH.
Qed.

Lemma zero_states_loop_again (batch units : nat)
    (stored : list (option tensor)) :
  zero_states_loop batch units (fst (zero_states_loop batch units stored))
  = zero_states_loop batch units stored.
Proof.
  induction stored as [|[t|] rest IH]; simpl; try reflexivity.
  destruct (zero_states_loop batch units rest) as [rest' r]. simpl in *.
  rewrite IH. reflexivity.
Qed.

Lemma set_states_loop_length (batch units : nat) (vs : list tensor) :
  forall (stored : list (option tensor)) (index : nat),
    length vs = length stored ->
    length (fst (set_states_loop batch units index (combine vs stored)))
    = length stored.
Proof.
  induction vs as [|v vs IH]; intros [|t rest] index Hlen; simpl in *;
    try reflexivity; try discriminate.
  destruct (shape_eqb (shape v) [batch; units]); simpl.
  - destruct (K.set_value t v) as [t'|e]; simpl.
    + specialize (IH rest (S index) ltac:(lia)).
      destruct (set_states_loop batch units (S index) (combine vs rest))
        as [rest' r].
      simpl in *. rewrite IH. reflexivity.
    + rewrite length_map, length_combine. lia.
  - rewrite length_map, length_combine. lia.
Qed.

Lemma set_states_loop_ok (batch units : nat) (vs : list tensor) :
  forall (stored : list (option tensor)) (index : nat),
    snd (set_states_loop batch units index (combine vs stored)) = Ok tt ->
    forallb is_some
      (fst (set_states_loop batch units index (combine vs stored))) = true.
Proof.
  induction vs as [|v vs IH]; intros [|t rest] index; simpl;
    try reflexivity.
  destruct (shape_eqb (shape v) [batch; units]); simpl; [|discriminate].
  destruct t as [t|]; simpl; [|discriminate].
  specialize (IH rest (S index)).
  destruct (set_states_loop batch units (S index) (combine vs rest))
    as [rest' r].
  exact IH.
Qed.

Lemma set_states_loop_keeps_set (batch units : nat) (vs : list tensor) :
  forall (stored : list (option tensor)) (index : nat),
    forallb is_some stored = true ->
    length vs = length stored ->
    forallb is_some
      (fst (set_states_loop batch units index (combine vs stored))) = true.
Proof.
  induction vs as [|v vs IH]; intros [|[t|] rest] index Hs Hlen; simpl in *;
    try reflexivity; try discriminate.
  assert (Hsnd : map snd (combine vs rest) = rest).
  { clear -Hlen. revert rest Hlen.
    induction vs as [|v vs IH]; intros [|t rest] Hlen; simpl in *;
      try reflexivity; try discriminate.
    rewrite IH by lia. reflexivity. }
  destruct (shape_eqb (shape v) [batch; units]); simpl.
  - specialize (IH rest (S index) Hs ltac:(lia)).
    destruct (set_states_loop batch units (S index) (combine vs rest))
      as [rest' r].
    exact IH.
  - rewrite Hsnd. exact Hs.
Qed.

Lemma forallb_map_const {A B : Type} (p : B -> bool) (b : B) (l : list A) :
  p b = true -> forallb p (map (fun _ => b) l) = true.
Proof.
  intros Hb. induction l as [|a l IH]; simpl; [reflexivity|].
  rewrite Hb, IH. reflexivity.
Qed.

Lemma all_set_uniform (stored : list (option tensor)) :
  forallb is_some stored = true -> uniform stored = true.
Proof.
  intros H. unfold uniform. rewrite H. apply orb_true_r.
Qed.

Ltac unchanged :=
  split; [symmetry; apply set_states_same
         |split; [reflexivity
                 |split; [auto|let H := fresh in intros H; discriminate H]]].

(** X8.  Whatever its argument and however it ends, [reset_states] changes
    nothing of the layer but the stored states and never their number; stored
    states that were all unset or all set stay so; and when it returns, there
    is at least one stored state and every one of them is set. *)
Theorem reset_states_keeps_structure :
  forall (self : attrs) (arg : states_arg),
    let r := reset_states self arg in
    fst r = set_states self (states (fst r))
    /\ length (states (fst r)) = length (states self)
    /\ (uniform (states self) = true -> uniform (states (fst r)) = true)
    /\ (snd r = Ok tt ->
        states (fst r) <> []
        /\ forallb is_some (states (fst r)) = true).
Proof.
  intros self arg r; subst r.
  unfold reset_states.
  destruct (stateful self); cbn [negb fst snd]; [|unchanged].
  destruct (batch_size self) as [[|batch]|]; cbn [fst snd];
    try unchanged.
  destruct (states self) as [|[t|] rest] eqn:Est; cbn [fst snd].
  - rewrite <- Est. unchanged.
  - destruct arg as [|v|vs]; cbv beta iota.
    + pose proof (zero_states_loop_length (S batch) (units self)
                    (Some t :: rest)) as Hl.
      pose proof (zero_states_loop_ok (S batch) (units self)
                    (Some t :: rest)) as Hok.
      destruct (zero_states_loop (S batch) (units self) (Some t :: rest))
        as [stored r] eqn:E.
      cbn [fst snd states set_states] in *.
      repeat split; auto.
      * intros Hu. apply uniform_head_some in Hu.
        pose proof (zero_states_loop_all (S batch) (units self)
                      (Some t :: rest)) as Hall.
        rewrite E in Hall. specialize (Hall Hu). inv Hall.
        apply all_set_uniform. cbn [map forallb is_some andb].
        apply forallb_map_const. reflexivity.
      * intros ->. discriminate Hl.
    + destruct (negb (length [v] =? length (Some t :: rest))) eqn:Elen;
        cbn [fst snd].
      * rewrite <- Est. unchanged.
      * apply negb_false_iff, Nat.eqb_eq in Elen.
        pose proof (set_states_loop_length (S batch) (units self) [v]
                      (Some t :: rest) 0 Elen) as Hl.
        pose proof (set_states_loop_ok (S batch) (units self) [v]
                      (Some t :: rest) 0) as Hok.
        pose proof (set_states_loop_keeps_set (S batch) (units self) [v]
                      (Some t :: rest) 0) as Hkeep.
        destruct (set_states_loop (S batch) (units self) 0
                    (combine [v] (Some t :: rest))) as [stored r] eqn:E.
        cbn [fst snd states set_states] in *.
        repeat split; auto.
        -- intros Hu. apply all_set_uniform, Hkeep; [|exact Elen].
           apply uniform_head_some in Hu. exact Hu.
        -- intros ->. discriminate Hl.
    + destruct (negb (length vs =? length (Some t :: rest))) eqn:Elen;
        cbn [fst snd].
      * rewrite <- Est. unchanged.
      * apply negb_false_iff, Nat.eqb_eq in Elen.
        pose proof (set_states_loop_length (S batch) (units self) vs
                      (Some t :: rest) 0 Elen) as Hl.
        pose proof (set_states_loop_ok (S batch) (units self) vs
                      (Some t :: rest) 0) as Hok.
        pose proof (set_states_loop_keeps_set (S batch) (units self) vs
                      (Some t :: rest) 0) as Hkeep.
        destruct (set_states_loop (S batch) (units self) 0
                    (combine vs (Some t :: rest))) as [stored r] eqn:E.
        cbn [fst snd states set_states] in *.
        repeat split; auto.
        -- intros Hu. apply all_set_uniform, Hkeep; [|exact Elen].
           apply uniform_head_some in Hu. exact Hu.
        -- intros ->. discriminate Hl.
  - cbn [states set_states]. rewrite length_map.
    repeat split; auto.
    + intros _. apply all_set_uniform. apply forallb_map_const. reflexivity.
    + discriminate.
    + apply forallb_map_const. reflexivity.
Qed.

(** The theorem on a layer of two states, both set. *)
Lemma reset_states_keeps_structure_witness :
  let r := reset_states Examples.stateful_pair NoStates in
  uniform (states (fst r)) = true
  /\ states (fst r) <> []
  /\ forallb is_some (states (fst r)) = true.
Proof.
  destruct (reset_states_keeps_structure Examples.stateful_pair NoStates)
    as (_ & _ & Hu & Hok).
  cbv zeta. split; [apply Hu; reflexivity | apply Hok; reflexivity].
Defined.

(** X9.  Resetting without an argument a second time changes nothing: the
    layer the first [reset_states()] leaves is left as it is by the second,
    which ends as the first did, also when that was with an exception. *)
Theorem reset_states_twice :
  forall (self : attrs),
    reset_states (fst (reset_states self NoStates)) NoStates
    = reset_states self NoStates.
Proof.
  intros self. unfold reset_states at 2 3.
  destruct (stateful self) eqn:Es; cbn [negb fst].
  2:{ unfold reset_states. rewrite Es. reflexivity. }
  destruct (batch_size self) as [[|batch]|] eqn:Eb; cbn [fst];
    try (unfold reset_states; rewrite Es, Eb; reflexivity).
  destruct (states self) as [|[t|] rest] eqn:Est; cbn [fst].
  - unfold reset_states. rewrite Es, Eb, Est. reflexivity.
  - pose proof (zero_states_loop_again (S batch) (units self)
                  (Some t :: rest)) as Hag.
    destruct (zero_states_loop (S batch) (units self) (Some t :: rest))
      as [stored r] eqn:E.
    cbn [fst] in *.
    unfold reset_states. cbn [stateful batch_size states units set_states].
    rewrite Es, Eb. cbn [negb].
    destruct stored as [|[t'|] rest'].
    + simpl in E. destruct (zero_states_loop (S batch) (units self) rest);
        discriminate.
    + rewrite Hag. reflexivity.
    + simpl in E. destruct (zero_states_loop (S batch) (units self) rest);
        discriminate.
  - unfold reset_states. cbn [stateful batch_size states units set_states].
    rewrite Es, Eb. cbn [negb map].
    rewrite zero_states_loop_all
      by (cbn [forallb is_some andb]; apply forallb_map_const; reflexivity).
    cbn [map]. rewrite map_map. reflexivity.
Qed.

(** *** [Recurrent.__call__] *)

Section DunderCall.

Context {T S X KW A : Type}.
Variable is_keras : T -> bool.
Variable super_call :
  @Call.attr S -> @Call.super_inputs T X -> KW -> option (list T)
  -> @Call.attr S * result A.

Lemma mixed_iff (b : bool) (l : list T) :
  Call.mixed is_keras b l = true
  <-> exists t, In t l /\ is_keras t <> b.
Proof.
  induction l as [|t l IH]; simpl.
  - split; [discriminate | intros (t & [] & _)].
  - destruct (Bool.eqb (is_keras t) b) eqn:E; simpl.
    + apply Bool.eqb_prop in E. rewrite IH. split.
      * intros (t' & Hin & Hne). exists t'. auto.
      * intros (t' & [<-|Hin] & Hne); [exfalso; apply Hne; exact E|].
        exists t'. auto.
    + split; [intros _|reflexivity].
      exists t. split; [auto|]. intros Heq.
      rewrite Heq, Bool.eqb_reflx in E. discriminate.
Qed.

Lemma of_result_not_mixed (r : result A) :
  @Call.of_result A r <> Call.RaisedMixed.
Proof. destruct r; discriminate. Qed.

(** X10.  Given a non-empty list of initial states, [__call__] raises the
    [ValueError] about a mix of tensors exactly when the list holds both a
    Keras tensor and a tensor that is none; it then has not called
    [Layer.__call__] and leaves [self.input_spec] as it was. *)
Theorem call_rejects_mixed_states :
  forall (input_spec state_spec : @Call.attr S) (inputs : X) (l : list T)
         (kwargs : KW),
    l <> [] ->
    let r := Call.__call__ is_keras super_call input_spec state_spec inputs
                           (Call.TensorList l) kwargs in
    (snd r = Call.RaisedMixed
     <-> exists t t', In t l /\ In t' l
                      /\ is_keras t = true /\ is_keras t' = false)
    /\ (snd r = Call.RaisedMixed -> fst r = input_spec).
Proof.
  intros input_spec state_spec inputs l kwargs Hl r; subst r.
  destruct l as [|first rest]; [contradiction|].
  unfold Call.__call__.
  destruct (Call.mixed is_keras (is_keras first) (first :: rest)) eqn:Em.
  - cbn [fst snd]. split; [|reflexivity].
    split; [intros _|reflexivity].
    apply mixed_iff in Em. destruct Em as (t & Hin & Hne).
    destruct (is_keras first) eqn:Ef.
    + exists first, t.
      split; [left; reflexivity|]. split; [exact Hin|]. split; [exact Ef|].
      destruct (is_keras t); [exfalso; apply Hne; reflexivity|reflexivity].
    + exists t, first.
      split; [exact Hin|]. split; [left; reflexivity|]. split; [|exact Ef].
      destruct (is_keras t); [reflexivity|exfalso; apply Hne; reflexivity].
  - assert (Hnone : ~ exists t t', In t (first :: rest) /\ In t' (first :: rest)
                                   /\ is_keras t = true /\ is_keras t' = false).
    { intros (t & t' & Hin & Hin' & Ht & Ht').
      assert (Hno : forall x, In x (first :: rest) ->
                              is_keras x = is_keras first).
      { intros x Hx. destruct (Bool.bool_dec (is_keras x) (is_keras first))
          as [E|E]; [exact E|].
        assert (Call.mixed is_keras (is_keras first) (first :: rest) = true)
          by (apply mixed_iff; exists x; auto).
        congruence. }
      rewrite (Hno t Hin) in Ht. rewrite (Hno t' Hin') in Ht'. congruence. }
    destruct (is_keras first).
    + destruct (super_call _ (Call.WithStates inputs (first :: rest)) kwargs None)
        as [after [o|e]]; cbn [fst snd];
        (split; [split; [discriminate|intros H; contradiction]|discriminate]).
    + destruct (super_call input_spec (Call.Plain inputs) kwargs
                           (Some (first :: rest))) as [after res];
        cbn [fst snd].
      split; [split; [|intros H; contradiction]|];
        intros H; exfalso; exact (of_result_not_mixed _ H).
Qed.

(** X11.  Given a non-empty list of Keras tensors as initial states,
    [__call__] ends as the call of [Layer.__call__] on the inputs followed by
    the states ends, run with the state specifications appended to
    [self.input_spec].  When that call returns, [self.input_spec] becomes the
    list it was before (a list of one element if it was no list), whatever
    the call stored there; when it raises, [self.input_spec] stays as the
    call left it and is not restored. *)
Theorem call_restores_input_spec :
  forall (input_spec state_spec : @Call.attr S) (inputs : X) (l : list T)
         (kwargs : KW),
    l <> [] ->
    (forall t, In t l -> is_keras t = true) ->
    let r := Call.__call__ is_keras super_call input_spec state_spec inputs
                           (Call.TensorList l) kwargs in
    let sup := super_call
                 (Call.Several (Call.as_list input_spec
                                ++ Call.as_list state_spec))
                 (Call.WithStates inputs l) kwargs None in
    snd r = Call.of_result (snd sup)
    /\ (forall output, snd r = Call.Returned output ->
                       fst r = Call.Several (Call.as_list input_spec))
    /\ (forall e, snd r = Call.Raised e -> fst r = fst sup).
Proof.
  intros input_spec state_spec inputs l kwargs Hl Hall r sup; subst r sup.
  destruct l as [|first rest]; [contradiction|].
  unfold Call.__call__.
  assert (Em : Call.mixed is_keras (is_keras first) (first :: rest) = false).
  { destruct (Call.mixed is_keras (is_keras first) (first :: rest)) eqn:Em;
      [|reflexivity].
    apply mixed_iff in Em. destruct Em as (t & Hin & Hne).
    rewrite (Hall t Hin), (Hall first (or_introl eq_refl)) in Hne.
    contradiction. }
  rewrite Em, (Hall first (or_introl eq_refl)).
  destruct (super_call _ (Call.WithStates inputs (first :: rest)) kwargs None)
    as [after [o|e]]; cbn [fst snd Call.of_result];
    repeat split; auto; intros ? H; discriminate H.
Qed.

End DunderCall.

(** The theorem on a list of a Keras tensor and another tensor. *)
Lemma call_rejects_mixed_states_witness :
  Call.__call__ (fun b : bool => b) Layers.building_call
                (Call.Several [Some 3]) (Call.Single (Some 1)) tt
                (Call.TensorList [true; false]) tt
  = (Call.Several [Some 3], Call.RaisedMixed).
Proof.
  destruct (call_rejects_mixed_states (fun b : bool => b)
              Layers.building_call (Call.Several [Some 3])
              (Call.Single (Some 1)) tt [true; false] tt
              ltac:(discriminate)) as [[_ Hraise] Hspec].
  assert (Hmixed : exists t t' : bool,
             In t [true; false] /\ In t' [true; false]
             /\ t = true /\ t' = false).
  { exists true, false. simpl. auto. }
  apply Hraise in Hmixed. pose proof (Hspec Hmixed) as Hsame.
  rewrite surjective_pairing at 1. rewrite Hmixed, Hsame. reflexivity.
Defined.

(** The theorem on one Keras tensor and a call that changes
    [self.input_spec]. *)
Lemma call_restores_input_spec_witness :
  Call.__call__ (fun b : bool => b) Layers.building_call
                (Call.Several [Some 3]) (Call.Single (Some 1)) tt
                (Call.TensorList [true]) tt
  = (Call.Several [Some 3], Call.Returned 2).
Proof.
  destruct (call_restores_input_spec (fun b : bool => b)
              Layers.building_call (Call.Several [Some 3])
              (Call.Single (Some 1)) tt [true] tt
              ltac:(discriminate)
              ltac:(intros t [<-|[]]; reflexivity)) as (Hend & Hret & _).
  rewrite surjective_pairing at 1. rewrite (Hret 2 Hend), Hend. reflexivity.
Defined.

(** *** Shapes *)

Lemma has_shape_dot (x w : mat) :
  has_shape (length x) (K.ncols w) (K.dot x w).
Proof.
  unfold has_shape, K.dot. rewrite length_map. split; [reflexivity|].
  apply Forall_forall. intros row Hin. apply in_map_iff in Hin.
  destruct Hin as (r & <- & _). rewrite length_map, length_seq. reflexivity.
Qed.

Lemma has_shape_bias_add (rows width : nat) (m : mat) (b : vec) :
  has_shape rows width m -> length b = width ->
  has_shape rows width (K.bias_add m b).
Proof.
  unfold has_shape, K.bias_add. intros [Hl Hr] Hb.
  rewrite length_map. split; [exact Hl|].
  rewrite Forall_map. eapply Forall_impl; [|exact Hr].
  intros row Hrow. cbv beta in *. unfold vadd.
  rewrite length_map2, Hrow, Hb. apply Nat.min_id.
Qed.

Lemma has_shape_madd (rows width : nat) (a b : mat) :
  has_shape rows width a -> has_shape rows width b ->
  has_shape rows width (madd a b).
Proof.
  unfold has_shape, madd. intros [Hla Hra] [Hlb Hrb].
  rewrite length_map2, Hla, Hlb. split; [apply Nat.min_id|].
  clear Hla Hlb. revert b Hrb.
  induction a as [|r a IH]; intros [|r' b] Hrb; simpl; try constructor.
  - apply Forall_inv in Hra. apply Forall_inv in Hrb.
    unfold vadd. rewrite length_map2, Hra, Hrb. apply Nat.min_id.
  - apply IH; [eapply Forall_inv_tail; exact Hra
              |eapply Forall_inv_tail; exact Hrb].
Qed.

Lemma length_times (x : mat) (m : tensor) :
  Shapes.rows_ok (length x) m ->
  exists x', times x m = Ok x' /\ length x' = length x.
Proof.
  destruct m as [c|v|m|c]; simpl; intros H.
  - eexists; split; [reflexivity|]. unfold mmap. apply length_map.
  - eexists; split; [reflexivity|]. apply length_map.
  - eexists; split; [reflexivity|]. unfold mmul.
    rewrite length_map2, H. apply Nat.min_id.
  - contradiction.
Qed.

Lemma scan_unmasked_invariant (step : K.step_function)
    (constants : list pyobj) (Px Po : mat -> Prop)
    (Ps : list pyobj -> Prop) :
  (forall x st, Px x -> Ps st ->
                exists o ns, step x (st ++ constants) = Ok (o, ns)
                             /\ Po o /\ Ps ns) ->
  forall xs prev st,
    Forall Px xs -> Ps st ->
    exists outs fin,
      K.scan step constants (combine xs (map (fun _ => None) xs)) prev st
      = Ok (outs, fin)
      /\ length outs = length xs /\ Forall Po outs /\ Ps fin.
Proof.
  intros Hstep xs. induction xs as [|x xs IH]; intros prev st Hxs Hst.
  - exists [], st. simpl. auto.
  - inv Hxs.
    match goal with Hx : Px x, Hr : Forall Px xs |- _ =>
      destruct (Hstep x st Hx Hst) as (o & ns & E & Ho & Hns);
      destruct (IH (Some o) ns Hr Hns) as (outs & fin & E' & Hl & Hos & Hf)
    end.
    exists (o :: outs), fin. cbn [combine map K.scan].
    rewrite E. cbn [Py.bind]. rewrite E'. cbn [Py.bind].
    simpl. auto.
Qed.

Lemma dropout_mask_rows (s : K.session) (ones_ : mat) (level : R)
    (training : option bool) :
  exists m s', Constants.dropout_mask s ones_ level training = (T2 m, s')
               /\ length m = length ones_.
Proof.
  unfold Constants.dropout_mask, K.in_train_phase.
  destruct (K.training_now s training).
  - unfold K.dropout. eexists; eexists; split; [reflexivity|].
    unfold K.indexed. rewrite length_map, length_combine, length_seq.
    apply Nat.min_id.
  - eexists; eexists; split; reflexivity.
Qed.

Lemma length_ones_mask (x : K.ktensor) (width : nat) :
  length (Constants.ones_mask x width) = n_samples (K.value x).
Proof.
  rewrite ones_mask_ones. unfold ones. apply repeat_length.
Qed.

Lemma simple_rnn_constants_rows (self : SimpleRNN.t) (s : K.session)
    (x : K.ktensor) (training : option bool) :
  exists dp rdp s',
    SimpleRNN.get_constants self s x training
    = ([Tensor dp; Tensor rdp], s')
    /\ Shapes.rows_ok (n_samples (K.value x)) dp
    /\ Shapes.rows_ok (n_samples (K.value x)) rdp.
Proof.
  unfold SimpleRNN.get_constants.
  destruct (negb (SimpleRNN.implementation self =? 0)
            && in_unit_interval (SimpleRNN.dropout self)).
  - destruct (dropout_mask_rows s
                (Constants.ones_mask x (n_dim (K.value x)))
                (SimpleRNN.dropout self) training) as (m & s1 & E & Hm).
    rewrite E.
    destruct (in_unit_interval (SimpleRNN.recurrent_dropout self)).
    + destruct (dropout_mask_rows s1
                  (Constants.ones_mask x (SimpleRNN.units self))
                  (SimpleRNN.recurrent_dropout self) training)
        as (m' & s2 & E' & Hm').
      rewrite E'. exists (T2 m), (T2 m'), s2.
      rewrite length_ones_mask in Hm, Hm'. simpl. auto.
    + exists (T2 m), Constants.one, s1.
      rewrite length_ones_mask in Hm. simpl. auto.
  - destruct (in_unit_interval (SimpleRNN.recurrent_dropout self)).
    + destruct (dropout_mask_rows s
                  (Constants.ones_mask x (SimpleRNN.units self))
                  (SimpleRNN.recurrent_dropout self) training)
        as (m' & s2 & E' & Hm').
      rewrite E'. exists Constants.one, (T2 m'), s2.
      rewrite length_ones_mask in Hm'. simpl. auto.
    + exists Constants.one, Constants.one, s. simpl. auto.
Qed.

Section SimpleShapes.

Variable self : SimpleRNN.t.
Hypothesis Himpl : 0 < SimpleRNN.implementation self.
Hypothesis Hkernel : K.ncols (SimpleRNN.kernel self) = SimpleRNN.units self.
Hypothesis Hrecurrent :
  K.ncols (SimpleRNN.recurrent_kernel self) = SimpleRNN.units self.
Hypothesis Hbias :
  match SimpleRNN.bias self with
  | Some b => length b = SimpleRNN.units self
  | None => True
  end.
Hypothesis Hactivation :
  match SimpleRNN.activation self with
  | Some f => forall rows width m,
      has_shape rows width m -> has_shape rows width (f m)
  | None => True
  end.

Lemma simple_rnn_step_shape (rows : nat) (x h : mat) (dp rdp : tensor) :
  length x = rows ->
  has_shape rows (SimpleRNN.units self) h ->
  Shapes.rows_ok rows dp -> Shapes.rows_ok rows rdp ->
  exists o,
    SimpleRNN.step self x ([Tensor (T2 h)] ++ [Tensor dp; Tensor rdp])
    = Ok (o, [Tensor (T2 o)])
    /\ has_shape rows (SimpleRNN.units self) o.
Proof.
  intros Hx Hh Hdp Hrdp. unfold SimpleRNN.step.
  destruct (SimpleRNN.implementation self =? 0) eqn:E0;
    [apply Nat.eqb_eq in E0; lia|].
  cbn [app item nth_error as_tensor as_mat Py.bind].
  assert (Hproj : exists hx,
             (h0 <-
                (if in_unit_interval (SimpleRNN.dropout self)
                 then x0 <- times x dp ;; Ok (K.dot x0 (SimpleRNN.kernel self))
                 else Ok (K.dot x (SimpleRNN.kernel self))) ;;
              match SimpleRNN.bias self with
              | Some b => Ok (K.bias_add h0 b)
              | None => Ok h0
              end) = Ok hx
             /\ has_shape rows (SimpleRNN.units self) hx).
  { assert (Hdot : exists d,
               (if in_unit_interval (SimpleRNN.dropout self)
                then x0 <- times x dp ;; Ok (K.dot x0 (SimpleRNN.kernel self))
                else Ok (K.dot x (SimpleRNN.kernel self))) = Ok d
               /\ has_shape rows (SimpleRNN.units self) d).
    { destruct (in_unit_interval (SimpleRNN.dropout self)).
      - rewrite <- Hx in Hdp.
        destruct (length_times x dp Hdp) as (x' & Et & Hl).
        rewrite Et. cbn [Py.bind]. eexists; split; [reflexivity|].
        rewrite <- Hx, <- Hl, <- Hkernel. apply has_shape_dot.
      - eexists; split; [reflexivity|].
        rewrite <- Hx, <- Hkernel. apply has_shape_dot. }
    destruct Hdot as (d & Ed & Hd). rewrite Ed. cbn [Py.bind].
    destruct (SimpleRNN.bias self) as [b|].
    - eexists; split; [reflexivity|]. apply has_shape_bias_add; assumption.
    - eexists; split; [reflexivity|]. exact Hd. }
  destruct Hproj as (hx & Ehx & Hhx). rewrite Ehx. cbn [Py.bind].
  assert (Hprev : exists p,
             (if in_unit_interval (SimpleRNN.recurrent_dropout self)
              then times h rdp else Ok h) = Ok p
             /\ length p = rows).
  { destruct (in_unit_interval (SimpleRNN.recurrent_dropout self)).
    - destruct Hh as [Hl _]. rewrite <- Hl in Hrdp.
      destruct (length_times h rdp Hrdp) as (p & Ep & Hp).
      exists p. split; [exact Ep|]. rewrite Hp. exact Hl.
    - exists h. split; [reflexivity|]. apply Hh. }
  destruct Hprev as (p & Ep & Hp). rewrite Ep. cbn [Py.bind].
  eexists; split; [reflexivity|].
  assert (Hsum : has_shape rows (SimpleRNN.units self)
                   (madd hx (K.dot p (SimpleRNN.recurrent_kernel self)))).
  { apply has_shape_madd; [exact Hhx|].
    rewrite <- Hp, <- Hrecurrent. apply has_shape_dot. }
  destruct (SimpleRNN.activation self) as [f|]; [apply Hactivation|];
    exact Hsum.
Qed.

End SimpleShapes.

Lemma length_time_slices (c : cube) :
  Forall (fun x : mat => length x = n_samples c) (time_major c).
Proof.
  unfold time_major. rewrite Forall_map. apply Forall_forall. intros t _.
  unfold time_slice. apply length_map.
Qed.

Lemma sample_major_fits (samples units : nat) (outs : list mat)
    (timesteps : option nat) :
  Forall (has_shape samples units) outs ->
  Shapes.dim_ok timesteps (length outs) ->
  Shapes.fits_tensor [Some samples; timesteps; Some units]
                     (T3 (sample_major samples outs)).
Proof.
  intros Houts Ht. unfold Shapes.fits_tensor, sample_major.
  split; [simpl; rewrite length_map, length_seq; reflexivity|].
  rewrite Forall_map. apply Forall_forall. intros i Hi. apply in_seq in Hi.
  split; [rewrite length_map; exact Ht|].
  rewrite Forall_map. eapply Forall_impl; [|exact Houts].
  intros slice [Hl Hrows]. simpl.
  rewrite Forall_forall in Hrows. symmetry. apply Hrows. apply nth_In. lia.
Qed.

Lemma has_shape_fits (samples units : nat) (m : mat) :
  has_shape samples units m ->
  Shapes.fits_tensor [Some samples; Some units] (T2 m).
Proof.
  intros [Hl Hr]. simpl. split; [symmetry; exact Hl|].
  eapply Forall_impl; [|exact Hr]. intros row Hrow. symmetry. exact Hrow.
Qed.

Lemma has_shape_zeros (rows width : nat) :
  has_shape rows width (zeros rows width).
Proof.
  unfold has_shape, zeros. rewrite repeat_length. split; [reflexivity|].
  apply Forall_forall. intros row Hin. apply repeat_spec in Hin. subst row.
  apply repeat_length.
Qed.

Lemma last_in {A : Type} (l : list A) (d : A) :
  l <> [] -> In (last l d) l.
Proof.
  induction l as [|a [|b l] IH]; intros Hl; [contradiction|left; reflexivity|].
  right. apply IH. discriminate.
Qed.

(** X12.  A [SimpleRNN] in an implementation 1, 2, ..., whose weights
    have the shapes [build] gives them for inputs of dimension [input_dim]
    (a kernel of shape [(input_dim, units)], a recurrent kernel of shape
    [(units, units)], a bias of [units] entries) and whose activation keeps
    shapes, called without mask and without initial state on a well-shaped
    input of that dimension and of at least one timestep, returns, whatever
    the dropout rates and the phase; what it
    returns has the shape [compute_output_shape] computes from the static
    shape of the input and the form [compute_mask] gives: one tensor, or with
    [return_state] the output and the state. *)
Theorem simple_rnn_output_shape :
  forall (self : SimpleRNN.t) (s : K.session) (x : K.ktensor)
         (training : option bool) (input_dim : nat),
    0 < SimpleRNN.implementation self ->
    0 < input_dim ->
    Dense.well_shaped (n_timesteps (K.value x)) input_dim (K.value x) ->
    has_shape input_dim (SimpleRNN.units self) (SimpleRNN.kernel self) ->
    has_shape (SimpleRNN.units self) (SimpleRNN.units self)
              (SimpleRNN.recurrent_kernel self) ->
    K.ncols (SimpleRNN.kernel self) = SimpleRNN.units self ->
    K.ncols (SimpleRNN.recurrent_kernel self) = SimpleRNN.units self ->
    match SimpleRNN.bias self with
    | Some b => length b = SimpleRNN.units self
    | None => True
    end ->
    match SimpleRNN.activation self with
    | Some f => forall rows width m,
        has_shape rows width m -> has_shape rows width (f m)
    | None => True
    end ->
    length (Recurrent.states (SimpleRNN.attrs self)) = 1 ->
    Recurrent.stateful (SimpleRNN.attrs self) = false ->
    Recurrent.unroll (SimpleRNN.attrs self) = false
    \/ K.time_defined x = true ->
    0 < n_timesteps (K.value x) ->
    exists out updates s' sh,
      call self s (InTensor x) NoMask training None = Ok (out, updates, s')
      /\ Shapes.compute_output_shape (SimpleRNN.attrs self)
           (Shapes.OneShape (Shapes.dims_of x)) = Ok sh
      /\ Shapes.fits sh out
      /\ exists mk,
           Shapes.compute_mask (SimpleRNN.attrs self) (Shapes.OneMask None)
           = Ok mk
           /\ Shapes.same_form mk out.
Proof.
  intros self s x training input_dim Himpl Hdim Hx Hkernel Hrecurrent
         Hk Hrk Hb Hact Hone Hstateful Hunroll Ht.
  unfold call, initial_state_of, supplied_initial_state, input_tensor,
    mask_of.
  cbn [base SimpleRNN.layer]. rewrite Hstateful.
  rewrite (get_initial_state_zeros self x). cbn [base SimpleRNN.layer].
  rewrite Hone. cbn [repeat length Nat.eqb negb].
  unfold scan_and_return, constants_and_input.
  cbn [base SimpleRNN.layer get_constants preprocess_input step].
  assert (Hu : Recurrent.unroll (SimpleRNN.attrs self)
               && negb (K.time_defined x) = false).
  { destruct Hunroll as [-> | ->]; [reflexivity|apply andb_false_r]. }
  rewrite Hu, Hstateful.
  destruct (simple_rnn_constants_rows self s x None)
    as (dp & rdp & s' & Ec & Hdp & Hrdp).
  rewrite Ec.
  unfold SimpleRNN.preprocess_input.
  destruct (0 <? SimpleRNN.implementation self) eqn:Ei;
    [|apply Nat.ltb_ge in Ei; lia].
  set (samples := n_samples (K.value x)) in *.
  set (u := Recurrent.units (SimpleRNN.attrs self)).
  set (xs := K.backwards (Recurrent.go_backwards (SimpleRNN.attrs self))
                         (time_major (K.value x))).
  assert (Hxs : Forall (fun m : mat => length m = samples) xs).
  { subst xs. unfold K.backwards.
    destruct (Recurrent.go_backwards (SimpleRNN.attrs self));
      [apply Forall_rev|]; apply length_time_slices. }
  assert (Hlen : length xs = n_timesteps (K.value x)).
  { subst xs. unfold K.backwards, time_major.
    destruct (Recurrent.go_backwards (SimpleRNN.attrs self));
      rewrite ?length_rev, length_map, length_seq; reflexivity. }
  destruct (scan_unmasked_invariant (SimpleRNN.step self)
              [Tensor dp; Tensor rdp]
              (fun m => length m = samples)
              (has_shape samples u)
              (fun st => exists h, st = [Tensor (T2 h)]
                                   /\ has_shape samples u h))
    with (xs := xs) (prev := @None mat)
         (st := [Tensor (T2 (zeros samples u))])
    as (outs & fin & Escan & Hl & Houts & (hfin & -> & Hfin)).
  { intros m st Hm (h & -> & Hh).
    destruct (simple_rnn_step_shape self Himpl Hk Hrk Hb Hact samples m h
                dp rdp Hm Hh Hdp Hrdp) as (o & Eo & Ho).
    exists o, [Tensor (T2 o)]. split; [exact Eo|]. split; [exact Ho|].
    exists o. auto. }
  { exact Hxs. }
  { exists (zeros samples u). split; [reflexivity|apply has_shape_zeros]. }
  unfold K.rnn. fold xs. cbv zeta. rewrite Escan. cbn [Py.bind].
  destruct outs as [|o outs]; [simpl in Hl; lia|].
  cbn [Py.bind].
  unfold Shapes.compute_output_shape, Shapes.compute_mask, Shapes.dims_of,
    K.int_shape.
  cbn [Py.bind item nth_error fst snd].
  fold samples. fold u.
  assert (Hlast : has_shape samples u (last (o :: outs) [])).
  { rewrite Forall_forall in Houts. apply Houts.
    apply last_in. discriminate. }
  assert (Htime : Shapes.dim_ok
                    (if K.time_defined x
                     then Some (n_timesteps (K.value x)) else None)
                    (length (o :: outs))).
  { destruct (K.time_defined x); [|exact I].
    unfold Shapes.dim_ok. rewrite Hl, Hlen. reflexivity. }
  assert (Hseq : Shapes.fits_tensor
                   [Some samples;
                    if K.time_defined x
                    then Some (n_timesteps (K.value x)) else None;
                    Some u]
                   (T3 (sample_major samples (o :: outs)))).
  { apply sample_major_fits; [exact Houts|exact Htime]. }
  destruct (Recurrent.states (SimpleRNN.attrs self)) as [|st0 [|st1 sts]];
    try discriminate Hone.
  destruct (Recurrent.return_sequences (SimpleRNN.attrs self));
    destruct (Recurrent.return_state (SimpleRNN.attrs self));
    cbn [Py.bind map];
    do 4 eexists;
    (split; [reflexivity|split; [reflexivity|split; [cbn [Shapes.fits]|]]]);
    try (eexists; split; reflexivity).
  - apply Forall2_cons; [exact Hseq|].
    apply Forall2_cons; [apply has_shape_fits; exact Hfin|apply Forall2_nil].
  - exact Hseq.
  - apply Forall2_cons; [apply has_shape_fits; exact Hlast|].
    apply Forall2_cons; [apply has_shape_fits; exact Hfin|apply Forall2_nil].
  - apply has_shape_fits. exact Hlast.
Qed.

(** The theorem on a layer with both dropouts at one half, in the
    training phase. *)
Lemma simple_rnn_output_shape_witness :
  exists out updates s' sh,
    call Examples.dropout_rnn Examples.training_session
         (InTensor Examples.two_steps) NoMask None None
    = Ok (out, updates, s')
    /\ Shapes.compute_output_shape (SimpleRNN.attrs Examples.dropout_rnn)
         (Shapes.OneShape (Shapes.dims_of Examples.two_steps)) = Ok sh
    /\ Shapes.fits sh out
    /\ exists mk,
         Shapes.compute_mask (SimpleRNN.attrs Examples.dropout_rnn)
                             (Shapes.OneMask None) = Ok mk
         /\ Shapes.same_form mk out.
Proof.
  apply (simple_rnn_output_shape Examples.dropout_rnn
           Examples.training_session Examples.two_steps None 1).
  - unfold SimpleRNN.implementation; simpl; lia.
  - lia.
  - repeat constructor.
  - split; [reflexivity | repeat constructor].
  - split; [reflexivity | repeat constructor].
  - reflexivity.
  - reflexivity.
  - exact I.
  - simpl. intros rows width m Hm. exact Hm.
  - reflexivity.
  - reflexivity.
  - left. reflexivity.
  - unfold n_timesteps, Examples.two_steps. simpl. lia.
Defined.

(** *** The dropout rates of a layer *)

Lemma clamp_range (d : R) : (0 <= Init.clamp d <= 1)%R.
Proof.
  unfold Init.clamp, Rmin, Rmax.
  destruct (Rle_dec 0 d); destruct (Rle_dec 1 _); lra.
Qed.

Lemma clamp_in_unit_interval (d : R) :
  in_unit_interval (Init.clamp d) = in_unit_interval d.
Proof.
  unfold Init.clamp, Rmin, Rmax, in_unit_interval.
  destruct (Rle_dec 0 d); destruct (Rle_dec 1 _);
    repeat (match goal with |- context [Rlt_dec ?a ?b] =>
              destruct (Rlt_dec a b) end);
    try reflexivity; lra.
Qed.

Lemma clamp_again (d : R) : Init.clamp (Init.clamp d) = Init.clamp d.
Proof.
  pose proof (clamp_range d) as [H0 H1].
  unfold Init.clamp at 1. unfold Rmin, Rmax.
  destruct (Rle_dec 0 (Init.clamp d)); destruct (Rle_dec 1 _); lra.
Qed.

(** X13.  The rates [__init__] stores lie in [[0, 1]]; storing them
    changes neither whether [0 < rate < 1], the test on which every use of
    dropout in the layer depends, nor a rate for which it holds; and
    initialising a layer again with the rates it stores, as a layer rebuilt
    from [get_config] is, stores the same rates. *)
Theorem init_clamps_rates :
  forall (a : attrs) (d rd : R),
    let a' := Init.set_rates a d rd in
    (0 <= dropout a' <= 1)%R
    /\ (0 <= recurrent_dropout a' <= 1)%R
    /\ in_unit_interval (dropout a') = in_unit_interval d
    /\ in_unit_interval (recurrent_dropout a') = in_unit_interval rd
    /\ (in_unit_interval d = true -> dropout a' = d)
    /\ (in_unit_interval rd = true -> recurrent_dropout a' = rd)
    /\ Init.set_rates a' (dropout a') (recurrent_dropout a') = a'.
Proof.
  intros a d rd a'; subst a'. cbn [Init.set_rates dropout recurrent_dropout].
  assert (Hid : forall x, in_unit_interval x = true -> Init.clamp x = x).
  { intros x. unfold in_unit_interval, Init.clamp, Rmin, Rmax.
    destruct (Rlt_dec 0 x); [|discriminate].
    destruct (Rlt_dec x 1); [|discriminate].
    intros _. destruct (Rle_dec 0 x); destruct (Rle_dec 1 _); lra. }
  repeat split; try apply clamp_range; try apply clamp_in_unit_interval;
    try apply Hid.
  unfold Init.set_rates. cbn [return_sequences return_state go_backwards
    stateful unroll implementation units states batch_size name].
  rewrite !clamp_again. reflexivity.
Qed.

(** The theorem on rates of one half and of two. *)
Lemma init_clamps_rates_witness :
  dropout (Init.set_rates Examples.stateful_pair (1 / 2) 2) = (1 / 2)%R.
Proof.
  destruct (init_clamps_rates Examples.stateful_pair (1 / 2) 2)
    as (_ & _ & _ & _ & H & _).
  apply H. apply in_unit_interval_half.
Defined.

(** *** The implementation modes of SimpleRNN *)

Lemma scan_projected (step0 step1 : K.step_function) (f : mat -> mat)
    (constants : list pyobj) :
  (forall m st, step0 (f m) st = step1 m st) ->
  forall (slices : list (mat * option (list bool))) prev st,
    K.scan step0 constants (map (fun p => (f (fst p), snd p)) slices) prev st
    = K.scan step1 constants slices prev st.
Proof.
  intros Hstep slices.
  induction slices as [|[x m] slices IH]; intros prev st; [reflexivity|].
  cbn [map K.scan fst snd]. rewrite Hstep.
  destruct (step1 x (st ++ constants)) as [[o ns]|e]; [|reflexivity].
  cbn [Py.bind]. rewrite IH. reflexivity.
Qed.

Lemma combine_map_fst {A B C : Type} (f : A -> B) (l : list A) :
  forall (l' : list C),
    combine (map f l) l' = map (fun p => (f (fst p), snd p)) (combine l l').
Proof.
  induction l as [|a l IH]; intros [|c l']; simpl; try reflexivity.
  rewrite IH. reflexivity.
Qed.

Lemma time_major_map (f : vec -> vec) (c : cube) (T : nat) :
  Forall (fun sample : mat => length sample = T) c ->
  time_major (map (map f) c) = map (map f) (time_major c).
Proof.
  intros Hc. unfold time_major.
  assert (Hn : n_timesteps (map (map f) c) = n_timesteps c).
  { unfold n_timesteps. destruct c; simpl; [reflexivity|apply length_map]. }
  rewrite Hn, map_map. apply map_ext_in. intros t Ht. apply in_seq in Ht.
  unfold time_slice. rewrite !map_map. apply map_ext_in. intros sample Hin.
  assert (HT : n_timesteps c = T).
  { unfold n_timesteps. destruct c as [|s0 c']; [contradiction|].
    simpl. apply Forall_inv in Hc. exact Hc. }
  rewrite Forall_forall in Hc. specialize (Hc sample Hin).
  rewrite <- (map_nth f). apply nth_indep. rewrite length_map. lia.
Qed.

Lemma simple_rnn_step_projected (self : SimpleRNN.t) (m : mat)
    (st : list pyobj) :
  in_unit_interval (SimpleRNN.dropout self) = false ->
  SimpleRNN.step (Modes.simple_rnn self 0)
    (map (Dense.dense (SimpleRNN.kernel self) (SimpleRNN.bias self)) m) st
  = SimpleRNN.step (Modes.simple_rnn self 1) m st.
Proof.
  intros Hd. unfold SimpleRNN.step.
  change (SimpleRNN.implementation (Modes.simple_rnn self 0)) with 0.
  change (SimpleRNN.implementation (Modes.simple_rnn self 1)) with 1.
  change (SimpleRNN.dropout (Modes.simple_rnn self 1))
    with (SimpleRNN.dropout self).
  rewrite Hd. cbn [Nat.eqb Py.bind Modes.simple_rnn SimpleRNN.kernel
                   SimpleRNN.bias SimpleRNN.recurrent_kernel
                   SimpleRNN.activation].
  rewrite <- dense_rows.
  destruct (SimpleRNN.bias self); reflexivity.
Qed.


Lemma rnn_projected (step0 step1 : K.step_function) (f : vec -> vec)
    (c : cube) (T : nat) (initial_states constants : list pyobj)
    (go_backwards unroll : bool) (mask : option (list (list bool)))
    (input_length : option nat) :
  Forall (fun sample : mat => length sample = T) c ->
  (forall m st, step0 (map f m) st = step1 m st) ->
  K.rnn step0 (map (map f) c) initial_states go_backwards mask constants
        unroll input_length
  = K.rnn step1 c initial_states go_backwards mask constants unroll
          input_length.
Proof.
  intros Hc Hstep. unfold K.rnn.
  rewrite (time_major_map f c T Hc).
  assert (Hn : n_timesteps (map (map f) c) = n_timesteps c).
  { unfold n_timesteps. destruct c; simpl; [reflexivity|apply length_map]. }
  assert (Hs : n_samples (map (map f) c) = n_samples c)
    by (unfold n_samples; apply length_map).
  rewrite Hn, Hs.
  assert (Hb : K.backwards go_backwards (map (map f) (time_major c))
               = map (map f) (K.backwards go_backwards (time_major c))).
  { unfold K.backwards. destruct go_backwards; [|reflexivity].
    symmetry. apply map_rev. }
  rewrite Hb. cbv zeta.
  assert (Hm : forall (xs : list mat),
             match mask with
             | Some m =>
                 map Some (K.backwards go_backwards
                             (K.mask_time_major m (n_timesteps c)))
             | None => map (fun _ : mat => None) (map (map f) xs)
             end
             = match mask with
               | Some m =>
                   map Some (K.backwards go_backwards
                               (K.mask_time_major m (n_timesteps c)))
               | None => map (fun _ : mat => None) xs
               end).
  { intros xs. destruct mask; [reflexivity|]. rewrite map_map. reflexivity. }
  rewrite Hm.
  rewrite combine_map_fst, (scan_projected step0 step1 (map f) constants Hstep).
  reflexivity.
Qed.

Lemma well_shaped_dims (T D : nat) (c : cube) :
  0 < T -> Dense.well_shaped T D c ->
  Dense.consistent (Some (n_dim c)) D
  /\ Dense.consistent (Some (n_timesteps c)) T.
Proof.
  intros HT Hc. unfold Dense.consistent, n_dim, n_timesteps.
  destruct c as [|sample c]; [simpl; auto|].
  apply Forall_inv in Hc. destruct Hc as [Hs Hv]. simpl.
  destruct sample as [|v sample]; [simpl in Hs; lia|].
  apply Forall_inv in Hv. simpl in *. rewrite Hs, Hv. auto.
Qed.

Lemma simple_rnn_preprocessed (self : SimpleRNN.t) (s : K.session)
    (x : K.ktensor) (training : option bool) (T D : nat) :
  in_unit_interval (SimpleRNN.dropout self) = false ->
  0 < T -> 0 < D -> 0 < SimpleRNN.units self ->
  Dense.well_shaped T D (K.value x) ->
  K.ncols (SimpleRNN.kernel self) = SimpleRNN.units self ->
  match SimpleRNN.bias self with
  | Some b => length b = SimpleRNN.units self
  | None => True
  end ->
  SimpleRNN.preprocess_input (Modes.simple_rnn self 0) s x training
  = (map (map (Dense.dense (SimpleRNN.kernel self) (SimpleRNN.bias self)))
         (K.value x), s).
Proof.
  intros Hd HT HD HU Hx Hk Hb.
  unfold SimpleRNN.preprocess_input.
  change (SimpleRNN.implementation (Modes.simple_rnn self 0)) with 0.
  cbn [Nat.ltb Nat.leb].
  change (SimpleRNN.dropout (Modes.simple_rnn self 0))
    with (SimpleRNN.dropout self).
  change (SimpleRNN.units (Modes.simple_rnn self 0))
    with (SimpleRNN.units self).
  cbn [Modes.simple_rnn SimpleRNN.kernel SimpleRNN.bias].
  unfold _time_distributed_dense, dropout_input. rewrite Hd.
  destruct (well_shaped_dims T D (K.value x) HT Hx) as [Hdim Htime].
  f_equal.
  apply (project_every_timestep (K.value x) (SimpleRNN.kernel self)
           (SimpleRNN.bias self) _ _ _ T D); try assumption.
  - rewrite Hk. exact HU.
  - rewrite Hk. exact Hb.
  - unfold K.int_shape. cbn [fst snd]. destruct (K.time_defined x);
      [exact Htime|left; reflexivity].
  - right; right. rewrite Hk. reflexivity.
Qed.

(** X14.  For a [SimpleRNN] whose input dropout is off (a rate outside
    [(0, 1)]), [call] returns the same in [implementation=0], which projects
    the whole input with [_time_distributed_dense] before the loop and steps
    on the projections, as in [implementation=1], which projects each time
    slice in its step; this on every well-shaped input, with or without mask
    and initial states, in either direction, and with the same updates and
    session. *)
Theorem simple_rnn_precomputed_projection :
  forall (self : SimpleRNN.t) (s : K.session) (inputs : call_inputs)
         (mask : call_mask) (training : option bool)
         (initial_state : option (list pyobj)) (T D : nat),
    in_unit_interval (SimpleRNN.dropout self) = false ->
    0 < T -> 0 < D -> 0 < SimpleRNN.units self ->
    Dense.well_shaped T D (K.value (input_tensor inputs)) ->
    K.ncols (SimpleRNN.kernel self) = SimpleRNN.units self ->
    match SimpleRNN.bias self with
    | Some b => length b = SimpleRNN.units self
    | None => True
    end ->
    call (Modes.simple_rnn self 0) s inputs mask training initial_state
    = call (Modes.simple_rnn self 1) s inputs mask training initial_state.
Proof.
  intros self s inputs mask training initial_state T D Hd HT HD HU Hx Hk Hb.
  unfold call.
  change (initial_state_of (Modes.simple_rnn self 0) inputs initial_state)
    with (initial_state_of (Modes.simple_rnn self 1) inputs initial_state).
  set (init := initial_state_of (Modes.simple_rnn self 1) inputs
                                initial_state).
  change (states (base (Modes.simple_rnn self 0)))
    with (states (base (Modes.simple_rnn self 1))).
  destruct (negb (length init =? length (states (base (Modes.simple_rnn self 1)))));
    [reflexivity|].
  set (x := input_tensor inputs) in *.
  unfold scan_and_return, constants_and_input.
  cbn [base SimpleRNN.layer Modes.simple_rnn SimpleRNN.attrs
       Modes.set_implementation unroll go_backwards stateful states
       return_state return_sequences get_constants preprocess_input step].
  destruct (unroll (SimpleRNN.attrs self) && negb (K.time_defined x));
    [reflexivity|].
  assert (Hc : SimpleRNN.get_constants (Modes.simple_rnn self 0) s x None
               = SimpleRNN.get_constants (Modes.simple_rnn self 1) s x None).
  { unfold SimpleRNN.get_constants.
    change (SimpleRNN.implementation (Modes.simple_rnn self 0)) with 0.
    change (SimpleRNN.implementation (Modes.simple_rnn self 1)) with 1.
    change (SimpleRNN.dropout (Modes.simple_rnn self 1))
      with (SimpleRNN.dropout self).
    rewrite Hd. reflexivity. }
  fold (Modes.simple_rnn self 0). fold (Modes.simple_rnn self 1).
  rewrite Hc.
  destruct (SimpleRNN.get_constants (Modes.simple_rnn self 1) s x None)
    as [constants s1].
  rewrite (simple_rnn_preprocessed self s1 x None T D Hd HT HD HU Hx Hk Hb).
  change (SimpleRNN.preprocess_input (Modes.simple_rnn self 1) s1 x None)
    with (K.value x, s1).
  cbv beta iota.
  rewrite (rnn_projected (SimpleRNN.step (Modes.simple_rnn self 0))
             (SimpleRNN.step (Modes.simple_rnn self 1))
             (Dense.dense (SimpleRNN.kernel self) (SimpleRNN.bias self))
             (K.value x) T).
  - reflexivity.
  - eapply Forall_impl; [|exact Hx]. intros sample [Hs _]. exact Hs.
  - intros m st. apply simple_rnn_step_projected. exact Hd.
Qed.

(** The theorem on a layer without dropout that reads two timesteps
    backwards. *)
Lemma simple_rnn_precomputed_projection_witness :
  call (Modes.simple_rnn Examples.backwards_rnn 0) Examples.session0
       (InTensor Examples.two_steps) NoMask None None
  = call (Modes.simple_rnn Examples.backwards_rnn 1) Examples.session0
         (InTensor Examples.two_steps) NoMask None None.
Proof.
  apply (simple_rnn_precomputed_projection Examples.backwards_rnn
           Examples.session0 (InTensor Examples.two_steps) NoMask None None
           2 1).
  - apply in_unit_interval_0.
  - lia.
  - lia.
  - unfold SimpleRNN.units; simpl; lia.
  - repeat constructor.
  - reflexivity.
  - exact I.
Defined.

(** X15.  Among the positive implementation numbers [SimpleRNN] makes no
    difference: built with any two of the numbers 1, 2, 3, ..., the layer
    computes the same [call] ([preprocess_input] tests [implementation > 0]
    and [step] tests [implementation == 0]), where [GRU] and [LSTM] raise
    for a number above 2.  Negative numbers, for which the two tests
    disagree, are not among the values of [implementation] here. *)
Theorem simple_rnn_positive_modes_alike :
  forall (self : SimpleRNN.t) (n m : nat) (s : K.session)
         (inputs : call_inputs) (mask : call_mask) (training : option bool)
         (initial_state : option (list pyobj)),
    0 < n -> 0 < m ->
    call (Modes.simple_rnn self n) s inputs mask training initial_state
    = call (Modes.simple_rnn self m) s inputs mask training initial_state.
Proof.
  intros self [|n] [|m] s inputs mask training initial_state Hn Hm;
    try lia.
  reflexivity.
Qed.

(** The theorem on the implementation numbers 2 and 7. *)
Lemma simple_rnn_positive_modes_alike_witness :
  call (Modes.simple_rnn Examples.backwards_rnn 2) Examples.session0
       (InTensor Examples.two_steps) NoMask None None
  = call (Modes.simple_rnn Examples.backwards_rnn 7) Examples.session0
         (InTensor Examples.two_steps) NoMask None None.
Proof.
  apply (simple_rnn_positive_modes_alike Examples.backwards_rnn 2 7
           Examples.session0 (InTensor Examples.two_steps) NoMask None None);
    lia.
Defined.

(** *** A stateful layer reads a sequence in parts *)

Lemma scan_unmasked_prev (step : K.step_function) (constants : list pyobj)
    (xs : list mat) :
  forall prev prev' st,
    K.scan step constants (combine xs (map (fun _ => None) xs)) prev st
    = K.scan step constants (combine xs (map (fun _ => None) xs)) prev' st.
Proof.
  induction xs as [|x xs IH]; intros prev prev' st; [reflexivity|].
  cbn [map combine K.scan].
  destruct (step x (st ++ constants)) as [[o ns]|e]; reflexivity.
Qed.

Lemma scan_unmasked_app (step : K.step_function) (constants : list pyobj)
    (xs1 xs2 : list mat) :
  forall prev st o1 st1 o2 st2,
    K.scan step constants (combine xs1 (map (fun _ => None) xs1)) prev st
    = Ok (o1, st1) ->
    K.scan step constants (combine xs2 (map (fun _ => None) xs2)) None st1
    = Ok (o2, st2) ->
    K.scan step constants
           (combine (xs1 ++ xs2) (map (fun _ => None) (xs1 ++ xs2))) prev st
    = Ok (o1 ++ o2, st2).
Proof.
  induction xs1 as [|x xs1 IH]; intros prev st o1 st1 o2 st2 E1 E2.
  - simpl in E1. inv E1. cbn [app].
    rewrite (scan_unmasked_prev step constants xs2 prev None). exact E2.
  - cbn [app map combine K.scan] in *.
    destruct (step x (st ++ constants)) as [[o ns]|e]; [|discriminate].
    cbn [Py.bind] in *.
    destruct (K.scan step constants (combine xs1 (map (fun _ => None) xs1))
                     (Some o) ns) as [[outs fin]|e] eqn:E; [|discriminate].
    cbn [Py.bind] in E1. inv E1.
    rewrite (IH (Some o) ns outs st1 o2 st2 E E2). reflexivity.
Qed.

Lemma time_slice_concat_l (len1 : nat) (c1 c2 : cube) (t : nat) :
  length c1 = length c2 ->
  Forall (fun sample : mat => length sample = len1) c1 ->
  t < len1 ->
  time_slice (map2 (@app vec) c1 c2) t = time_slice c1 t.
Proof.
  intros Hl Hc Ht. unfold time_slice. revert c2 Hl.
  induction Hc as [|a c1 Ha Hc IH]; intros [|b c2] Hl; simpl in *;
    try reflexivity; try discriminate.
  rewrite IH by lia. f_equal. apply app_nth1. lia.
Qed.

Lemma time_slice_concat_r (len1 : nat) (c1 c2 : cube) (t : nat) :
  length c1 = length c2 ->
  Forall (fun sample : mat => length sample = len1) c1 ->
  time_slice (map2 (@app vec) c1 c2) (len1 + t) = time_slice c2 t.
Proof.
  intros Hl Hc. unfold time_slice. revert c2 Hl.
  induction Hc as [|a c1 Ha Hc IH]; intros [|b c2] Hl; simpl in *;
    try reflexivity; try discriminate.
  rewrite IH by lia. f_equal. rewrite app_nth2 by lia. f_equal. lia.
Qed.

Lemma time_major_concat (len1 len2 : nat) (c1 c2 : cube) :
  length c1 = length c2 -> c1 <> [] ->
  Forall (fun sample : mat => length sample = len1) c1 ->
  Forall (fun sample : mat => length sample = len2) c2 ->
  time_major (map2 (@app vec) c1 c2) = time_major c1 ++ time_major c2.
Proof.
  intros Hl Hne H1 H2. unfold time_major.
  assert (Hn1 : n_timesteps c1 = len1).
  { destruct c1; [contradiction|]. apply Forall_inv in H1. exact H1. }
  assert (Hn2 : n_timesteps c2 = len2).
  { destruct c2; [destruct c1; [contradiction|discriminate]|].
    apply Forall_inv in H2. exact H2. }
  assert (Hn : n_timesteps (map2 (@app vec) c1 c2) = len1 + len2).
  { unfold n_timesteps in *. destruct c1 as [|a c1]; [contradiction|].
    destruct c2 as [|b c2]; [discriminate|]. simpl in *.
    rewrite length_app. lia. }
  rewrite Hn, Hn1, Hn2, seq_app, map_app. f_equal.
  - apply map_ext_in. intros t Ht. apply in_seq in Ht.
    apply (time_slice_concat_l len1); [assumption|assumption|lia].
  - cbn [Nat.add]. rewrite (map_seq_from _ len2 len1).
    apply map_ext. intros t. apply time_slice_concat_r; assumption.
Qed.

Lemma sample_major_app (samples : nat) (o1 o2 : list mat) :
  sample_major samples (o1 ++ o2)
  = map2 (@app vec) (sample_major samples o1) (sample_major samples o2).
Proof.
  unfold sample_major. generalize (seq 0 samples) as l.
  induction l as [|i l IH]; simpl; [reflexivity|].
  rewrite IH, map_app. reflexivity.
Qed.

Lemma last_app {A : Type} (l1 l2 : list A) (d : A) :
  l2 <> [] -> last (l1 ++ l2) d = last l2 d.
Proof.
  intros H2. induction l1 as [|a l1 IH]; [reflexivity|].
  cbn [app]. destruct (l1 ++ l2) eqn:E.
  - destruct l1; [simpl in E; contradiction|discriminate].
  - rewrite <- IH. reflexivity.
Qed.

Section StatefulSimpleRNN.

Variable self : SimpleRNN.t.
Hypothesis Himpl : 0 < SimpleRNN.implementation self.
Hypothesis Hdrop : in_unit_interval (SimpleRNN.dropout self) = false.
Hypothesis Hrdrop : in_unit_interval (SimpleRNN.recurrent_dropout self) = false.
Hypothesis Hstateful : stateful (SimpleRNN.attrs self) = true.
Hypothesis Hforward : go_backwards (SimpleRNN.attrs self) = false.

Lemma simple_rnn_plain_step (m h : mat) (constants : list pyobj) :
  exists o,
    SimpleRNN.step self m ([Tensor (T2 h)] ++ constants)
    = Ok (o, [Tensor (T2 o)]).
Proof.
  unfold SimpleRNN.step. rewrite Hdrop, Hrdrop.
  destruct (SimpleRNN.implementation self =? 0) eqn:E0;
    [apply Nat.eqb_eq in E0; lia|].
  cbn [app item nth_error as_mat Py.bind].
  destruct (SimpleRNN.bias self); cbn [Py.bind]; eexists; reflexivity.
Qed.

Lemma simple_rnn_plain_scan (constants : list pyobj) (xs : list mat) :
  forall prev h,
    exists outs hfin,
      K.scan (SimpleRNN.step self) constants
             (combine xs (map (fun _ => None) xs)) prev [Tensor (T2 h)]
      = Ok (outs, [Tensor (T2 hfin)])
      /\ length outs = length xs.
Proof.
  induction xs as [|x xs IH]; intros prev h.
  - exists [], h. split; reflexivity.
  - destruct (simple_rnn_plain_step x h constants) as (o & Eo).
    destruct (IH (Some o) o) as (outs & hfin & E & Hl).
    exists (o :: outs), hfin.
    cbn [map combine K.scan]. rewrite Eo. cbn [Py.bind]. rewrite E.
    cbn [Py.bind]. split; [reflexivity|]. simpl. rewrite Hl. reflexivity.
Qed.

Lemma simple_rnn_stateful_call (s : K.session) (x : K.ktensor)
    (training : option bool) (h0 hfin : mat) (o : mat) (outs : list mat)
    (stored : list (option tensor)) :
  stored = [Some (T2 h0)] ->
  forall self',
    SimpleRNN.step self' = SimpleRNN.step self ->
    SimpleRNN.attrs self' = set_states (SimpleRNN.attrs self) stored ->
    unroll (SimpleRNN.attrs self) = false \/ K.time_defined x = true ->
    K.scan (SimpleRNN.step self) [Tensor Constants.one; Tensor Constants.one]
           (combine (time_major (K.value x))
                    (map (fun _ => None) (time_major (K.value x))))
           None [Tensor (T2 h0)]
    = Ok (o :: outs, [Tensor (T2 hfin)]) ->
    call self' s (InTensor x) NoMask training None
    = Ok (let output :=
            if return_sequences (SimpleRNN.attrs self)
            then T3 (sample_major (n_samples (K.value x)) (o :: outs))
            else T2 (last (o :: outs) []) in
          if return_state (SimpleRNN.attrs self)
          then RList [Tensor output; Tensor (T2 hfin)]
          else RTensor output,
          [(0, Tensor (T2 hfin))], s).
Proof.
  intros -> self' Hstep Hattrs Hunroll Escan.
  unfold call, initial_state_of, supplied_initial_state, input_tensor,
    mask_of, scan_and_return, constants_and_input.
  cbn [base SimpleRNN.layer get_constants preprocess_input step].
  unfold SimpleRNN.get_constants, SimpleRNN.preprocess_input,
    SimpleRNN.implementation, SimpleRNN.dropout, SimpleRNN.recurrent_dropout.
  rewrite Hstep, Hattrs.
  cbn [set_states stateful states unroll go_backwards return_sequences
       return_state implementation dropout recurrent_dropout units].
  fold (SimpleRNN.dropout self). fold (SimpleRNN.recurrent_dropout self).
  fold (SimpleRNN.implementation self).
  rewrite Hstateful, Hforward, Hdrop, Hrdrop, andb_false_r.
  cbn [map of_state length Nat.eqb negb].
  assert (Hu : unroll (SimpleRNN.attrs self) && negb (K.time_defined x)
               = false).
  { destruct Hunroll as [-> | ->]; [reflexivity|apply andb_false_r]. }
  rewrite Hu.
  destruct (0 <? SimpleRNN.implementation self) eqn:Ei;
    [|apply Nat.ltb_ge in Ei; lia].
  cbv beta iota. unfold K.rnn, K.backwards. cbv zeta.
  rewrite Escan. cbn [Py.bind state_updates Nat.ltb Nat.leb].
  destruct (return_state (SimpleRNN.attrs self)); reflexivity.
Qed.

End StatefulSimpleRNN.

Lemma length_time_major (c : cube) :
  length (time_major c) = n_timesteps c.
Proof. unfold time_major. rewrite length_map, length_seq. reflexivity. Qed.

(** X16.  A stateful [SimpleRNN] reads a sequence in parts: called on the
    first timesteps of a batch and, once its updates have run, on the
    timesteps that follow, it returns and leaves in its stored state what one
    call on the whole sequence returns and leaves.  The output sequences of
    the two calls, one after the other, are the output sequence of the one
    call, and the last output and the updates of the second call are those of
    the one call.  (Forward reading, no mask, dropout off; the weights
    have the shapes [build] gives them for inputs of dimension [input_dim],
    the two parts are well-shaped inputs of that dimension with the same
    samples, the stored state has the shape [(samples, units)] and the
    activation keeps shapes.) *)
Theorem stateful_simple_rnn_in_two_parts :
  forall (self : SimpleRNN.t) (s : K.session) (x1 x2 : K.ktensor)
         (training : option bool) (h0 : mat) (len1 len2 input_dim : nat),
    0 < SimpleRNN.implementation self ->
    0 < input_dim ->
    Dense.well_shaped len1 input_dim (K.value x1) ->
    Dense.well_shaped len2 input_dim (K.value x2) ->
    has_shape input_dim (SimpleRNN.units self) (SimpleRNN.kernel self) ->
    has_shape (SimpleRNN.units self) (SimpleRNN.units self)
              (SimpleRNN.recurrent_kernel self) ->
    match SimpleRNN.bias self with
    | Some b => length b = SimpleRNN.units self
    | None => True
    end ->
    match SimpleRNN.activation self with
    | Some f => forall rows width m,
        has_shape rows width m -> has_shape rows width (f m)
    | None => True
    end ->
    has_shape (length (K.value x1)) (SimpleRNN.units self) h0 ->
    in_unit_interval (SimpleRNN.dropout self) = false ->
    in_unit_interval (SimpleRNN.recurrent_dropout self) = false ->
    stateful (SimpleRNN.attrs self) = true ->
    go_backwards (SimpleRNN.attrs self) = false ->
    states (SimpleRNN.attrs self) = [Some (T2 h0)] ->
    unroll (SimpleRNN.attrs self) = false
    \/ (K.time_defined x1 = true /\ K.time_defined x2 = true) ->
    length (K.value x1) = length (K.value x2) ->
    K.value x1 <> [] ->
    Forall (fun sample : mat => length sample = len1) (K.value x1) ->
    Forall (fun sample : mat => length sample = len2) (K.value x2) ->
    0 < len1 -> 0 < len2 ->
    exists r1 u1 r2 u2,
      call self s (InTensor x1) NoMask training None = Ok (r1, u1, s)
      /\ call (Chunks.after_updates self u1) s (InTensor x2) NoMask training
              None
         = Ok (r2, u2, s)
      /\ call self s (InTensor (Chunks.concat_time x1 x2)) NoMask training
              None
         = Ok (Chunks.join r1 r2, u2, s).
Proof.
  intros self s x1 x2 training h0 len1 len2 input_dim Himpl
         Hdim Hx1 Hx2 Hkernel Hrecurrent Hbias Hact Hh0
         Hd Hrd Hst Hfw Hstates Hunroll Hl Hne H1 H2 HT1 HT2.
  set (ones_ := [Tensor Constants.one; Tensor Constants.one]).
  assert (Hn1 : n_timesteps (K.value x1) = len1).
  { destruct (K.value x1); [contradiction|]. apply Forall_inv in H1.
    exact H1. }
  assert (Hn2 : n_timesteps (K.value x2) = len2).
  { destruct (K.value x2) as [|b c2];
      [destruct (K.value x1); [contradiction|discriminate]|].
    apply Forall_inv in H2. exact H2. }
  destruct (simple_rnn_plain_scan self Himpl Hd Hrd ones_
              (time_major (K.value x1)) None h0)
    as (o1s & h1 & E1 & Hl1).
  destruct (simple_rnn_plain_scan self Himpl Hd Hrd ones_
              (time_major (K.value x2)) None h1)
    as (o2s & h2 & E2 & Hl2).
  rewrite length_time_major, Hn1 in Hl1.
  rewrite length_time_major, Hn2 in Hl2.
  destruct o1s as [|o1 outs1]; [simpl in Hl1; lia|].
  destruct o2s as [|o2 outs2]; [simpl in Hl2; lia|].
  pose proof (scan_unmasked_app (SimpleRNN.step self) ones_ _ _ None _ _ _ _ _
                E1 E2) as E12.
  rewrite <- (time_major_concat len1 len2 _ _ Hl Hne H1 H2) in E12.
  cbn [app] in E12.
  assert (Hu1 : unroll (SimpleRNN.attrs self) = false
                \/ K.time_defined x1 = true) by tauto.
  assert (Hu2 : unroll (SimpleRNN.attrs self) = false
                \/ K.time_defined x2 = true) by tauto.
  assert (Hu12 : unroll (SimpleRNN.attrs self) = false
                 \/ K.time_defined (Chunks.concat_time x1 x2) = true).
  { destruct Hunroll as [H|[Ha Hb]]; [left; exact H|right].
    cbn [Chunks.concat_time K.time_defined]. rewrite Ha, Hb. reflexivity. }
  assert (Hself : SimpleRNN.attrs self
                  = set_states (SimpleRNN.attrs self) [Some (T2 h0)]).
  { rewrite <- Hstates. symmetry. apply set_states_same. }
  do 4 eexists. split; [|split].
  - apply (simple_rnn_stateful_call self Himpl Hd Hrd Hst Hfw s x1 training
             h0 h1 o1 outs1 [Some (T2 h0)] eq_refl self eq_refl Hself Hu1 E1).
  - apply (simple_rnn_stateful_call self Himpl Hd Hrd Hst Hfw s x2 training
             h1 h2 o2 outs2 [Some (T2 h1)] eq_refl
             (Chunks.after_updates self [(0, Tensor (T2 h1))]) eq_refl).
    + cbn [Chunks.after_updates SimpleRNN.attrs]. rewrite Hstates.
      reflexivity.
    + exact Hu2.
    + exact E2.
  - rewrite (simple_rnn_stateful_call self Himpl Hd Hrd Hst Hfw s
               (Chunks.concat_time x1 x2) training
               h0 h2 o1 (outs1 ++ o2 :: outs2) [Some (T2 h0)] eq_refl self
               eq_refl Hself Hu12 E12).
    cbv zeta. cbn [Chunks.concat_time K.value].
    assert (Hs : n_samples (map2 (@app vec) (K.value x1) (K.value x2))
                 = n_samples (K.value x1)).
    { unfold n_samples. rewrite length_map2, Hl. apply Nat.min_id. }
    assert (Hs2 : n_samples (K.value x2) = n_samples (K.value x1))
      by (unfold n_samples; symmetry; exact Hl).
    rewrite Hs, Hs2.
    change (o1 :: outs1 ++ o2 :: outs2) with ((o1 :: outs1) ++ o2 :: outs2).
    rewrite sample_major_app, last_app by discriminate.
    destruct (return_sequences (SimpleRNN.attrs self));
      destruct (return_state (SimpleRNN.attrs self)); reflexivity.
Qed.

(** The theorem on a sequence of four timesteps read two by two. *)
Lemma stateful_simple_rnn_in_two_parts_witness :
  exists r1 u1 r2 u2,
    call Layers.stateful_rnn Examples.session0 (InTensor Examples.two_steps)
         NoMask None None
    = Ok (r1, u1, Examples.session0)
    /\ call (Chunks.after_updates Layers.stateful_rnn u1) Examples.session0
            (InTensor Examples.two_steps) NoMask None None
       = Ok (r2, u2, Examples.session0)
    /\ call Layers.stateful_rnn Examples.session0
            (InTensor (Chunks.concat_time Examples.two_steps
                                          Examples.two_steps))
            NoMask None None
       = Ok (Chunks.join r1 r2, u2, Examples.session0).
Proof.
  apply (stateful_simple_rnn_in_two_parts Layers.stateful_rnn
           Examples.session0 Examples.two_steps Examples.two_steps None
           [[0%R]] 2 2 1).
  - unfold SimpleRNN.implementation; simpl; lia.
  - lia.
  - repeat constructor.
  - repeat constructor.
  - split; [reflexivity | repeat constructor].
  - split; [reflexivity | repeat constructor].
  - exact I.
  - simpl. intros rows width m Hm. exact Hm.
  - split; [reflexivity | repeat constructor].
  - apply in_unit_interval_0.
  - apply in_unit_interval_0.
  - reflexivity.
  - reflexivity.
  - reflexivity.
  - left. reflexivity.
  - reflexivity.
  - discriminate.
  - repeat constructor.
  - repeat constructor.
  - lia.
  - lia.
Defined.

(** *** The states an [LSTM] step returns *)

Lemma lstm_step_two_states (self : LSTM.t) (x : mat) (states : list pyobj)
    (o : mat) (ns : list pyobj) :
  LSTM.step self x states = Ok (o, ns) -> length ns = 2.
Proof.
  unfold LSTM.step.
  destruct (LSTM.gates self x states) as [[[[[c i] f] g] o']|e];
    cbn [Py.bind]; intros E; inv E. reflexivity.
Qed.

(** *** The precomputed projections of GRU *)

Lemma map2_map_map {A B C D : Type} (g : B -> C -> D) (a : A -> B)
    (b : A -> C) (l : list A) :
  map2 g (map a l) (map b l) = map (fun x => g (a x) (b x)) l.
Proof.
  induction l as [|x l IH]; simpl; [reflexivity|]. rewrite IH. reflexivity.
Qed.

Lemma ncols_cols (a b : nat) (w : mat) :
  w <> [] -> K.ncols (cols a b w) = Nat.min (b - a) (K.ncols w - a).
Proof.
  intros Hw. unfold K.ncols, cols. destruct w as [|r w]; [contradiction|].
  simpl. rewrite length_firstn, length_skipn. reflexivity.
Qed.

Lemma ncols_cols_from (a : nat) (w : mat) :
  w <> [] -> K.ncols (cols_from a w) = K.ncols w - a.
Proof.
  intros Hw. unfold K.ncols, cols_from. destruct w as [|r w];
    [contradiction|].
  simpl. apply length_skipn.
Qed.

Section GruProjections.

Variable self : GRU.t.
Let u := GRU.units self.
Hypothesis Hu : 0 < u.
Hypothesis Hkernel : K.ncols (GRU.kernel self) = 3 * u.
Hypothesis Hbias :
  if GRU.use_bias self
  then exists b, GRU.bias self = Some b /\ length b = 3 * u
  else True.

Lemma gru_kernel_not_empty : GRU.kernel self <> [].
Proof.
  intros E. rewrite E in Hkernel. unfold K.ncols in Hkernel.
  simpl in Hkernel. lia.
Qed.

Lemma gru_slices_width :
  K.ncols (GRU.kernel_z self) = u
  /\ K.ncols (GRU.kernel_r self) = u
  /\ K.ncols (GRU.kernel_h self) = u.
Proof.
  unfold GRU.kernel_z, GRU.kernel_r, GRU.kernel_h. fold u.
  rewrite !ncols_cols, ncols_cols_from by apply gru_kernel_not_empty.
  rewrite Hkernel. lia.
Qed.

Lemma gru_bias_slices :
  match GRU.bias_z self with Some b => length b = u | None => True end
  /\ match GRU.bias_r self with Some b => length b = u | None => True end
  /\ match GRU.bias_h self with Some b => length b = u | None => True end.
Proof.
  unfold GRU.bias_z, GRU.bias_r, GRU.bias_h, GRU.bias_slice. fold u.
  destruct (GRU.use_bias self); [|auto].
  destruct Hbias as (b & -> & Hb). cbn [option_map].
  rewrite !length_firstn, !length_skipn. lia.
Qed.

Lemma gru_projection_lengths (y : vec) :
  length (Dense.dense (GRU.kernel_z self) (GRU.bias_z self) y) = u
  /\ length (Dense.dense (GRU.kernel_r self) (GRU.bias_r self) y) = u
  /\ length (Dense.dense (GRU.kernel_h self) (GRU.bias_h self) y) = u.
Proof.
  destruct gru_slices_width as (Hz & Hr & Hh).
  destruct gru_bias_slices as (Bz & Br & Bh).
  repeat split.
  - rewrite length_dense; [exact Hz|rewrite Hz; exact Bz].
  - rewrite length_dense; [exact Hr|rewrite Hr; exact Br].
  - rewrite length_dense; [exact Hh|rewrite Hh; exact Bh].
Qed.

Lemma gru_projections_sliced (m : mat) :
  cols 0 u (map (Dense.gru_projections self) m)
  = map (Dense.dense (GRU.kernel_z self) (GRU.bias_z self)) m
  /\ cols u (2 * u) (map (Dense.gru_projections self) m)
     = map (Dense.dense (GRU.kernel_r self) (GRU.bias_r self)) m
  /\ cols_from (2 * u) (map (Dense.gru_projections self) m)
     = map (Dense.dense (GRU.kernel_h self) (GRU.bias_h self)) m.
Proof.
  unfold cols, cols_from, Dense.gru_projections.
  rewrite !map_map.
  repeat split; apply map_ext; intros y;
    destruct (gru_projection_lengths y) as (Lz & Lr & Lh).
  - cbn [skipn]. rewrite Nat.sub_0_r, <- app_assoc.
    rewrite firstn_app, Lz, Nat.sub_diag, firstn_O, app_nil_r.
    apply firstn_all2. lia.
  - rewrite <- app_assoc, skipn_app, Lz, Nat.sub_diag.
    rewrite (skipn_all2 (Dense.dense (GRU.kernel_z self) _ y)) by lia.
    cbn [skipn app].
    replace (2 * u - u) with u by lia.
    rewrite firstn_app, Lr, Nat.sub_diag, firstn_O, app_nil_r.
    apply firstn_all2. lia.
  - rewrite skipn_app, length_app, Lz, Lr.
    rewrite (skipn_all2 (_ ++ _)) by (rewrite length_app; lia).
    replace (2 * u - (u + u)) with 0 by lia. reflexivity.
Qed.


Hypothesis Hdrop : in_unit_interval (GRU.dropout self) = false.

Lemma gru_gates_projected (m : mat) (h0 rdp : pyobj) (rest : list pyobj) :
  GRU.gates (Modes.gru self 0) (map (Dense.gru_projections self) m)
            (h0 :: PyList (repeat Constants.one 3) :: rdp :: rest)
  = GRU.gates (Modes.gru self 1) m
              (h0 :: PyList (repeat Constants.one 3) :: rdp :: rest).
Proof.
  unfold GRU.gates.
  change (GRU.implementation (Modes.gru self 0)) with 0.
  change (GRU.implementation (Modes.gru self 1)) with 1.
  cbn [Nat.eqb].
  change (GRU.units (Modes.gru self 0)) with u.
  change (GRU.units (Modes.gru self 1)) with u.
  change (GRU.kernel_z (Modes.gru self 1)) with (GRU.kernel_z self).
  change (GRU.kernel_r (Modes.gru self 1)) with (GRU.kernel_r self).
  change (GRU.kernel_h (Modes.gru self 1)) with (GRU.kernel_h self).
  change (GRU.bias_z (Modes.gru self 1)) with (GRU.bias_z self).
  change (GRU.bias_r (Modes.gru self 1)) with (GRU.bias_r self).
  change (GRU.bias_h (Modes.gru self 1)) with (GRU.bias_h self).
  cbn [Modes.gru GRU.use_bias GRU.activation GRU.recurrent_activation
       GRU.recurrent_kernel].
  destruct (gru_projections_sliced m) as (-> & -> & ->).
  unfold item, mask_item. cbn [nth_error Py.bind item repeat].
  rewrite !times_one. cbn [Py.bind].
  rewrite <- !dense_rows.
  change (GRU.recurrent_kernel_z (Modes.gru self 0))
    with (GRU.recurrent_kernel_z (Modes.gru self 1)).
  change (GRU.recurrent_kernel_r (Modes.gru self 0))
    with (GRU.recurrent_kernel_r (Modes.gru self 1)).
  change (GRU.recurrent_kernel_h (Modes.gru self 0))
    with (GRU.recurrent_kernel_h (Modes.gru self 1)).
  unfold GRU.bias_z, GRU.bias_r, GRU.bias_h, GRU.bias_slice.
  destruct (GRU.use_bias self).
  - destruct Hbias as (b & -> & _). reflexivity.
  - reflexivity.
Qed.

Lemma gru_preprocessed (s : K.session) (x : K.ktensor)
    (training : option bool) (len dim : nat) :
  0 < len -> 0 < dim ->
  Dense.well_shaped len dim (K.value x) ->
  GRU.preprocess_input (Modes.gru self 0) s x training
  = (map (map (Dense.gru_projections self)) (K.value x), s).
Proof.
  intros Hlen Hdim Hx.
  unfold GRU.preprocess_input.
  change (GRU.implementation (Modes.gru self 0)) with 0.
  cbn [Nat.eqb].
  change (GRU.dropout (Modes.gru self 0)) with (GRU.dropout self).
  change (GRU.units (Modes.gru self 0)) with u.
  change (GRU.kernel_z (Modes.gru self 0)) with (GRU.kernel_z self).
  change (GRU.kernel_r (Modes.gru self 0)) with (GRU.kernel_r self).
  change (GRU.kernel_h (Modes.gru self 0)) with (GRU.kernel_h self).
  change (GRU.bias_z (Modes.gru self 0)) with (GRU.bias_z self).
  change (GRU.bias_r (Modes.gru self 0)) with (GRU.bias_r self).
  change (GRU.bias_h (Modes.gru self 0)) with (GRU.bias_h self).
  unfold _time_distributed_dense, dropout_input. rewrite Hdrop.
  destruct (well_shaped_dims len dim (K.value x) Hlen Hx) as [Hd Ht].
  destruct gru_slices_width as (Hz & Hr & Hh).
  destruct gru_bias_slices as (Bz & Br & Bh).
  assert (Htime : Dense.consistent (snd (fst (K.int_shape x))) len).
  { unfold K.int_shape. cbn [fst snd]. destruct (K.time_defined x);
      [exact Ht|left; reflexivity]. }
  rewrite (project_every_timestep (K.value x) (GRU.kernel_z self)
             (GRU.bias_z self) _ _ _ len dim), 
          (project_every_timestep (K.value x) (GRU.kernel_r self)
             (GRU.bias_r self) _ _ _ len dim),
          (project_every_timestep (K.value x) (GRU.kernel_h self)
             (GRU.bias_h self) _ _ _ len dim);
    try assumption; try (rewrite ?Hz, ?Hr, ?Hh; assumption);
    try (right; right; rewrite ?Hz, ?Hr, ?Hh; reflexivity).
  f_equal. rewrite !map2_map_map. apply map_ext. intros sample.
  rewrite !map2_map_map. reflexivity.
Qed.

End GruProjections.

Lemma scan_projected_on (step0 step1 : K.step_function) (f : mat -> mat)
    (constants : list pyobj) (P : list pyobj -> Prop) :
  (forall m st, P st ->
                step0 (f m) (st ++ constants) = step1 m (st ++ constants)) ->
  (forall m st o ns,
      P st -> step1 m (st ++ constants) = Ok (o, ns) ->
      P ns /\ forall mt, P (map2 (K.switch_state mt) ns st)) ->
  forall (slices : list (mat * option (list bool))) prev st,
    P st ->
    K.scan step0 constants (map (fun p => (f (fst p), snd p)) slices) prev st
    = K.scan step1 constants slices prev st.
Proof.
  intros Hstep Hkeep slices.
  induction slices as [|[x m] slices IH]; intros prev st Hst; [reflexivity|].
  cbn [map K.scan fst snd]. rewrite (Hstep x st Hst).
  destruct (step1 x (st ++ constants)) as [[o ns]|e] eqn:E; [|reflexivity].
  cbn [Py.bind].
  destruct (Hkeep x st o ns Hst E) as [Hns Hsw].
  rewrite IH; [reflexivity|].
  destruct m as [mt|]; [apply Hsw|exact Hns].
Qed.

Lemma rnn_projected_on (step0 step1 : K.step_function) (f : vec -> vec)
    (c : cube) (len : nat) (initial_states constants : list pyobj)
    (go_backwards unroll : bool) (mask : option (list (list bool)))
    (input_length : option nat) (P : list pyobj -> Prop) :
  Forall (fun sample : mat => length sample = len) c ->
  (forall m st, P st ->
                step0 (map f m) (st ++ constants)
                = step1 m (st ++ constants)) ->
  (forall m st o ns,
      P st -> step1 m (st ++ constants) = Ok (o, ns) ->
      P ns /\ forall mt, P (map2 (K.switch_state mt) ns st)) ->
  P initial_states ->
  K.rnn step0 (map (map f) c) initial_states go_backwards mask constants
        unroll input_length
  = K.rnn step1 c initial_states go_backwards mask constants unroll
          input_length.
Proof.
  intros Hc Hstep Hkeep Hinit. unfold K.rnn.
  rewrite (time_major_map f c len Hc).
  assert (Hn : n_timesteps (map (map f) c) = n_timesteps c).
  { unfold n_timesteps. destruct c; simpl; [reflexivity|apply length_map]. }
  assert (Hs : n_samples (map (map f) c) = n_samples c)
    by (unfold n_samples; apply length_map).
  rewrite Hn, Hs.
  assert (Hb : K.backwards go_backwards (map (map f) (time_major c))
               = map (map f) (K.backwards go_backwards (time_major c))).
  { unfold K.backwards. destruct go_backwards; [|reflexivity].
    symmetry. apply map_rev. }
  rewrite Hb. cbv zeta.
  assert (Hm : forall (xs : list mat),
             match mask with
             | Some m =>
                 map Some (K.backwards go_backwards
                             (K.mask_time_major m (n_timesteps c)))
             | None => map (fun _ : mat => None) (map (map f) xs)
             end
             = match mask with
               | Some m =>
                   map Some (K.backwards go_backwards
                               (K.mask_time_major m (n_timesteps c)))
               | None => map (fun _ : mat => None) xs
               end).
  { intros xs. destruct mask; [reflexivity|]. rewrite map_map. reflexivity. }
  rewrite Hm.
  rewrite combine_map_fst,
    (scan_projected_on step0 step1 (map f) constants P Hstep Hkeep _ _ _
                       Hinit).
  reflexivity.
Qed.

(** X18.  For a [GRU] whose input dropout is off and whose weights have
    the shapes [build] gives them, [call] returns the same in
    [implementation=0], where [preprocess_input] projects the whole input
    three times and concatenates and the step slices its input, as in
    [implementation=1], where the step multiplies each time slice by the three
    slices of the kernel; this on every well-shaped input, with or without
    mask and initial state, and whatever the recurrent dropout. *)
Theorem gru_precomputed_projections :
  forall (self : GRU.t) (s : K.session) (inputs : call_inputs)
         (mask : call_mask) (training : option bool)
         (initial_state : option (list pyobj)) (len dim : nat),
    in_unit_interval (GRU.dropout self) = false ->
    0 < len -> 0 < dim -> 0 < GRU.units self ->
    Dense.well_shaped len dim (K.value (input_tensor inputs)) ->
    K.ncols (GRU.kernel self) = 3 * GRU.units self ->
    (if GRU.use_bias self
     then exists b, GRU.bias self = Some b /\ length b = 3 * GRU.units self
     else True) ->
    length (Recurrent.states (GRU.attrs self)) = 1 ->
    call (Modes.gru self 0) s inputs mask training initial_state
    = call (Modes.gru self 1) s inputs mask training initial_state.
Proof.
  intros self s inputs mask training initial_state len dim Hd Hlen Hdim HU
         Hx Hk Hb Hone.
  unfold call.
  change (initial_state_of (Modes.gru self 0) inputs initial_state)
    with (initial_state_of (Modes.gru self 1) inputs initial_state).
  set (init := initial_state_of (Modes.gru self 1) inputs initial_state).
  change (states (base (Modes.gru self 0)))
    with (Recurrent.states (GRU.attrs self)).
  change (states (base (Modes.gru self 1)))
    with (Recurrent.states (GRU.attrs self)).
  rewrite Hone.
  destruct (length init =? 1) eqn:Einit; [|reflexivity].
  apply Nat.eqb_eq in Einit. cbn [negb].
  set (x := input_tensor inputs) in *.
  unfold scan_and_return, constants_and_input.
  cbn [base GRU.layer Modes.gru GRU.attrs Modes.set_implementation unroll
       go_backwards stateful states return_state return_sequences
       get_constants preprocess_input step].
  destruct (unroll (GRU.attrs self) && negb (K.time_defined x));
    [reflexivity|].
  fold (Modes.gru self 0). fold (Modes.gru self 1).
  assert (Hc : exists rdp s',
             GRU.get_constants (Modes.gru self 0) s x None
             = ([PyList (repeat Constants.one 3); rdp], s')
             /\ GRU.get_constants (Modes.gru self 1) s x None
                = ([PyList (repeat Constants.one 3); rdp], s')).
  { unfold GRU.get_constants.
    change (GRU.implementation (Modes.gru self 0)) with 0.
    change (GRU.implementation (Modes.gru self 1)) with 1.
    change (GRU.dropout (Modes.gru self 1)) with (GRU.dropout self).
    change (GRU.recurrent_dropout (Modes.gru self 0))
      with (GRU.recurrent_dropout self).
    change (GRU.recurrent_dropout (Modes.gru self 1))
      with (GRU.recurrent_dropout self).
    change (GRU.units (Modes.gru self 0)) with (GRU.units self).
    change (GRU.units (Modes.gru self 1)) with (GRU.units self).
    rewrite Hd. cbn [Nat.eqb negb andb].
    destruct (in_unit_interval (GRU.recurrent_dropout self)).
    - destruct (Constants.dropout_masks 3 s _ (GRU.recurrent_dropout self)
                                        None) as [rdp s'].
      exists (PyList rdp), s'. split; reflexivity.
    - eexists; eexists; split; reflexivity. }
  destruct Hc as (rdp & s' & -> & ->).
  rewrite (gru_preprocessed self HU Hk Hb Hd s' x None len dim Hlen Hdim Hx).
  change (GRU.preprocess_input (Modes.gru self 1) s' x None)
    with (K.value x, s').
  cbv beta iota.
  rewrite (rnn_projected_on (GRU.step (Modes.gru self 0))
             (GRU.step (Modes.gru self 1)) (Dense.gru_projections self)
             (K.value x) len init
             [PyList (repeat Constants.one 3); rdp] _ _ _ _
             (fun st => length st = 1)).
  - reflexivity.
  - eapply Forall_impl; [|exact Hx]. intros sample [Hs _]. exact Hs.
  - intros m [|h0 [|? ?]] Hst; try discriminate Hst.
    cbn [app]. unfold GRU.step.
    rewrite (gru_gates_projected self HU Hk Hb m h0 rdp []).
    reflexivity.
  - intros m st o ns Hst E. pose proof (gru_step_one_state _ _ _ _ _ E) as Hn.
    split; [exact Hn|]. intros mt. rewrite length_map2, Hn, Hst. reflexivity.
  - exact Einit.
Qed.

(** The theorem on a layer of one unit and a sequence of two timesteps. *)
Lemma gru_precomputed_projections_witness :
  call (Modes.gru Examples.gru 0) Examples.session0
       (InTensor Examples.two_steps) NoMask None None
  = call (Modes.gru Examples.gru 1) Examples.session0
         (InTensor Examples.two_steps) NoMask None None.
Proof.
  apply (gru_precomputed_projections Examples.gru Examples.session0
           (InTensor Examples.two_steps) NoMask None None 2 1).
  - apply in_unit_interval_0.
  - lia.
  - lia.
  - unfold GRU.units; simpl; lia.
  - repeat constructor.
  - reflexivity.
  - exact I.
  - reflexivity.
Defined.

(** *** What [AttLSTMCond] hands to its step *)

Lemma dropout_masks_matrices (n : nat) (s : K.session) (ones_ : mat)
    (level : R) (training : option bool) :
  exists ms s',
    Constants.dropout_masks n s ones_ level training = (map T2 ms, s')
    /\ length ms = n.
Proof.
  revert s. induction n as [|n IH]; intros s.
  - exists [], s. split; reflexivity.
  - cbn [Constants.dropout_masks].
    destruct (dropout_mask_rows s ones_ level training) as (m & s1 & E & _).
    rewrite E. destruct (IH s1) as (ms & s2 & E2 & Hl). rewrite E2.
    exists (m :: ms), s2. split; [reflexivity|]. simpl. rewrite Hl.
    reflexivity.
Qed.

Lemma mask_list_ones (n : nat) : Attention.mask_list n (repeat Constants.one n).
Proof.
  split; [apply repeat_length|].
  apply Forall_forall. intros t Ht. apply repeat_spec in Ht. subst t.
  simpl. lia.
Qed.

Lemma mask_list_drawn (n : nat) (s : K.session) (ones_ : mat) (level : R)
    (training : option bool) :
  Attention.mask_list n (fst (Constants.dropout_masks n s ones_ level training)).
Proof.
  destruct (dropout_masks_matrices n s ones_ level training)
    as (ms & s' & E & Hl).
  rewrite E. cbn [fst]. split; [rewrite length_map; exact Hl|].
  rewrite Forall_map. apply Forall_forall. intros m _. simpl. lia.
Qed.

Lemma attention_constants_form (self : Attention.t) (s : K.session)
    (inputs : K.ktensor) (mask_context : option tensor)
    (training : option bool) :
  (AttLSTMCond.use_bias (Attention.cell self) = true ->
   exists b, Attention.bias_ba self = Some b) ->
  exists dp rdp adp pctx mask s',
    Attention.get_constants self s inputs mask_context training
    = (Ok [PyList dp; PyList rdp; PyList adp; Tensor (T3 pctx);
           Tensor (T3 (Attention.context self)); Tensor mask], s')
    /\ Attention.mask_list 4 dp /\ Attention.mask_list 4 rdp /\ Attention.mask_list 1 adp
    /\ mask = match mask_context with
              | None =>
                  T2 (Attention.not_equal
                        (Attention.sum_axis_2 (Attention.context self))
                        (Attention.mask_value self))
              | Some m => m
              end.
Proof.
  intros Hb. unfold Attention.get_constants.
  set (dp := if in_unit_interval (Attention.dropout self) then _ else _).
  assert (Hdp : Attention.mask_list 4 (fst dp)).
  { subst dp. destruct (in_unit_interval (Attention.dropout self));
      [apply mask_list_drawn|apply mask_list_ones]. }
  destruct dp as [dp s1]. cbn [fst] in Hdp.
  set (rdp := if in_unit_interval (Attention.recurrent_dropout self)
              then _ else _).
  assert (Hrdp : Attention.mask_list 4 (fst rdp)).
  { subst rdp. destruct (in_unit_interval (Attention.recurrent_dropout self));
      [apply mask_list_drawn|apply mask_list_ones]. }
  destruct rdp as [rdp s2]. cbn [fst] in Hrdp.
  set (adp := if in_unit_interval (Attention.attention_dropout self)
              then Constants.dropout_masks _ _ _ _ _ else _).
  assert (Hadp : Attention.mask_list 1 (fst adp)).
  { subst adp. destruct (in_unit_interval (Attention.attention_dropout self));
      [apply mask_list_drawn|apply mask_list_ones]. }
  destruct adp as [adp s3]. cbn [fst] in Hadp.
  match goal with
  | |- context [let '(pctx, s) := ?p in _] => destruct p as [pctx s4]
  end.
  destruct (AttLSTMCond.use_bias (Attention.cell self)).
  - destruct (Hb eq_refl) as [b ->]. cbn [Py.bind].
    exists dp, rdp, adp. do 3 eexists.
    split; [reflexivity|]. auto.
  - cbn [Py.bind]. exists dp, rdp, adp. do 3 eexists.
    split; [reflexivity|]. auto.
Qed.

Lemma attention_constants_six (self : Attention.t) (s : K.session)
    (inputs : K.ktensor) (mask_context : option tensor)
    (training : option bool) (constants : list pyobj) (s' : K.session) :
  Attention.get_constants self s inputs mask_context training
  = (Ok constants, s') ->
  length constants = 6.
Proof.
  unfold Attention.get_constants.
  repeat match goal with
    | |- context [let '(_, _) := ?p in _] => destruct p
    end.
  destruct (AttLSTMCond.use_bias (Attention.cell self));
    [destruct (Attention.bias_ba self)|];
    cbn [Py.bind]; intros E; inv E; reflexivity.
Qed.

Lemma attention_step_reads_ten (self : AttLSTMCond.t) (x : mat)
    (states : list pyobj) :
  length states < 10 ->
  exists e, AttLSTMCond.step self x states = Raise e.
Proof.
  intros Hl.
  assert (H9 : item states 9 = Raise IndexError).
  { unfold item. rewrite (proj2 (nth_error_None states 9)); [reflexivity|lia]. }
  unfold AttLSTMCond.step, AttLSTMCond.attention. rewrite H9.
  raises.
Qed.

(** X20.  A stateful [AttLSTMCond] cannot step: [build] and
    [reset_states] store three states, [get_constants] returns six
    constants, and the step reads ten entries of the list of states followed
    by constants, so on three stored states it raises whatever they and the
    input are. *)
Theorem attention_stored_states_too_few :
  forall (self : Attention.t) (s : K.session) (inputs : K.ktensor)
         (mask_context : option tensor) (training : option bool)
         (x : mat) (stored constants : list pyobj) (s' : K.session),
    length stored = 3 ->
    Attention.get_constants self s inputs mask_context training
    = (Ok constants, s') ->
    exists e,
      AttLSTMCond.step (Attention.cell self) x (stored ++ constants)
      = Raise e.
Proof.
  intros self s inputs mask_context training x stored constants s' Hst Hc.
  apply attention_step_reads_ten.
  rewrite length_app, Hst, (attention_constants_six _ _ _ _ _ _ _ Hc). lia.
Qed.

(** The theorem on three stored states of one sample. *)
Lemma attention_stored_states_too_few_witness :
  exists constants s',
    Attention.get_constants Layers.attention Examples.session0
                            Examples.two_steps None None
    = (Ok constants, s')
    /\ exists e,
         AttLSTMCond.step (Attention.cell Layers.attention)
           [[0%R; 0%R; 0%R; 0%R]]
           ([Tensor (T2 [[0%R]]); Tensor (T2 [[0%R]]);
             Tensor (T2 [[0%R; 0%R]])] ++ constants)
         = Raise e.
Proof.
  destruct (attention_constants_form Layers.attention Examples.session0
              Examples.two_steps None None)
    as (dp & rdp & adp & pctx & mask & s' & Ec & _).
  { intros _. eexists. reflexivity. }
  do 2 eexists. split; [exact Ec|].
  apply (attention_stored_states_too_few Layers.attention Examples.session0
           Examples.two_steps None None [[0%R; 0%R; 0%R; 0%R]]
           [Tensor (T2 [[0%R]]); Tensor (T2 [[0%R]]);
            Tensor (T2 [[0%R; 0%R]])] _ s' eq_refl Ec).
Defined.

(** X21.  The value of [attention_dropout] does not reach the dropout masks
    of the attention model: [get_constants] draws the mask it stores as
    States[6] with the rate [recurrent_dropout], so two layers that differ
    only in an [attention_dropout] inside [(0, 1)] get the same three lists
    of masks from the same session. *)
Theorem attention_mask_ignores_its_rate :
  forall (self : Attention.t) (s : K.session) (inputs : K.ktensor)
         (mask_context : option tensor) (training : option bool)
         (rate rate' : R) (constants constants' : list pyobj)
         (s1 s1' : K.session),
    in_unit_interval rate = true ->
    in_unit_interval rate' = true ->
    Attention.get_constants (Attention.with_attention_dropout self rate)
                            s inputs mask_context training
    = (Ok constants, s1) ->
    Attention.get_constants (Attention.with_attention_dropout self rate')
                            s inputs mask_context training
    = (Ok constants', s1') ->
    firstn 3 constants = firstn 3 constants'.
Proof.
  intros self s inputs mask_context training rate rate' constants constants'
         s1 s1' Hr Hr'.
  unfold Attention.get_constants.
  cbn [Attention.with_attention_dropout Attention.dropout
       Attention.recurrent_dropout Attention.attention_dropout
       Attention.cell Attention.context Attention.bias_ba Attention.units
       Attention.context_dim Attention.attention_context_kernel
       Attention.mask_value].
  change (Attention.units (Attention.with_attention_dropout self rate))
    with (Attention.units self).
  change (Attention.units (Attention.with_attention_dropout self rate'))
    with (Attention.units self).
  rewrite Hr, Hr'.
  repeat match goal with
    | |- context [let '(_, _) := ?p in _] => destruct p
    end.
  destruct (AttLSTMCond.use_bias (Attention.cell self));
    [destruct (Attention.bias_ba self)|];
    cbn [Py.bind]; intros E E'; inv E; inv E'; reflexivity.
Qed.

Lemma in_unit_interval_quarter : in_unit_interval (1 / 4)%R = true.
Proof.
  unfold in_unit_interval.
  destruct (Rlt_dec 0 (1 / 4)); [|lra].
  destruct (Rlt_dec (1 / 4) 1); [reflexivity|lra].
Qed.

(** The theorem on attention rates of one half and one quarter, in the
    training phase. *)
Lemma attention_mask_ignores_its_rate_witness :
  exists constants constants' s1 s1',
    Attention.get_constants
      (Attention.with_attention_dropout Layers.attention (1 / 2))
      Examples.training_session Examples.two_steps None None
    = (Ok constants, s1)
    /\ Attention.get_constants
         (Attention.with_attention_dropout Layers.attention (1 / 4))
         Examples.training_session Examples.two_steps None None
       = (Ok constants', s1')
    /\ firstn 3 constants = firstn 3 constants'.
Proof.
  destruct (attention_constants_form
              (Attention.with_attention_dropout Layers.attention (1 / 2))
              Examples.training_session Examples.two_steps None None)
    as (dp & rdp & adp & pctx & mask & s1 & Ec & _).
  { intros _. eexists. reflexivity. }
  destruct (attention_constants_form
              (Attention.with_attention_dropout Layers.attention (1 / 4))
              Examples.training_session Examples.two_steps None None)
    as (dp' & rdp' & adp' & pctx' & mask' & s1' & Ec' & _).
  { intros _. eexists. reflexivity. }
  do 4 eexists. split; [exact Ec|]. split; [exact Ec'|].
  apply (attention_mask_ignores_its_rate Layers.attention
           Examples.training_session Examples.two_steps None None
           (1 / 2) (1 / 4) _ _ _ _
           in_unit_interval_half in_unit_interval_quarter Ec Ec').
Defined.

(** *** [_time_distributed_dense] in the training phase *)

Lemma dropout_rows (s : K.session) (x : mat) (level : R) (width : nat) :
  Forall (fun row : vec => length row = width) x ->
  length (fst (K.dropout s x level)) = length x
  /\ Forall (fun row : vec => length row = width) (fst (K.dropout s x level)).
Proof.
  intros Hx. unfold K.dropout, K.indexed. cbn [fst]. split.
  - rewrite length_map, length_combine, length_seq. apply Nat.min_id.
  - rewrite Forall_map. apply Forall_forall. intros [i row] Hin.
    apply in_combine_r in Hin. rewrite Forall_forall in Hx.
    cbn [snd]. rewrite length_map, length_combine, length_seq, Nat.min_id.
    apply Hx. exact Hin.
Qed.

Lemma masked_sample (sample : mat) (mrow : vec) (len : nat) :
  length sample = len ->
  mmul sample (repeat mrow len) = map (fun y => vmul y mrow) sample.
Proof.
  intros <-. unfold mmul.
  induction sample as [|y sample IH]; simpl; [reflexivity|].
  rewrite IH. reflexivity.
Qed.

Lemma masked_input (x : cube) (mask : mat) (len : nat) :
  Forall (fun sample : mat => length sample = len) x ->
  cmul x (K.repeat_time mask len)
  = map2 (fun sample mrow => map (fun y => vmul y mrow) sample) x mask.
Proof.
  intros Hx. unfold cmul, K.repeat_time. revert mask.
  induction Hx as [|sample x Hs Hx IH]; intros [|mrow mask]; simpl;
    try reflexivity.
  rewrite IH, (masked_sample sample mrow len Hs). reflexivity.
Qed.

Lemma masked_input_well_shaped (x : cube) (mask : mat) (len dim : nat) :
  Dense.well_shaped len dim x ->
  Forall (fun row : vec => length row = dim) mask ->
  Dense.well_shaped len dim
    (map2 (fun sample mrow => map (fun y => vmul y mrow) sample) x mask).
Proof.
  unfold Dense.well_shaped. intros Hx. revert mask.
  induction Hx as [|sample x [Hs Hv] Hx IH]; intros [|mrow mask] Hm; simpl;
    try constructor.
  - split; [rewrite length_map; exact Hs|].
    rewrite Forall_map. eapply Forall_impl; [|exact Hv].
    intros y Hy. cbv beta in *. unfold vmul.
    rewrite length_map2, Hy, (Forall_inv Hm). apply Nat.min_id.
  - apply IH. eapply Forall_inv_tail. exact Hm.
Qed.

(** X22.  In the training phase and with a dropout rate inside [(0, 1)],
    [_time_distributed_dense] returns, at every sample and timestep of a
    well-shaped input of dimension [dim], given a kernel of [dim] rows,
    [y' . w + b] for the vector [y'] that is the input's
    vector there multiplied by the row which the one dropout matrix drawn for
    the call has for that sample: the same row at every timestep. *)
Theorem time_distributed_dense_in_training :
  forall (s : K.session) (x : cube) (w : mat) (b : option vec) (d : R)
         (input_dim output_dim timesteps : option nat)
         (training : option bool) (len dim : nat),
    in_unit_interval d = true ->
    K.training_now s training = true ->
    0 < len -> 0 < dim -> 0 < K.ncols w ->
    x <> [] ->
    Dense.well_shaped len dim x ->
    has_shape dim (K.ncols w) w ->
    match b with Some b' => length b' = K.ncols w | None => True end ->
    Dense.consistent input_dim dim ->
    Dense.consistent timesteps len ->
    Dense.consistent output_dim (K.ncols w) ->
    let mask := fst (K.dropout s (map (fun _ : mat => repeat 1%R dim) x) d) in
    fst (_time_distributed_dense s x w b (Some d) input_dim output_dim
                                 timesteps training)
    = map2 (fun sample mrow =>
              map (fun y => Dense.dense w b (vmul y mrow)) sample)
           x mask.
Proof.
  intros s x w b d input_dim output_dim timesteps training len dim
         Hd Ht Hlen Hdim HO Hne Hx Hw Hb Hci Hct Hco mask.
  unfold _time_distributed_dense, dropout_input. rewrite Hd.
  destruct (well_shaped_dims len dim x Hlen Hx) as [Hnd Hnt].
  assert (En : n_dim x = dim /\ n_timesteps x = len).
  { unfold n_dim, n_timesteps. destruct x as [|sample x']; [contradiction|].
    apply Forall_inv in Hx. destruct Hx as [Hs Hv]. simpl.
    destruct sample as [|v sample]; [simpl in Hs; lia|].
    apply Forall_inv in Hv. simpl in *. auto. }
  destruct En as [En Et]. rewrite En, Et.
  rewrite (or_else_consistent _ _ Hci Hdim), (or_else_consistent _ _ Hct Hlen).
  subst mask.
  assert (Hmask : Forall (fun row : vec => length row = dim)
                         (fst (K.dropout s (map (fun _ : mat => repeat 1%R dim) x) d))).
  { apply dropout_rows. rewrite Forall_map.
    apply Forall_forall. intros m _. apply repeat_length. }
  destruct (K.dropout s (map (fun _ : mat => repeat 1%R dim) x) d)
    as [mask s1] eqn:Edrop.
  assert (Hs1 : K.training_now s1 training = true).
  { unfold K.dropout in Edrop. inv Edrop. rewrite <- Ht.
    destruct training; reflexivity. }
  unfold K.in_train_phase_value. rewrite Hs1. cbn [fst] in *.
  rewrite (masked_input x mask len)
    by (eapply Forall_impl; [|exact Hx]; intros a [Ha _]; exact Ha).
  pose proof (masked_input_well_shaped x mask len dim Hx Hmask) as Hx'.
  set (x' := map2 _ x mask) in *.
  pose proof (project_every_timestep x' w b (Some dim) output_dim (Some len)
                len dim Hlen Hdim HO Hx' Hb) as Hp.
  assert (Hoe : forall n a, 0 < n -> or_else (Some n) a = n)
    by (intros [|n] a H; [lia|reflexivity]).
  rewrite !Hoe in Hp by assumption.
  rewrite Hp by (try assumption; right; right; reflexivity).
  subst x'. clear.
  revert mask. induction x as [|sample x IH]; intros [|mrow mask]; simpl;
    try reflexivity.
  rewrite IH, map_map. reflexivity.
Qed.

(** The theorem on a sequence of two timesteps and a rate of one half. *)
Lemma time_distributed_dense_in_training_witness :
  fst (_time_distributed_dense Examples.training_session [[[1%R]; [0%R]]]
                               [[2%R]] (Some [3%R]) (Some (1 / 2)%R)
                               None None None None)
  = map2 (fun sample mrow =>
            map (fun y => Dense.dense [[2%R]] (Some [3%R]) (vmul y mrow))
                sample)
         [[[1%R]; [0%R]]]
         (fst (K.dropout Examples.training_session
                 (map (fun _ : mat => repeat 1%R 1) [[[1%R]; [0%R]]])
                 (1 / 2)%R)).
Proof.
  apply (time_distributed_dense_in_training Examples.training_session
           [[[1%R]; [0%R]]] [[2%R]] (Some [3%R]) (1 / 2)%R None None None
           None 2 1).
  - apply in_unit_interval_half.
  - reflexivity.
  - lia.
  - lia.
  - unfold K.ncols; simpl; lia.
  - discriminate.
  - repeat constructor.
  - split; [reflexivity | repeat constructor].
  - reflexivity.
  - left; reflexivity.
  - left; reflexivity.
  - left; reflexivity.
Defined.

(** *** The precomputed projections of LSTM *)

Section LstmProjections.

Variable self : LSTM.t.
Let u := LSTM.units self.
Hypothesis Hu : 0 < u.
Hypothesis Hkernel : K.ncols (LSTM.kernel self) = 4 * u.
Hypothesis Huse : LSTM.use_bias self = true.
Variable bias : vec.
Hypothesis Hbias : LSTM.bias self = Some bias.
Hypothesis Hlength : length bias = 4 * u.

Lemma lstm_kernel_not_empty : LSTM.kernel self <> [].
Proof.
  intros E. rewrite E in Hkernel. unfold K.ncols in Hkernel.
  simpl in Hkernel. lia.
Qed.

Lemma lstm_slices_width :
  K.ncols (LSTM.kernel_i self) = u
  /\ K.ncols (LSTM.kernel_f self) = u
  /\ K.ncols (LSTM.kernel_c self) = u
  /\ K.ncols (LSTM.kernel_o self) = u.
Proof.
  unfold LSTM.kernel_i, LSTM.kernel_f, LSTM.kernel_c, LSTM.kernel_o. fold u.
  rewrite !ncols_cols, ncols_cols_from by apply lstm_kernel_not_empty.
  rewrite Hkernel. lia.
Qed.

Lemma lstm_bias_slices :
  exists bi bf bc bo,
    LSTM.bias_i self = Some bi /\ LSTM.bias_f self = Some bf
    /\ LSTM.bias_c self = Some bc /\ LSTM.bias_o self = Some bo
    /\ length bi = u /\ length bf = u /\ length bc = u /\ length bo = u.
Proof.
  unfold LSTM.bias_i, LSTM.bias_f, LSTM.bias_c, LSTM.bias_o, LSTM.bias_slice.
  fold u. rewrite Huse, Hbias. cbn [option_map].
  do 4 eexists. repeat (split; [reflexivity|]).
  rewrite !length_firstn, !length_skipn. lia.
Qed.

Lemma lstm_projection_lengths (y : vec) :
  length (Dense.dense (LSTM.kernel_i self) (LSTM.bias_i self) y) = u
  /\ length (Dense.dense (LSTM.kernel_f self) (LSTM.bias_f self) y) = u
  /\ length (Dense.dense (LSTM.kernel_c self) (LSTM.bias_c self) y) = u
  /\ length (Dense.dense (LSTM.kernel_o self) (LSTM.bias_o self) y) = u.
Proof.
  destruct lstm_slices_width as (Hi & Hf & Hc & Ho).
  destruct lstm_bias_slices
    as (bi & bf & bc & bo & Ei & Ef & Ec & Eo & Li & Lf & Lc & Lo).
  rewrite Ei, Ef, Ec, Eo.
  repeat split.
  - rewrite length_dense; [exact Hi|rewrite Hi; exact Li].
  - rewrite length_dense; [exact Hf|rewrite Hf; exact Lf].
  - rewrite length_dense; [exact Hc|rewrite Hc; exact Lc].
  - rewrite length_dense; [exact Ho|rewrite Ho; exact Lo].
Qed.

Lemma lstm_projections_sliced (m : mat) :
  cols 0 u (map (Dense.lstm_projections self) m)
  = map (Dense.dense (LSTM.kernel_i self) (LSTM.bias_i self)) m
  /\ cols u (2 * u) (map (Dense.lstm_projections self) m)
     = map (Dense.dense (LSTM.kernel_f self) (LSTM.bias_f self)) m
  /\ cols (2 * u) (3 * u) (map (Dense.lstm_projections self) m)
     = map (Dense.dense (LSTM.kernel_c self) (LSTM.bias_c self)) m
  /\ cols_from (3 * u) (map (Dense.lstm_projections self) m)
     = map (Dense.dense (LSTM.kernel_o self) (LSTM.bias_o self)) m.
Proof.
  unfold cols, cols_from, Dense.lstm_projections.
  rewrite !map_map.
  repeat split; apply map_ext; intros y;
    destruct (lstm_projection_lengths y) as (Li & Lf & Lc & Lo);
    set (di := Dense.dense (LSTM.kernel_i self) _ y) in *;
    set (df := Dense.dense (LSTM.kernel_f self) _ y) in *;
    set (dc := Dense.dense (LSTM.kernel_c self) _ y) in *;
    set (do_ := Dense.dense (LSTM.kernel_o self) _ y) in *;
    rewrite <- !app_assoc.
  - cbn [skipn]. rewrite Nat.sub_0_r.
    rewrite firstn_app, Li, Nat.sub_diag, firstn_O, app_nil_r.
    apply firstn_all2. lia.
  - rewrite skipn_app, Li, Nat.sub_diag.
    rewrite (skipn_all2 di) by lia. cbn [skipn app].
    replace (2 * u - u) with u by lia.
    rewrite firstn_app, Lf, Nat.sub_diag, firstn_O, app_nil_r.
    apply firstn_all2. lia.
  - rewrite skipn_app, Li. rewrite (skipn_all2 di) by lia. cbn [app].
    replace (2 * u - u) with u by lia.
    rewrite skipn_app, Lf, Nat.sub_diag.
    rewrite (skipn_all2 df) by lia. cbn [skipn app].
    replace (3 * u - 2 * u) with u by lia.
    rewrite firstn_app, Lc, Nat.sub_diag, firstn_O, app_nil_r.
    apply firstn_all2. lia.
  - rewrite skipn_app, Li. rewrite (skipn_all2 di) by lia. cbn [app].
    replace (3 * u - u) with (2 * u) by lia.
    rewrite skipn_app, Lf. rewrite (skipn_all2 df) by lia. cbn [app].
    replace (2 * u - u) with u by lia.
    rewrite skipn_app, Lc, Nat.sub_diag.
    rewrite (skipn_all2 dc) by lia. reflexivity.
Qed.

Hypothesis Hdrop : in_unit_interval (LSTM.dropout self) = false.

Lemma lstm_gates_projected (m : mat) (h0 c0 rdp : pyobj)
    (rest : list pyobj) :
  LSTM.gates (Modes.lstm self 0) (map (Dense.lstm_projections self) m)
             (h0 :: c0 :: PyList (repeat Constants.one 4) :: rdp :: rest)
  = LSTM.gates (Modes.lstm self 1) m
               (h0 :: c0 :: PyList (repeat Constants.one 4) :: rdp :: rest).
Proof.
  unfold LSTM.gates.
  change (LSTM.implementation (Modes.lstm self 0)) with 0.
  change (LSTM.implementation (Modes.lstm self 1)) with 1.
  cbn [Nat.eqb].
  change (LSTM.units (Modes.lstm self 0)) with u.
  change (LSTM.units (Modes.lstm self 1)) with u.
  change (LSTM.kernel_i (Modes.lstm self 1)) with (LSTM.kernel_i self).
  change (LSTM.kernel_f (Modes.lstm self 1)) with (LSTM.kernel_f self).
  change (LSTM.kernel_c (Modes.lstm self 1)) with (LSTM.kernel_c self).
  change (LSTM.kernel_o (Modes.lstm self 1)) with (LSTM.kernel_o self).
  change (LSTM.bias_i (Modes.lstm self 1)) with (LSTM.bias_i self).
  change (LSTM.bias_f (Modes.lstm self 1)) with (LSTM.bias_f self).
  change (LSTM.bias_c (Modes.lstm self 1)) with (LSTM.bias_c self).
  change (LSTM.bias_o (Modes.lstm self 1)) with (LSTM.bias_o self).
  cbn [Modes.lstm LSTM.use_bias LSTM.activation LSTM.recurrent_activation
       LSTM.recurrent_kernel].
  destruct (lstm_projections_sliced m) as (-> & -> & -> & ->).
  unfold item, mask_item. cbn [nth_error Py.bind item repeat].
  rewrite !times_one. cbn [Py.bind].
  rewrite <- !dense_rows.
  change (LSTM.recurrent_kernel_i (Modes.lstm self 0))
    with (LSTM.recurrent_kernel_i (Modes.lstm self 1)).
  change (LSTM.recurrent_kernel_f (Modes.lstm self 0))
    with (LSTM.recurrent_kernel_f (Modes.lstm self 1)).
  change (LSTM.recurrent_kernel_c (Modes.lstm self 0))
    with (LSTM.recurrent_kernel_c (Modes.lstm self 1)).
  change (LSTM.recurrent_kernel_o (Modes.lstm self 0))
    with (LSTM.recurrent_kernel_o (Modes.lstm self 1)).
  destruct lstm_bias_slices
    as (bi & bf & bc & bo & -> & -> & -> & -> & _).
  reflexivity.
Qed.

Lemma lstm_preprocessed (s : K.session) (x : K.ktensor)
    (training : option bool) (len dim : nat) :
  0 < len -> 0 < dim ->
  Dense.well_shaped len dim (K.value x) ->
  LSTM.preprocess_input (Modes.lstm self 0) s x training
  = (map (map (Dense.lstm_projections self)) (K.value x), s).
Proof.
  intros Hlen Hdim Hx.
  unfold LSTM.preprocess_input.
  change (LSTM.implementation (Modes.lstm self 0)) with 0.
  cbn [Nat.eqb].
  change (LSTM.dropout (Modes.lstm self 0)) with (LSTM.dropout self).
  change (LSTM.units (Modes.lstm self 0)) with u.
  change (LSTM.kernel_i (Modes.lstm self 0)) with (LSTM.kernel_i self).
  change (LSTM.kernel_f (Modes.lstm self 0)) with (LSTM.kernel_f self).
  change (LSTM.kernel_c (Modes.lstm self 0)) with (LSTM.kernel_c self).
  change (LSTM.kernel_o (Modes.lstm self 0)) with (LSTM.kernel_o self).
  change (LSTM.bias_i (Modes.lstm self 0)) with (LSTM.bias_i self).
  change (LSTM.bias_f (Modes.lstm self 0)) with (LSTM.bias_f self).
  change (LSTM.bias_c (Modes.lstm self 0)) with (LSTM.bias_c self).
  change (LSTM.bias_o (Modes.lstm self 0)) with (LSTM.bias_o self).
  unfold _time_distributed_dense, dropout_input. rewrite Hdrop.
  destruct (well_shaped_dims len dim (K.value x) Hlen Hx) as [Hd Ht].
  destruct lstm_slices_width as (Hi & Hf & Hc & Ho).
  destruct lstm_bias_slices
    as (bi & bf & bc & bo & Ei & Ef & Ec & Eo & Li & Lf & Lc & Lo).
  assert (Htime : Dense.consistent (snd (fst (K.int_shape x))) len).
  { unfold K.int_shape. cbn [fst snd]. destruct (K.time_defined x);
      [exact Ht|left; reflexivity]. }
  rewrite (project_every_timestep (K.value x) (LSTM.kernel_i self)
             (LSTM.bias_i self) _ _ _ len dim),
          (project_every_timestep (K.value x) (LSTM.kernel_f self)
             (LSTM.bias_f self) _ _ _ len dim),
          (project_every_timestep (K.value x) (LSTM.kernel_c self)
             (LSTM.bias_c self) _ _ _ len dim),
          (project_every_timestep (K.value x) (LSTM.kernel_o self)
             (LSTM.bias_o self) _ _ _ len dim);
    try assumption; try (rewrite ?Hi, ?Hf, ?Hc, ?Ho; assumption);
    try (right; right; rewrite ?Hi, ?Hf, ?Hc, ?Ho; reflexivity);
    try (rewrite ?Ei, ?Ef, ?Ec, ?Eo, ?Hi, ?Hf, ?Hc, ?Ho; assumption).
  f_equal. rewrite !map2_map_map. apply map_ext. intros sample.
  rewrite !map2_map_map. reflexivity.
Qed.

End LstmProjections.

(** X23.  For an [LSTM] with a bias whose input dropout is off and whose
    weights have the shapes [build] gives them, [call] returns the same in
    [implementation=0], where [preprocess_input] projects the whole input
    four times and concatenates and the step slices its input, as in
    [implementation=1], where the step multiplies each time slice by the four
    slices of the kernel and adds the slices of the bias. *)
Theorem lstm_precomputed_projections :
  forall (self : LSTM.t) (s : K.session) (inputs : call_inputs)
         (mask : call_mask) (training : option bool)
         (initial_state : option (list pyobj)) (b : vec) (len dim : nat),
    in_unit_interval (LSTM.dropout self) = false ->
    0 < len -> 0 < dim -> 0 < LSTM.units self ->
    Dense.well_shaped len dim (K.value (input_tensor inputs)) ->
    K.ncols (LSTM.kernel self) = 4 * LSTM.units self ->
    LSTM.use_bias self = true ->
    LSTM.bias self = Some b ->
    length b = 4 * LSTM.units self ->
    length (Recurrent.states (LSTM.attrs self)) = 2 ->
    call (Modes.lstm self 0) s inputs mask training initial_state
    = call (Modes.lstm self 1) s inputs mask training initial_state.
Proof.
  intros self s inputs mask training initial_state b len dim Hd Hlen Hdim HU
         Hx Hk Huse Hb Hbl Htwo.
  unfold call.
  change (initial_state_of (Modes.lstm self 0) inputs initial_state)
    with (initial_state_of (Modes.lstm self 1) inputs initial_state).
  set (init := initial_state_of (Modes.lstm self 1) inputs initial_state).
  change (states (base (Modes.lstm self 0)))
    with (Recurrent.states (LSTM.attrs self)).
  change (states (base (Modes.lstm self 1)))
    with (Recurrent.states (LSTM.attrs self)).
  rewrite Htwo.
  destruct (length init =? 2) eqn:Einit; [|reflexivity].
  apply Nat.eqb_eq in Einit. cbn [negb].
  set (x := input_tensor inputs) in *.
  unfold scan_and_return, constants_and_input.
  cbn [base LSTM.layer Modes.lstm LSTM.attrs Modes.set_implementation unroll
       go_backwards stateful states return_state return_sequences
       get_constants preprocess_input step].
  destruct (unroll (LSTM.attrs self) && negb (K.time_defined x));
    [reflexivity|].
  fold (Modes.lstm self 0). fold (Modes.lstm self 1).
  assert (Hc : exists rdp s',
             LSTM.get_constants (Modes.lstm self 0) s x None
             = ([PyList (repeat Constants.one 4); rdp], s')
             /\ LSTM.get_constants (Modes.lstm self 1) s x None
                = ([PyList (repeat Constants.one 4); rdp], s')).
  { unfold LSTM.get_constants.
    change (LSTM.implementation (Modes.lstm self 0)) with 0.
    change (LSTM.implementation (Modes.lstm self 1)) with 1.
    change (LSTM.dropout (Modes.lstm self 1)) with (LSTM.dropout self).
    change (LSTM.recurrent_dropout (Modes.lstm self 0))
      with (LSTM.recurrent_dropout self).
    change (LSTM.recurrent_dropout (Modes.lstm self 1))
      with (LSTM.recurrent_dropout self).
    change (LSTM.units (Modes.lstm self 0)) with (LSTM.units self).
    change (LSTM.units (Modes.lstm self 1)) with (LSTM.units self).
    rewrite Hd. cbn [Nat.eqb negb andb].
    destruct (in_unit_interval (LSTM.recurrent_dropout self)).
    - destruct (Constants.dropout_masks 4 s _ (LSTM.recurrent_dropout self)
                                        None) as [rdp s'].
      exists (PyList rdp), s'. split; reflexivity.
    - eexists; eexists; split; reflexivity. }
  destruct Hc as (rdp & s' & -> & ->).
  rewrite (lstm_preprocessed self HU Hk Huse b Hb Hbl Hd s' x None len dim
             Hlen Hdim Hx).
  change (LSTM.preprocess_input (Modes.lstm self 1) s' x None)
    with (K.value x, s').
  cbv beta iota.
  rewrite (rnn_projected_on (LSTM.step (Modes.lstm self 0))
             (LSTM.step (Modes.lstm self 1)) (Dense.lstm_projections self)
             (K.value x) len init
             [PyList (repeat Constants.one 4); rdp] _ _ _ _
             (fun st => length st = 2)).
  - reflexivity.
  - eapply Forall_impl; [|exact Hx]. intros sample [Hs _]. exact Hs.
  - intros m [|h0 [|c0 [|? ?]]] Hst; try discriminate Hst.
    cbn [app]. unfold LSTM.step.
    rewrite (lstm_gates_projected self HU Hk Huse b Hb Hbl m h0 c0 rdp []).
    reflexivity.
  - intros m st o ns Hst E.
    pose proof (lstm_step_two_states _ _ _ _ _ E) as Hn.
    split; [exact Hn|]. intros mt. rewrite length_map2, Hn, Hst. reflexivity.
  - exact Einit.
Qed.

(** The theorem on a layer of one unit and a sequence of two timesteps. *)
Lemma lstm_precomputed_projections_witness :
  call (Modes.lstm Layers.lstm 0) Examples.session0
       (InTensor Examples.two_steps) NoMask None None
  = call (Modes.lstm Layers.lstm 1) Examples.session0
         (InTensor Examples.two_steps) NoMask None None.
Proof.
  apply (lstm_precomputed_projections Layers.lstm Examples.session0
           (InTensor Examples.two_steps) NoMask None None
           [0%R; 0%R; 0%R; 0%R] 2 1).
  - apply in_unit_interval_0.
  - lia.
  - lia.
  - unfold LSTM.units; simpl; lia.
  - repeat constructor.
  - reflexivity.
  - reflexivity.
  - reflexivity.
  - reflexivity.
  - reflexivity.
Defined.

(** * The gates and the dropout masks, on operands of the layer's shapes *)

(** *** Shapes *)

Lemma times_masked (rows width : nat) (x : mat) (m : tensor) :
  Gates.mask_for rows width m -> times x m = Ok (Gates.masked x m).
Proof.
  destruct m; simpl; intros H; try reflexivity; contradiction.
Qed.

Lemma has_shape_map2 (f : R -> R -> R) (rows width : nat) (a b : mat) :
  has_shape rows width a -> has_shape rows width b ->
  has_shape rows width (map2 (map2 f) a b).
Proof.
  intros [Ha Hra] [Hb Hrb]. split.
  - rewrite length_map2, Ha, Hb. apply Nat.min_id.
  - clear Ha Hb. revert b Hrb.
    induction Hra as [|ra a Hr Hra IH]; intros [|rb b] Hrb; simpl;
      try constructor.
    + rewrite length_map2, Hr, (Forall_inv Hrb). apply Nat.min_id.
    + apply IH. eapply Forall_inv_tail. exact Hrb.
Qed.

Lemma has_shape_mmul (rows width : nat) (a b : mat) :
  has_shape rows width a -> has_shape rows width b ->
  has_shape rows width (mmul a b).
Proof. apply has_shape_map2. Qed.

Lemma has_shape_mmap (f : R -> R) (rows width : nat) (a : mat) :
  has_shape rows width a -> has_shape rows width (mmap f a).
Proof.
  intros [Ha Hra]. unfold mmap. split; [rewrite length_map; exact Ha|].
  rewrite Forall_map. eapply Forall_impl; [|exact Hra].
  intros row Hrow. cbv beta. rewrite length_map. exact Hrow.
Qed.

Lemma has_shape_masked (rows width : nat) (x : mat) (m : tensor) :
  Gates.mask_for rows width m -> has_shape rows width x ->
  has_shape rows width (Gates.masked x m).
Proof.
  destruct m; simpl; intros Hm Hx; try contradiction.
  - apply has_shape_mmap. exact Hx.
  - apply has_shape_mmul; assumption.
Qed.

Lemma has_shape_cols (rows width a b : nat) (m : mat) :
  has_shape rows width m -> b <= width ->
  has_shape rows (b - a) (cols a b m).
Proof.
  intros [Hl Hr] Hb. unfold cols. split; [rewrite length_map; exact Hl|].
  rewrite Forall_map. eapply Forall_impl; [|exact Hr].
  intros row Hrow. cbv beta. rewrite length_firstn, length_skipn, Hrow. lia.
Qed.

Lemma has_shape_cols_from (rows width a : nat) (m : mat) :
  has_shape rows width m -> has_shape rows (width - a) (cols_from a m).
Proof.
  intros [Hl Hr]. unfold cols_from. split; [rewrite length_map; exact Hl|].
  rewrite Forall_map. eapply Forall_impl; [|exact Hr].
  intros row Hrow. cbv beta. rewrite length_skipn, Hrow. reflexivity.
Qed.

Lemma ncols_shape (rows width : nat) (w : mat) :
  has_shape rows width w -> 0 < rows -> K.ncols w = width.
Proof.
  intros [Hl Hr] Hpos. unfold K.ncols.
  destruct w as [|row w]; [simpl in Hl; lia|].
  apply Forall_inv in Hr. exact Hr.
Qed.

Lemma has_shape_product (rows inner width : nat) (x w : mat) :
  has_shape rows inner x -> has_shape inner width w -> 0 < inner ->
  has_shape rows width (K.dot x w).
Proof.
  intros [Hx _] Hw Hpos.
  rewrite <- Hx, <- (ncols_shape inner width w Hw Hpos).
  apply has_shape_dot.
Qed.

Lemma has_shape_with_bias (rows width : nat) (m : mat) (b : option vec) :
  has_shape rows width m ->
  match b with Some b' => length b' = width | None => True end ->
  has_shape rows width (Gates.with_bias m b).
Proof.
  destruct b as [b'|]; simpl; intros Hm Hb; [|exact Hm].
  apply has_shape_bias_add; assumption.
Qed.

Lemma entry_in_shape (rows width : nat) (m : mat) (i k : nat) :
  has_shape rows width m -> i < rows -> k < width ->
  exists v, entry m i k = Some v.
Proof.
  intros [Hl Hr] Hi Hk. unfold entry.
  destruct (nth_error m i) as [row|] eqn:E.
  - assert (Hrow : length row = width).
    { rewrite Forall_forall in Hr. apply Hr.
      eapply nth_error_In. exact E. }
    destruct (nth_error row k) as [v|] eqn:Ev; [eauto|].
    apply nth_error_None in Ev. lia.
  - apply nth_error_None in E. lia.
Qed.

(** *** The steps of [GRU] and [LSTM] compute the gates *)

Lemma gru_gates_written_out (self : GRU.t) (x h : mat)
    (d0 d1 d2 r0 r1 r2 : tensor) (rows wx wh : nat) :
  GRU.implementation self <= 2 ->
  (GRU.use_bias self = true -> exists b, GRU.bias self = Some b) ->
  Forall (Gates.mask_for rows wx) [d0; d1; d2] ->
  Forall (Gates.mask_for rows wh) [r0; r1; r2] ->
  GRU.gates self x
            [Tensor (T2 h); PyList [d0; d1; d2]; PyList [r0; r1; r2]]
  = Ok (h, Gates.gru_z self [d0; d1; d2] [r0; r1; r2] x h,
        Gates.gru_hh self [d0; d1; d2] [r0; r1; r2] x h).
Proof.
  intros Himpl Hbias Hd Hr.
  inversion Hd as [|? ? Hd0 Hd']; subst.
  inversion Hd' as [|? ? Hd1 Hd'']; subst.
  inversion Hd'' as [|? ? Hd2 _]; subst.
  inversion Hr as [|? ? Hr0 Hr']; subst.
  inversion Hr' as [|? ? Hr1 Hr'']; subst.
  inversion Hr'' as [|? ? Hr2 _]; subst.
  unfold GRU.gates, Gates.gru_hh, Gates.gru_r, Gates.gru_z.
  cbn [item nth_error as_mat Py.bind mask_item].
  destruct (GRU.implementation self) as [|[|[|n]]] eqn:Emode; [| | |lia];
    cbn [Nat.eqb Gates.input_part Gates.mask_of_gate nth];
    rewrite ?(times_masked rows wx x _ Hd0), ?(times_masked rows wx x _ Hd1),
      ?(times_masked rows wx x _ Hd2), ?(times_masked rows wh h _ Hr0),
      ?(times_masked rows wh h _ Hr1);
    cbn [Py.bind].
  - rewrite (times_masked rows wh _ _ Hr2). reflexivity.
  - unfold GRU.bias_z, GRU.bias_r, GRU.bias_h, GRU.bias_slice.
    destruct (GRU.use_bias self) eqn:Eb.
    + destruct (Hbias eq_refl) as [b ->].
      cbn [plus_bias option_map Py.bind Gates.with_bias].
      rewrite (times_masked rows wh _ _ Hr2). reflexivity.
    + cbn [Py.bind Gates.with_bias].
      rewrite (times_masked rows wh _ _ Hr2). reflexivity.
  - unfold GRU.kernel_z, GRU.kernel_r, GRU.kernel_h, GRU.recurrent_kernel_z,
      GRU.recurrent_kernel_r, GRU.recurrent_kernel_h, GRU.bias_z, GRU.bias_r,
      GRU.bias_h, GRU.bias_slice, bias_if.
    rewrite !(Nat.mul_comm (GRU.units self) 2).
    set (u := GRU.units self).
    destruct (GRU.use_bias self) eqn:Eb.
    + destruct (Hbias eq_refl) as [b ->].
      cbn [plus_bias option_map Py.bind Gates.with_bias].
      rewrite !bias_add_cols, bias_add_cols_from, !dot_cols, dot_cols_from,
        Nat.sub_0_r, !cols_of_cols by lia.
      cbn [skipn].
      rewrite (times_masked rows wh _ _ Hr0). reflexivity.
    + cbn [Py.bind Gates.with_bias].
      rewrite !dot_cols, dot_cols_from, !cols_of_cols by lia.
      rewrite (times_masked rows wh _ _ Hr0). reflexivity.
Qed.

Lemma lstm_gates_written_out (self : LSTM.t) (x h c : mat)
    (d0 d1 d2 d3 r0 r1 r2 r3 : tensor) (rows wx wh : nat) :
  LSTM.implementation self <= 2 ->
  (LSTM.use_bias self = true -> exists b, LSTM.bias self = Some b) ->
  (LSTM.implementation self = 1 -> LSTM.use_bias self = true) ->
  Forall (Gates.mask_for rows wx) [d0; d1; d2; d3] ->
  Forall (Gates.mask_for rows wh) [r0; r1; r2; r3] ->
  let dp := [d0; d1; d2; d3] in
  let rdp := [r0; r1; r2; r3] in
  LSTM.gates self x [Tensor (T2 h); Tensor (T2 c); PyList dp; PyList rdp]
  = Ok (c, Gates.lstm_i self dp rdp x h, Gates.lstm_f self dp rdp x h,
        Gates.lstm_candidate self dp rdp x h, Gates.lstm_o self dp rdp x h).
Proof.
  intros Himpl Hbias Hb1 Hd Hr dp rdp. subst dp rdp.
  inversion Hd as [|? ? Hd0 Hd']; subst.
  inversion Hd' as [|? ? Hd1 Hd'']; subst.
  inversion Hd'' as [|? ? Hd2 Hd''']; subst.
  inversion Hd''' as [|? ? Hd3 _]; subst.
  inversion Hr as [|? ? Hr0 Hr']; subst.
  inversion Hr' as [|? ? Hr1 Hr'']; subst.
  inversion Hr'' as [|? ? Hr2 Hr''']; subst.
  inversion Hr''' as [|? ? Hr3 _]; subst.
  unfold LSTM.gates, Gates.lstm_i, Gates.lstm_f, Gates.lstm_candidate,
    Gates.lstm_o, Gates.lstm_sum.
  cbn [item nth_error as_mat Py.bind mask_item].
  destruct (LSTM.implementation self) as [|[|[|n]]] eqn:Emode; [| | |lia];
    cbn [Nat.eqb Gates.mask_of_gate nth];
    rewrite ?(times_masked rows wx x _ Hd0), ?(times_masked rows wx x _ Hd1),
      ?(times_masked rows wx x _ Hd2), ?(times_masked rows wx x _ Hd3),
      ?(times_masked rows wh h _ Hr0), ?(times_masked rows wh h _ Hr1),
      ?(times_masked rows wh h _ Hr2), ?(times_masked rows wh h _ Hr3);
    cbn [Py.bind].
  - reflexivity.
  - unfold LSTM.bias_i, LSTM.bias_f, LSTM.bias_c, LSTM.bias_o,
      LSTM.bias_slice.
    rewrite (Hb1 eq_refl). destruct (Hbias (Hb1 eq_refl)) as [b ->].
    cbn [plus_bias option_map Py.bind Gates.with_bias]. reflexivity.
  - unfold LSTM.kernel_i, LSTM.kernel_f, LSTM.kernel_c, LSTM.kernel_o,
      LSTM.recurrent_kernel_i, LSTM.recurrent_kernel_f,
      LSTM.recurrent_kernel_c, LSTM.recurrent_kernel_o,
      LSTM.bias_i, LSTM.bias_f, LSTM.bias_c, LSTM.bias_o, LSTM.bias_slice,
      bias_if.
    rewrite !(Nat.mul_comm (LSTM.units self) 2),
      !(Nat.mul_comm (LSTM.units self) 3).
    set (u := LSTM.units self).
    destruct (LSTM.use_bias self) eqn:Eb.
    + destruct (Hbias eq_refl) as [b ->].
      cbn [plus_bias option_map Py.bind Gates.with_bias].
      rewrite !bias_add_cols, bias_add_cols_from, !madd_cols, madd_cols_from,
        !dot_cols, !dot_cols_from, Nat.sub_0_r.
      reflexivity.
    + cbn [Py.bind Gates.with_bias].
      rewrite !madd_cols, madd_cols_from, !dot_cols, !dot_cols_from.
      reflexivity.
Qed.

Lemma has_shape_width (rows width width' : nat) (m : mat) :
  has_shape rows width m -> width = width' -> has_shape rows width' m.
Proof. intros H <-. exact H. Qed.

Lemma input_part_shape (mode gates : nat) (slice : mat -> mat) (w : mat)
    (b : option vec) (mask : tensor) (x : mat)
    (samples input_dim units : nat) :
  has_shape samples (Gates.input_width mode input_dim units gates) x ->
  (has_shape samples (gates * units) x -> has_shape samples units (slice x)) ->
  0 < input_dim ->
  has_shape input_dim units w ->
  match b with Some b' => length b' = units | None => True end ->
  Gates.mask_for samples input_dim mask ->
  has_shape samples units (Gates.input_part mode slice w b mask x).
Proof.
  intros Hx Hslice Hdim Hw Hb Hm.
  destruct mode as [|mode]; cbn [Gates.input_part Gates.input_width] in *.
  - apply Hslice. exact Hx.
  - apply has_shape_with_bias; [|exact Hb].
    apply (has_shape_product samples input_dim units); try assumption.
    apply has_shape_masked; assumption.
Qed.

Lemma mask_of_gate_for (rows width mode g : nat) (masks : list tensor) :
  Forall (Gates.mask_for rows width) masks ->
  Gates.mask_for rows width (Gates.mask_of_gate mode g masks).
Proof.
  intros H. unfold Gates.mask_of_gate.
  set (k := match mode with 2 => 0 | _ => g end).
  destruct (nth_in_or_default k masks Constants.one) as [Hin | ->].
  - rewrite Forall_forall in H. apply H. exact Hin.
  - exact I.
Qed.

Section GruShapes.

Variable self : GRU.t.
Variables samples input_dim : nat.
Variables dp rdp : list tensor.
Variables x h : mat.

Hypothesis Hbuilt : Gates.gru_built self input_dim.
Hypothesis Hact : Gates.keeps_shape (GRU.activation self) samples
                                    (GRU.units self).
Hypothesis Hract : Gates.keeps_shape (GRU.recurrent_activation self) samples
                                     (GRU.units self).
Hypothesis Hdp : Forall (Gates.mask_for samples input_dim) dp.
Hypothesis Hrdp : Forall (Gates.mask_for samples (GRU.units self)) rdp.
Hypothesis Hx :
  has_shape samples
            (Gates.input_width (GRU.implementation self) input_dim
                               (GRU.units self) 3) x.
Hypothesis Hh : has_shape samples (GRU.units self) h.

Lemma gru_kernel_slices :
  has_shape input_dim (GRU.units self) (GRU.kernel_z self)
  /\ has_shape input_dim (GRU.units self) (GRU.kernel_r self)
  /\ has_shape input_dim (GRU.units self) (GRU.kernel_h self)
  /\ has_shape (GRU.units self) (GRU.units self) (GRU.recurrent_kernel_z self)
  /\ has_shape (GRU.units self) (GRU.units self) (GRU.recurrent_kernel_r self)
  /\ has_shape (GRU.units self) (GRU.units self)
               (GRU.recurrent_kernel_h self).
Proof.
  destruct Hbuilt as (_ & _ & Hk & Hrk & _).
  unfold GRU.kernel_z, GRU.kernel_r, GRU.kernel_h, GRU.recurrent_kernel_z,
    GRU.recurrent_kernel_r, GRU.recurrent_kernel_h.
  split; [|split; [|split; [|split; [|split]]]];
    (eapply has_shape_width;
     [first [eapply has_shape_cols; [eassumption|lia]
            |eapply has_shape_cols_from; eassumption]
     |lia]).
Qed.

Lemma gru_bias_slices_length :
  match GRU.bias_z self with
  | Some b => length b = GRU.units self
  | None => True
  end
  /\ match GRU.bias_r self with
     | Some b => length b = GRU.units self
     | None => True
     end
  /\ match GRU.bias_h self with
     | Some b => length b = GRU.units self
     | None => True
     end.
Proof.
  destruct Hbuilt as (_ & _ & _ & _ & Hb).
  unfold GRU.bias_z, GRU.bias_r, GRU.bias_h, GRU.bias_slice.
  destruct (GRU.use_bias self); [|auto].
  destruct (Hb eq_refl) as (b & -> & Hl). cbn [option_map].
  rewrite ?length_firstn, ?length_skipn, Hl.
  split; [|split]; lia.
Qed.

Lemma gru_slices_of_input :
  (has_shape samples (3 * GRU.units self) x ->
   has_shape samples (GRU.units self) (cols 0 (GRU.units self) x))
  /\ (has_shape samples (3 * GRU.units self) x ->
      has_shape samples (GRU.units self)
                (cols (GRU.units self) (2 * GRU.units self) x))
  /\ (has_shape samples (3 * GRU.units self) x ->
      has_shape samples (GRU.units self)
                (cols_from (2 * GRU.units self) x)).
Proof.
  split; [|split]; intros H;
    (eapply has_shape_width;
     [first [eapply has_shape_cols; [eassumption|lia]
            |eapply has_shape_cols_from; eassumption]
     |lia]).
Qed.

Lemma gru_z_shape :
  has_shape samples (GRU.units self) (Gates.gru_z self dp rdp x h).
Proof.
  destruct gru_kernel_slices as (Hkz & Hkr & Hkh & Huz & Hur & Huh).
  destruct gru_bias_slices_length as (Hbz & Hbr & Hbh).
  destruct gru_slices_of_input as (Hsz & Hsr & Hsh).
  destruct Hbuilt as (Hdim & Hu & _).
  unfold Gates.gru_z. apply Hract. apply has_shape_madd.
  - apply (input_part_shape _ 3 _ _ _ _ _ samples input_dim);
      try assumption.
    apply mask_of_gate_for. exact Hdp.
  - apply (has_shape_product samples (GRU.units self)); try assumption.
    apply has_shape_masked; [|exact Hh].
    apply mask_of_gate_for. exact Hrdp.
Qed.

Lemma gru_r_shape :
  has_shape samples (GRU.units self) (Gates.gru_r self dp rdp x h).
Proof.
  destruct gru_kernel_slices as (Hkz & Hkr & Hkh & Huz & Hur & Huh).
  destruct gru_bias_slices_length as (Hbz & Hbr & Hbh).
  destruct gru_slices_of_input as (Hsz & Hsr & Hsh).
  destruct Hbuilt as (Hdim & Hu & _).
  unfold Gates.gru_r. apply Hract. apply has_shape_madd.
  - apply (input_part_shape _ 3 _ _ _ _ _ samples input_dim);
      try assumption.
    apply mask_of_gate_for. exact Hdp.
  - apply (has_shape_product samples (GRU.units self)); try assumption.
    apply has_shape_masked; [|exact Hh].
    apply mask_of_gate_for. exact Hrdp.
Qed.

Lemma gru_hh_shape :
  has_shape samples (GRU.units self) (Gates.gru_hh self dp rdp x h).
Proof.
  destruct gru_kernel_slices as (Hkz & Hkr & Hkh & Huz & Hur & Huh).
  destruct gru_bias_slices_length as (Hbz & Hbr & Hbh).
  destruct gru_slices_of_input as (Hsz & Hsr & Hsh).
  pose proof gru_r_shape as Hr.
  destruct Hbuilt as (Hdim & Hu & _).
  unfold Gates.gru_hh. apply Hact. apply has_shape_madd.
  - apply (input_part_shape _ 3 _ _ _ _ _ samples input_dim);
      try assumption.
    apply mask_of_gate_for. exact Hdp.
  - apply (has_shape_product samples (GRU.units self)); try assumption.
    apply has_shape_masked.
    + apply mask_of_gate_for. exact Hrdp.
    + apply has_shape_mmul; assumption.
Qed.

Lemma gru_state_shape :
  has_shape samples (GRU.units self) (Gates.gru self dp rdp x h).
Proof.
  unfold Gates.gru. apply has_shape_madd.
  - apply has_shape_mmul; [apply gru_z_shape|exact Hh].
  - apply has_shape_mmul; [|apply gru_hh_shape].
    apply has_shape_mmap. apply gru_z_shape.
Qed.

End GruShapes.

Section LstmShapes.

Variable self : LSTM.t.
Variables samples input_dim : nat.
Variables dp rdp : list tensor.
Variables x h c : mat.

Hypothesis Hbuilt : Gates.lstm_built self input_dim.
Hypothesis Hact : Gates.keeps_shape (LSTM.activation self) samples
                                    (LSTM.units self).
Hypothesis Hract : Gates.keeps_shape (LSTM.recurrent_activation self) samples
                                     (LSTM.units self).
Hypothesis Hdp : Forall (Gates.mask_for samples input_dim) dp.
Hypothesis Hrdp : Forall (Gates.mask_for samples (LSTM.units self)) rdp.
Hypothesis Hx :
  has_shape samples
            (Gates.input_width (LSTM.implementation self) input_dim
                               (LSTM.units self) 4) x.
Hypothesis Hh : has_shape samples (LSTM.units self) h.
Hypothesis Hc : has_shape samples (LSTM.units self) c.

Lemma lstm_sum_shape (g : nat) (slice : mat -> mat) (w u : mat)
    (b : option vec) :
  (has_shape samples (4 * LSTM.units self) x ->
   has_shape samples (LSTM.units self) (slice x)) ->
  has_shape input_dim (LSTM.units self) w ->
  has_shape (LSTM.units self) (LSTM.units self) u ->
  match b with Some b' => length b' = LSTM.units self | None => True end ->
  has_shape samples (LSTM.units self)
            (Gates.lstm_sum self g slice w u b dp rdp x h).
Proof.
  intros Hslice Hw Hu Hb.
  destruct Hbuilt as (Hdim & Hunits & _).
  assert (Hstate : has_shape samples (LSTM.units self)
                     (K.dot (Gates.masked h
                               (Gates.mask_of_gate (LSTM.implementation self)
                                                   g rdp)) u)).
  { apply (has_shape_product samples (LSTM.units self)); try assumption.
    apply has_shape_masked; [|exact Hh].
    apply mask_of_gate_for. exact Hrdp. }
  unfold Gates.lstm_sum.
  destruct (LSTM.implementation self) as [|[|n]];
    cbn [Gates.input_width] in *.
  - apply has_shape_madd; [apply Hslice; exact Hx|exact Hstate].
  - apply has_shape_madd; [|exact Hstate].
    apply has_shape_with_bias; [|exact Hb].
    apply (has_shape_product samples input_dim); try assumption.
    apply has_shape_masked; [|exact Hx].
    apply mask_of_gate_for. exact Hdp.
  - apply has_shape_with_bias; [|exact Hb].
    apply has_shape_madd; [|exact Hstate].
    apply (has_shape_product samples input_dim); try assumption.
    apply has_shape_masked; [|exact Hx].
    apply mask_of_gate_for. exact Hdp.
Qed.

Lemma lstm_kernel_slices :
  has_shape input_dim (LSTM.units self) (LSTM.kernel_i self)
  /\ has_shape input_dim (LSTM.units self) (LSTM.kernel_f self)
  /\ has_shape input_dim (LSTM.units self) (LSTM.kernel_c self)
  /\ has_shape input_dim (LSTM.units self) (LSTM.kernel_o self)
  /\ has_shape (LSTM.units self) (LSTM.units self)
               (LSTM.recurrent_kernel_i self)
  /\ has_shape (LSTM.units self) (LSTM.units self)
               (LSTM.recurrent_kernel_f self)
  /\ has_shape (LSTM.units self) (LSTM.units self)
               (LSTM.recurrent_kernel_c self)
  /\ has_shape (LSTM.units self) (LSTM.units self)
               (LSTM.recurrent_kernel_o self).
Proof.
  destruct Hbuilt as (_ & _ & Hk & Hrk & _).
  unfold LSTM.kernel_i, LSTM.kernel_f, LSTM.kernel_c, LSTM.kernel_o,
    LSTM.recurrent_kernel_i, LSTM.recurrent_kernel_f,
    LSTM.recurrent_kernel_c, LSTM.recurrent_kernel_o.
  split; [|split; [|split; [|split; [|split; [|split; [|split]]]]]];
    (eapply has_shape_width;
     [first [eapply has_shape_cols; [eassumption|lia]
            |eapply has_shape_cols_from; eassumption]
     |lia]).
Qed.

Lemma lstm_bias_slices_length :
  match LSTM.bias_i self with
  | Some b => length b = LSTM.units self
  | None => True
  end
  /\ match LSTM.bias_f self with
     | Some b => length b = LSTM.units self
     | None => True
     end
  /\ match LSTM.bias_c self with
     | Some b => length b = LSTM.units self
     | None => True
     end
  /\ match LSTM.bias_o self with
     | Some b => length b = LSTM.units self
     | None => True
     end.
Proof.
  destruct Hbuilt as (_ & _ & _ & _ & Hb).
  unfold LSTM.bias_i, LSTM.bias_f, LSTM.bias_c, LSTM.bias_o, LSTM.bias_slice.
  destruct (LSTM.use_bias self); [|auto].
  destruct (Hb eq_refl) as (b & -> & Hl). cbn [option_map].
  rewrite ?length_firstn, ?length_skipn, Hl.
  split; [|split; [|split]]; lia.
Qed.

Lemma lstm_slices_of_input :
  (has_shape samples (4 * LSTM.units self) x ->
   has_shape samples (LSTM.units self) (cols 0 (LSTM.units self) x))
  /\ (has_shape samples (4 * LSTM.units self) x ->
      has_shape samples (LSTM.units self)
                (cols (LSTM.units self) (2 * LSTM.units self) x))
  /\ (has_shape samples (4 * LSTM.units self) x ->
      has_shape samples (LSTM.units self)
                (cols (2 * LSTM.units self) (3 * LSTM.units self) x))
  /\ (has_shape samples (4 * LSTM.units self) x ->
      has_shape samples (LSTM.units self)
                (cols_from (3 * LSTM.units self) x)).
Proof.
  split; [|split; [|split]]; intros H;
    (eapply has_shape_width;
     [first [eapply has_shape_cols; [eassumption|lia]
            |eapply has_shape_cols_from; eassumption]
     |lia]).
Qed.

Lemma lstm_gates_shape :
  has_shape samples (LSTM.units self) (Gates.lstm_i self dp rdp x h)
  /\ has_shape samples (LSTM.units self) (Gates.lstm_f self dp rdp x h)
  /\ has_shape samples (LSTM.units self)
               (Gates.lstm_candidate self dp rdp x h)
  /\ has_shape samples (LSTM.units self) (Gates.lstm_o self dp rdp x h).
Proof.
  destruct lstm_kernel_slices
    as (Hki & Hkf & Hkc & Hko & Hui & Huf & Huc & Huo).
  destruct lstm_bias_slices_length as (Hbi & Hbf & Hbc & Hbo).
  destruct lstm_slices_of_input as (Hsi & Hsf & Hsc & Hso).
  unfold Gates.lstm_i, Gates.lstm_f, Gates.lstm_candidate, Gates.lstm_o.
  split; [|split; [|split]];
    first [apply Hract | apply Hact]; apply lstm_sum_shape; assumption.
Qed.

Lemma lstm_c_shape :
  has_shape samples (LSTM.units self) (Gates.lstm_c self dp rdp x h c).
Proof.
  destruct lstm_gates_shape as (Hi & Hf & Hg & Ho).
  unfold Gates.lstm_c. apply has_shape_madd; apply has_shape_mmul;
    assumption.
Qed.

Lemma lstm_h_shape :
  has_shape samples (LSTM.units self) (Gates.lstm_h self dp rdp x h c).
Proof.
  destruct lstm_gates_shape as (Hi & Hf & Hg & Ho).
  unfold Gates.lstm_h. apply has_shape_mmul; [exact Ho|].
  apply Hact. apply lstm_c_shape.
Qed.

End LstmShapes.

(** *** C4: the gates of [GRU] and [LSTM] *)

Lemma three_masks (l : list tensor) :
  length l = 3 -> exists a b c, l = [a; b; c].
Proof.
  destruct l as [|a [|b [|c [|d l]]]]; try discriminate. eauto.
Qed.

Lemma four_masks (l : list tensor) :
  length l = 4 -> exists a b c d, l = [a; b; c; d].
Proof.
  destruct l as [|a [|b [|c [|d [|e l]]]]]; try discriminate. eauto.
Qed.

Lemma gru_step_written_out (self : GRU.t) (x h : mat) (dp rdp : list tensor)
    (samples input_dim : nat) :
  GRU.implementation self <= 2 ->
  Gates.gru_built self input_dim ->
  length dp = 3 -> length rdp = 3 ->
  Forall (Gates.mask_for samples input_dim) dp ->
  Forall (Gates.mask_for samples (GRU.units self)) rdp ->
  GRU.step self x [Tensor (T2 h); PyList dp; PyList rdp]
  = Ok (Gates.gru self dp rdp x h, [Tensor (T2 (Gates.gru self dp rdp x h))]).
Proof.
  intros Himpl Hbuilt Hldp Hlrdp Hdp Hrdp.
  destruct (three_masks dp Hldp) as (d0 & d1 & d2 & ->).
  destruct (three_masks rdp Hlrdp) as (r0 & r1 & r2 & ->).
  unfold GRU.step.
  rewrite (gru_gates_written_out self x h d0 d1 d2 r0 r1 r2 samples input_dim
             (GRU.units self) Himpl); try assumption.
  - reflexivity.
  - intros Hb. destruct Hbuilt as (_ & _ & _ & _ & Hbias).
    destruct (Hbias Hb) as (b & Eb & _). eauto.
Qed.

Lemma lstm_step_written_out (self : LSTM.t) (x h c : mat)
    (dp rdp : list tensor) (samples input_dim : nat) :
  LSTM.implementation self <= 2 ->
  (LSTM.implementation self = 1 -> LSTM.use_bias self = true) ->
  Gates.lstm_built self input_dim ->
  length dp = 4 -> length rdp = 4 ->
  Forall (Gates.mask_for samples input_dim) dp ->
  Forall (Gates.mask_for samples (LSTM.units self)) rdp ->
  LSTM.step self x [Tensor (T2 h); Tensor (T2 c); PyList dp; PyList rdp]
  = Ok (Gates.lstm_h self dp rdp x h c,
        [Tensor (T2 (Gates.lstm_h self dp rdp x h c));
         Tensor (T2 (Gates.lstm_c self dp rdp x h c))]).
Proof.
  intros Himpl Hb1 Hbuilt Hldp Hlrdp Hdp Hrdp.
  destruct (four_masks dp Hldp) as (d0 & d1 & d2 & d3 & ->).
  destruct (four_masks rdp Hlrdp) as (r0 & r1 & r2 & r3 & ->).
  unfold LSTM.step.
  rewrite (lstm_gates_written_out self x h c d0 d1 d2 d3 r0 r1 r2 r3 samples
             input_dim (LSTM.units self) Himpl); try assumption.
  - reflexivity.
  - intros Hb. destruct Hbuilt as (_ & _ & _ & _ & Hbias).
    destruct (Hbias Hb) as (b & Eb & _). eauto.
Qed.

(** C4.  On operands of the shapes the layer gives them (an input of
    [samples] rows, a previous state of shape [(samples, units)], weights as
    [build] creates them, dropout constants that are the scalar 1 or masks of
    the shape of what they multiply), in the implementations 0, 1 and 2:
    [GRU.step] returns as output and as new state
    [z * h + (1 - z) * hh], where the update gate [z] is the recurrent
    activation of [x_z + (h * mask) . U_z] and the candidate [hh] the
    activation of [x_h + ((r * h) * mask) . U_h], both computed from the
    input and the previous state; [LSTM.step] returns the new cell state
    [f * c + i * candidate] and the output [o * activation(c')], where the
    gates [i], [f], [o] are the recurrent activation, and the candidate the
    activation, of the sum of the contributions of the input, of the
    previous state and of the bias.  Component by component, a GRU gate value
    in [[0, 1]] puts the new state between the previous state and the
    candidate, the gate value [1] keeps the previous state and the gate
    value [0] takes the candidate. *)
Theorem gated_state_updates :
  (forall (self : GRU.t) (x h : mat) (dp rdp : list tensor)
          (samples input_dim : nat),
      GRU.implementation self <= 2 ->
      Gates.gru_built self input_dim ->
      Gates.keeps_shape (GRU.activation self) samples (GRU.units self) ->
      Gates.keeps_shape (GRU.recurrent_activation self) samples
                        (GRU.units self) ->
      length dp = 3 -> length rdp = 3 ->
      Forall (Gates.mask_for samples input_dim) dp ->
      Forall (Gates.mask_for samples (GRU.units self)) rdp ->
      has_shape samples
                (Gates.input_width (GRU.implementation self) input_dim
                                   (GRU.units self) 3) x ->
      has_shape samples (GRU.units self) h ->
      let z := Gates.gru_z self dp rdp x h in
      let hh := Gates.gru_hh self dp rdp x h in
      let h' := madd (mmul z h) (mmul (one_minus z) hh) in
      GRU.step self x [Tensor (T2 h); PyList dp; PyList rdp]
      = Ok (h', [Tensor (T2 h')])
      /\ has_shape samples (GRU.units self) z
      /\ has_shape samples (GRU.units self) hh
      /\ has_shape samples (GRU.units self) h'
      /\ forall i k,
           i < samples -> k < GRU.units self ->
           exists zv pv cv,
             entry z i k = Some zv
             /\ entry h i k = Some pv
             /\ entry hh i k = Some cv
             /\ entry h' i k = Some (zv * pv + (1 - zv) * cv)%R
             /\ ((0 <= zv <= 1)%R ->
                 (Rmin pv cv <= zv * pv + (1 - zv) * cv <= Rmax pv cv)%R)
             /\ (zv = 1%R -> (zv * pv + (1 - zv) * cv)%R = pv)
             /\ (zv = 0%R -> (zv * pv + (1 - zv) * cv)%R = cv))
  /\ (forall (self : LSTM.t) (x h c : mat) (dp rdp : list tensor)
             (samples input_dim : nat),
         LSTM.implementation self <= 2 ->
         (LSTM.implementation self = 1 -> LSTM.use_bias self = true) ->
         Gates.lstm_built self input_dim ->
         Gates.keeps_shape (LSTM.activation self) samples (LSTM.units self) ->
         Gates.keeps_shape (LSTM.recurrent_activation self) samples
                           (LSTM.units self) ->
         length dp = 4 -> length rdp = 4 ->
         Forall (Gates.mask_for samples input_dim) dp ->
         Forall (Gates.mask_for samples (LSTM.units self)) rdp ->
         has_shape samples
                   (Gates.input_width (LSTM.implementation self) input_dim
                                      (LSTM.units self) 4) x ->
         has_shape samples (LSTM.units self) h ->
         has_shape samples (LSTM.units self) c ->
         let i := Gates.lstm_i self dp rdp x h in
         let f := Gates.lstm_f self dp rdp x h in
         let candidate := Gates.lstm_candidate self dp rdp x h in
         let o := Gates.lstm_o self dp rdp x h in
         let c' := madd (mmul f c) (mmul i candidate) in
         let h' := mmul o (LSTM.activation self c') in
         LSTM.step self x
                   [Tensor (T2 h); Tensor (T2 c); PyList dp; PyList rdp]
         = Ok (h', [Tensor (T2 h'); Tensor (T2 c')])
         /\ has_shape samples (LSTM.units self) i
         /\ has_shape samples (LSTM.units self) f
         /\ has_shape samples (LSTM.units self) candidate
         /\ has_shape samples (LSTM.units self) c'
         /\ has_shape samples (LSTM.units self) h'
         /\ forall n k,
              n < samples -> k < LSTM.units self ->
              exists fv cv iv gv,
                entry f n k = Some fv
                /\ entry c n k = Some cv
                /\ entry i n k = Some iv
                /\ entry candidate n k = Some gv
                /\ entry c' n k = Some (fv * cv + iv * gv)%R).
Proof.
  split.
  - intros self x h dp rdp samples input_dim Himpl Hbuilt Hact Hract
           Hldp Hlrdp Hdp Hrdp Hx Hh z hh h'.
    pose proof (gru_z_shape self samples input_dim dp rdp x h Hbuilt Hract
                  Hdp Hrdp Hx Hh) as Hz.
    pose proof (gru_hh_shape self samples input_dim dp rdp x h Hbuilt Hact
                  Hract Hdp Hrdp Hx Hh) as Hhh.
    pose proof (gru_state_shape self samples input_dim dp rdp x h Hbuilt
                  Hact Hract Hdp Hrdp Hx Hh) as Hnew.
    split; [|split; [exact Hz|split; [exact Hhh|split; [exact Hnew|]]]].
    + apply (gru_step_written_out self x h dp rdp samples input_dim);
        assumption.
    + intros i k Hi Hk.
      destruct (entry_in_shape _ _ _ i k Hz Hi Hk) as [zv Ez].
      destruct (entry_in_shape _ _ _ i k Hh Hi Hk) as [pv Ep].
      destruct (entry_in_shape _ _ _ i k Hhh Hi Hk) as [cv Ec].
      exists zv, pv, cv. subst z hh h'.
      rewrite entry_gru_state, Ez, Ep, Ec.
      split; [reflexivity|]. split; [reflexivity|]. split; [reflexivity|].
      split; [reflexivity|]. split; [apply convex_between|].
      split; intros ->; lra.
  - intros self x h c dp rdp samples input_dim Himpl Hb1 Hbuilt Hact Hract
           Hldp Hlrdp Hdp Hrdp Hx Hh Hc i f candidate o c' h'.
    destruct (lstm_gates_shape self samples input_dim dp rdp x h Hbuilt Hact
                Hract Hdp Hrdp Hx Hh) as (Hi & Hf & Hg & Ho).
    pose proof (lstm_c_shape self samples input_dim dp rdp x h c Hbuilt Hact
                  Hract Hdp Hrdp Hx Hh Hc) as Hc'.
    pose proof (lstm_h_shape self samples input_dim dp rdp x h c Hbuilt Hact
                  Hract Hdp Hrdp Hx Hh Hc) as Hh'.
    split; [|split; [exact Hi|split; [exact Hf|split; [exact Hg|
             split; [exact Hc'|split; [exact Hh'|]]]]]].
    + apply (lstm_step_written_out self x h c dp rdp samples input_dim);
        assumption.
    + intros n k Hn Hk.
      destruct (entry_in_shape _ _ _ n k Hf Hn Hk) as [fv Ef].
      destruct (entry_in_shape _ _ _ n k Hc Hn Hk) as [cv Ec].
      destruct (entry_in_shape _ _ _ n k Hi Hn Hk) as [iv Ei].
      destruct (entry_in_shape _ _ _ n k Hg Hn Hk) as [gv Eg].
      exists fv, cv, iv, gv. subst i f candidate c'.
      rewrite entry_lstm_cell, Ef, Ec, Ei, Eg. repeat split; reflexivity.
Qed.

(** The theorem on a step of the sample [GRU] with previous state [3],
    gate input [1] and candidate input [5]. *)
Lemma gated_state_updates_witness :
  let dp := repeat Constants.one 3 in
  let z := Gates.gru_z Examples.gru dp dp [[1%R; 0%R; 5%R]] [[3%R]] in
  let hh := Gates.gru_hh Examples.gru dp dp [[1%R; 0%R; 5%R]] [[3%R]] in
  let h' := madd (mmul z [[3%R]]) (mmul (one_minus z) hh) in
  GRU.step Examples.gru [[1%R; 0%R; 5%R]]
           [Tensor (T2 [[3%R]]); PyList dp; PyList dp]
  = Ok (h', [Tensor (T2 h')])
  /\ has_shape 1 1 h'
  /\ exists zv pv cv,
       entry z 0 0 = Some zv
       /\ entry [[3%R]] 0 0 = Some pv
       /\ entry hh 0 0 = Some cv
       /\ entry h' 0 0 = Some (zv * pv + (1 - zv) * cv)%R
       /\ zv = 1%R /\ pv = 3%R /\ cv = 5%R.
Proof.
  intros dp z hh h'.
  assert (Hmask : Forall (Gates.mask_for 1 1) dp)
    by (repeat constructor).
  assert (Hkeep : Gates.keeps_shape (fun m : mat => m) 1 1)
    by (intros m Hm; exact Hm).
  destruct (proj1 gated_state_updates Examples.gru [[1%R; 0%R; 5%R]]
              [[3%R]] dp dp 1 1)
    as (Estep & _ & _ & Hshape & Hentries).
  - unfold GRU.implementation; simpl; lia.
  - unfold Gates.gru_built, GRU.units. simpl.
    split; [lia|]. split; [lia|].
    split; [split; [reflexivity|repeat constructor]|].
    split; [split; [reflexivity|repeat constructor]|].
    discriminate.
  - exact Hkeep.
  - exact Hkeep.
  - reflexivity.
  - reflexivity.
  - exact Hmask.
  - exact Hmask.
  - split; [reflexivity|repeat constructor].
  - split; [reflexivity|repeat constructor].
  - split; [exact Estep|]. split; [exact Hshape|].
    destruct (Hentries 0 0) as (zv & pv & cv & Ez & Ep & Ec & Eh & _).
    + lia.
    + unfold GRU.units; simpl; lia.
    + exists zv, pv, cv.
      split; [exact Ez|]. split; [exact Ep|]. split; [exact Ec|].
      split; [exact Eh|].
      injection Ez as <-. injection Ep as <-. injection Ec as <-.
      unfold K.inner, vmul, Rsum. simpl.
      split; [lra|]. split; [lra|lra].
Defined.

(** *** The masks [get_constants] draws *)






Lemma length_ones (rows width : nat) : length (ones rows width) = rows.
Proof. unfold ones. apply repeat_length. Qed.

Lemma has_shape_ones (rows width : nat) :
  has_shape rows width (ones rows width).
Proof.
  split; [apply length_ones|]. unfold ones.
  apply Forall_forall. intros row Hin. apply repeat_spec in Hin. subst row.
  apply repeat_length.
Qed.




(** *** The scan of a layer with one state *)






(** *** C5: one drawing of the dropout masks per call *)

Lemma well_shaped_n_dim (timesteps dim : nat) (c : cube) :
  0 < timesteps -> c <> [] -> Dense.well_shaped timesteps dim c ->
  n_dim c = dim /\ n_timesteps c = timesteps.
Proof.
  intros HT Hne Hc. unfold n_dim, n_timesteps.
  destruct c as [|sample c]; [contradiction|].
  apply Forall_inv in Hc. destruct Hc as [Hs Hv]. simpl.
  destruct sample as [|v sample]; [simpl in Hs; lia|].
  apply Forall_inv in Hv. simpl in *. auto.
Qed.





(** * The attention step, on operands of the layer's shapes *)

Lemma Forall_map2 {A B C : Type} (f : A -> B -> C) (P : A -> Prop)
    (Q : B -> Prop) (Q' : C -> Prop) :
  (forall a b, P a -> Q b -> Q' (f a b)) ->
  forall l l', Forall P l -> Forall Q l' -> Forall Q' (map2 f l l').
Proof.
  intros Hf l. induction l as [|a l IH]; intros [|b l'] Hl Hl'; simpl;
    constructor.
  - apply Hf; eapply Forall_inv; eassumption.
  - apply IH; eapply Forall_inv_tail; eassumption.
Qed.

Lemma nth_map2 {A B C : Type} (f : A -> B -> C) (l : list A) :
  forall (l' : list B) (i : nat) (d : C) (da : A) (db : B),
    i < length l -> i < length l' ->
    nth i (map2 f l l') d = f (nth i l da) (nth i l' db).
Proof.
  induction l as [|a l IH]; intros [|b l'] [|i] d da db Hl Hl'; simpl in *;
    try lia; [reflexivity|].
  apply IH; lia.
Qed.

Lemma nth_map_in {A B : Type} (f : A -> B) (l : list A) (i : nat) (d : B)
    (da : A) :
  i < length l -> nth i (map f l) d = f (nth i l da).
Proof.
  intros H. rewrite (nth_indep _ d (f da)) by (rewrite length_map; exact H).
  apply map_nth.
Qed.

Lemma row_length (rows width : nat) (m : mat) (i : nat) :
  has_shape rows width m -> i < rows -> length (nth i m []) = width.
Proof.
  intros [Hl Hr] Hi. rewrite Forall_forall in Hr. apply Hr.
  apply nth_In. lia.
Qed.

Lemma entry_nth (rows width : nat) (m : mat) (i k : nat) :
  has_shape rows width m -> i < rows -> k < width ->
  entry m i k = Some (nth k (nth i m []) 0%R).
Proof.
  intros Hm Hi Hk. pose proof (row_length rows width m i Hm Hi) as Hrow.
  destruct Hm as [Hl Hr]. unfold entry.
  rewrite (nth_error_nth' m []) by lia.
  apply nth_error_nth'. lia.
Qed.

Lemma sample_shape (samples positions width : nat) (c : cube) (i : nat) :
  Attend.has_shape3 samples positions width c -> i < samples ->
  has_shape positions width (nth i c []).
Proof.
  intros [Hl Hc] Hi. unfold Dense.well_shaped in Hc.
  rewrite Forall_forall in Hc. apply Hc. apply nth_In. lia.
Qed.

Lemma has_shape3_mask_positions (samples positions width : nat) (m : mat)
    (x : cube) :
  has_shape samples positions m ->
  Attend.has_shape3 samples positions width x ->
  Attend.has_shape3 samples positions width (AttLSTMCond.mask_positions m x).
Proof.
  intros [Hm Hmr] [Hx Hxs]. unfold AttLSTMCond.mask_positions. split.
  - rewrite length_map2, Hm, Hx. apply Nat.min_id.
  - unfold Dense.well_shaped.
    apply (Forall_map2 _ (fun mrow : vec => length mrow = positions)
             (fun sample : mat =>
                length sample = positions
                /\ Forall (fun v : vec => length v = width) sample));
      [|assumption|assumption].
    intros mrow sample Hmrow [Hs Hv]. split.
    + rewrite length_map2, Hmrow, Hs. apply Nat.min_id.
    + apply (Forall_map2 _ (fun _ : R => True)
               (fun v : vec => length v = width));
        [|apply Forall_forall; auto|exact Hv].
      intros a v _ Hlen. unfold vscale. rewrite length_map. exact Hlen.
Qed.

Lemma has_shape3_add_to_positions (samples positions width : nat) (x : cube)
    (p : mat) :
  Attend.has_shape3 samples positions width x ->
  has_shape samples width p ->
  Attend.has_shape3 samples positions width
                    (AttLSTMCond.add_to_positions x p).
Proof.
  intros [Hx Hxs] [Hp Hpr]. unfold AttLSTMCond.add_to_positions. split.
  - rewrite length_map2, Hp, Hx. apply Nat.min_id.
  - unfold Dense.well_shaped.
    apply (Forall_map2 _
             (fun sample : mat =>
                length sample = positions
                /\ Forall (fun v : vec => length v = width) sample)
             (fun pv : vec => length pv = width));
      [|assumption|assumption].
    intros sample pv [Hs Hv] Hpv. split.
    + rewrite length_map. exact Hs.
    + rewrite Forall_map. eapply Forall_impl; [|exact Hv].
      intros v Hlen. cbv beta. unfold vadd.
      rewrite length_map2, Hlen, Hpv. apply Nat.min_id.
Qed.

Lemma has_shape3_map (f : R -> R) (samples positions width : nat)
    (x : cube) :
  Attend.has_shape3 samples positions width x ->
  Attend.has_shape3 samples positions width (map (map (map f)) x).
Proof.
  intros [Hx Hxs]. split; [rewrite length_map; exact Hx|].
  unfold Dense.well_shaped. rewrite Forall_map.
  eapply Forall_impl; [|exact Hxs].
  intros sample [Hs Hv]. cbv beta. split; [rewrite length_map; exact Hs|].
  rewrite Forall_map. eapply Forall_impl; [|exact Hv].
  intros v Hlen. cbv beta. rewrite length_map. exact Hlen.
Qed.

Lemma has_shape_dot31 (samples positions width : nat) (x : cube) (w : vec) :
  Attend.has_shape3 samples positions width x ->
  has_shape samples positions (K.dot31 x w).
Proof.
  intros [Hx Hxs]. unfold K.dot31. split; [rewrite length_map; exact Hx|].
  rewrite Forall_map. eapply Forall_impl; [|exact Hxs].
  intros sample [Hs _]. cbv beta. rewrite length_map. exact Hs.
Qed.

Lemma has_shape_softmax (rows width : nat) (e : mat) :
  has_shape rows width e -> has_shape rows width (K.softmax e).
Proof.
  intros [Hl Hr]. unfold K.softmax. split; [rewrite length_map; exact Hl|].
  rewrite Forall_map. eapply Forall_impl; [|exact Hr].
  intros row Hrow. cbv beta. unfold K.softmax_row. rewrite length_map.
  exact Hrow.
Qed.

Lemma has_shape3_weigh_positions (samples positions width : nat)
    (context : cube) (alphas : mat) :
  Attend.has_shape3 samples positions width context ->
  has_shape samples positions alphas ->
  Attend.has_shape3 samples positions width
                    (AttLSTMCond.weigh_positions context alphas).
Proof.
  intros [Hx Hxs] [Ha Har]. unfold AttLSTMCond.weigh_positions. split.
  - rewrite length_map2, Ha, Hx. apply Nat.min_id.
  - unfold Dense.well_shaped.
    apply (Forall_map2 _
             (fun sample : mat =>
                length sample = positions
                /\ Forall (fun v : vec => length v = width) sample)
             (fun arow : vec => length arow = positions));
      [|assumption|assumption].
    intros sample arow [Hs Hv] Harow. split.
    + rewrite length_map2, Harow, Hs. apply Nat.min_id.
    + apply (Forall_map2 _ (fun v : vec => length v = width)
               (fun _ : R => True));
        [|exact Hv|apply Forall_forall; auto].
      intros v a Hlen _. rewrite length_map. exact Hlen.
Qed.

Lemma has_shape_sum_positions (samples positions width : nat) (x : cube) :
  0 < positions ->
  Attend.has_shape3 samples positions width x ->
  has_shape samples width (AttLSTMCond.sum_positions x).
Proof.
  intros Hpos [Hx Hxs]. unfold AttLSTMCond.sum_positions.
  split; [rewrite length_map; exact Hx|].
  rewrite Forall_map. eapply Forall_impl; [|exact Hxs].
  intros sample [Hs Hv]. cbv beta. rewrite length_map, length_seq.
  destruct sample as [|v sample]; [simpl in Hs; lia|].
  apply Forall_inv in Hv. exact Hv.
Qed.

(** *** The scores *)

Lemma plain_scores (self : AttLSTMCond.t) (pc : cube) (ps : mat) (bca : vec)
    (samples positions att_units : nat) :
  Attend.has_shape3 samples positions att_units pc ->
  has_shape samples att_units ps ->
  length bca = positions ->
  let e0 :=
    K.bias_add
      (K.dot31 (map (map (map tanh)) (AttLSTMCond.add_to_positions pc ps))
               (AttLSTMCond.attention_context_wa self))
      bca in
  has_shape samples positions e0
  /\ forall i j,
       i < samples -> j < positions ->
       nth j (nth i e0 []) 0%R
       = Attend.score self (nth j (nth i pc []) []) (nth i ps [])
                      (nth j bca 0%R).
Proof.
  intros Hpc Hps Hbca e0.
  pose proof (has_shape3_add_to_positions _ _ _ pc ps Hpc Hps) as HX.
  pose proof (has_shape3_map tanh _ _ _ _ HX) as HT.
  pose proof (has_shape_dot31 _ _ _ _ (AttLSTMCond.attention_context_wa self)
                HT) as HD.
  split; [apply has_shape_bias_add; assumption|].
  intros i j Hi Hj. subst e0. unfold K.bias_add.
  rewrite (nth_map_in _ _ i [] []) by (destruct HD as [-> _]; exact Hi).
  unfold vadd.
  rewrite (nth_map2 Rplus _ _ j 0%R 0%R 0%R)
    by (rewrite ?(row_length _ _ _ i HD Hi), ?Hbca; exact Hj).
  unfold Attend.score. f_equal.
  unfold K.dot31.
  rewrite (nth_map_in _ _ i [] []) by (destruct HT as [-> _]; exact Hi).
  pose proof (sample_shape _ _ _ _ i HT Hi) as [HTi _].
  rewrite (nth_map_in _ _ j 0%R []) by (rewrite HTi; exact Hj).
  f_equal.
  rewrite (nth_map_in _ _ i [] []) by (destruct HX as [-> _]; exact Hi).
  pose proof (sample_shape _ _ _ _ i HX Hi) as [HXi _].
  rewrite (nth_map_in _ _ j [] []) by (rewrite HXi; exact Hj).
  f_equal.
  unfold AttLSTMCond.add_to_positions.
  rewrite (nth_map2 _ _ _ i [] [] [])
    by (first [destruct Hpc as [-> _] | destruct Hps as [-> _]]; exact Hi).
  pose proof (sample_shape _ _ _ _ i Hpc Hi) as [Hpci _].
  rewrite (nth_map_in _ _ j [] []) by (rewrite Hpci; exact Hj).
  reflexivity.
Qed.

Lemma scores_written_out (self : AttLSTMCond.t) (h : mat) (a0 : tensor)
    (pctx_ : cube) (mask_context : tensor) (bca : vec)
    (samples positions att_units : nat) :
  (0 < AttLSTMCond.units self) ->
  has_shape (AttLSTMCond.units self) att_units
            (AttLSTMCond.attention_recurrent_kernel self) ->
  AttLSTMCond.bias_ca self = Some bca ->
  length bca = positions ->
  has_shape samples (AttLSTMCond.units self) h ->
  Gates.mask_for samples (AttLSTMCond.units self) a0 ->
  Attend.has_shape3 samples positions att_units pctx_ ->
  Attend.mask_fits samples positions mask_context ->
  exists mask e,
    AttLSTMCond.context_mask mask_context = Ok mask
    /\ AttLSTMCond.scores self h a0 pctx_ mask = Ok e
    /\ has_shape samples positions e
    /\ forall i j,
         i < samples -> j < positions ->
         entry e i j
         = Some (Attend.score_at self h a0 pctx_ mask_context bca i j).
Proof.
  intros Hu Hark Hca Hbca Hh Ha0 Hpctx Hmask.
  assert (Hps : has_shape samples att_units
                          (Attend.projected_state self h a0)).
  { unfold Attend.projected_state.
    apply (has_shape_product samples (AttLSTMCond.units self));
      try assumption.
    apply has_shape_masked; assumption. }
  unfold AttLSTMCond.scores.
  rewrite (times_masked _ _ h a0 Ha0), Hca. cbn [Py.bind plus_bias].
  fold (Attend.projected_state self h a0).
  destruct mask_context as [v|v|m|c]; cbn [Attend.mask_fits] in Hmask;
    try contradiction.
  - destruct (plain_scores self pctx_ _ bca _ _ _ Hpctx Hps Hbca)
      as [He0 Hentries].
    eexists; eexists. split; [reflexivity|]. split; [reflexivity|].
    split; [exact He0|]. intros i j Hi Hj.
    rewrite (entry_nth _ _ _ i j He0 Hi Hj), (Hentries i j Hi Hj).
    reflexivity.
  - destruct (plain_scores self pctx_ _ bca _ _ _ Hpctx Hps Hbca)
      as [He0 Hentries].
    eexists; eexists. split; [reflexivity|]. split; [reflexivity|].
    split; [exact He0|]. intros i j Hi Hj.
    rewrite (entry_nth _ _ _ i j He0 Hi Hj), (Hentries i j Hi Hj).
    reflexivity.
  - pose proof (has_shape3_mask_positions _ _ _ m pctx_ Hmask Hpctx) as Hpm.
    destruct (plain_scores self _ _ bca _ _ _ Hpm Hps Hbca)
      as [He0 Hentries].
    eexists; eexists. split; [reflexivity|]. split; [reflexivity|].
    assert (He : has_shape samples positions
                   (mmul m
                      (K.bias_add
                         (K.dot31
                            (map (map (map tanh))
                               (AttLSTMCond.add_to_positions
                                  (AttLSTMCond.mask_positions m pctx_)
                                  (Attend.projected_state self h a0)))
                            (AttLSTMCond.attention_context_wa self))
                         bca)))
      by (apply has_shape_mmul; assumption).
    split; [exact He|]. intros i j Hi Hj.
    rewrite (entry_nth _ _ _ i j He Hi Hj). f_equal.
    unfold mmul.
    rewrite (nth_map2 _ _ _ i [] [] [])
      by (first [destruct Hmask as [-> _] | destruct He0 as [-> _]];
          exact Hi).
    unfold vmul.
    rewrite (nth_map2 Rmult _ _ j 0%R 0%R 0%R)
      by (rewrite ?(row_length _ _ _ i Hmask Hi),
            ?(row_length _ _ _ i He0 Hi); exact Hj).
    rewrite (Hentries i j Hi Hj).
    unfold Attend.score_at. f_equal. f_equal.
    unfold AttLSTMCond.mask_positions.
    rewrite (nth_map2 _ _ _ i [] [] [])
      by (first [destruct Hmask as [-> _] | destruct Hpctx as [-> _]];
          exact Hi).
    pose proof (sample_shape _ _ _ _ i Hpctx Hi) as [Hpi _].
    rewrite (nth_map2 vscale _ _ j [] 0%R [])
      by (rewrite ?(row_length _ _ _ i Hmask Hi), ?Hpi; exact Hj).
    reflexivity.
Qed.

(** *** C2: the weights and the context vector of the attention step *)

Lemma softmax_rows (samples positions : nat) (e : mat) (i : nat) :
  0 < positions -> has_shape samples positions e -> i < samples ->
  let arow := nth i (K.softmax e) [] in
  length arow = positions
  /\ (forall a, In a arow -> (0 <= a <= 1)%R)
  /\ Rsum arow = 1%R.
Proof.
  intros Hpos He Hi arow.
  pose proof (row_length _ _ _ i (has_shape_softmax _ _ _ He) Hi) as Hlen.
  split; [exact Hlen|].
  subst arow. unfold K.softmax in *.
  rewrite (nth_map_in _ _ i [] []) in * by (destruct He as [-> _]; exact Hi).
  split.
  - intros a Ha. apply softmax_row_range in Ha. lra.
  - apply softmax_row_sum. intros Hnil.
    unfold K.softmax_row in Hlen. rewrite Hnil in Hlen. simpl in Hlen. lia.
Qed.

Lemma context_vectors_written_out (samples positions context_dim : nat)
    (context : cube) (alphas : mat) :
  0 < positions ->
  Attend.has_shape3 samples positions context_dim context ->
  has_shape samples positions alphas ->
  let ctx_ :=
    AttLSTMCond.sum_positions (AttLSTMCond.weigh_positions context alphas) in
  has_shape samples context_dim ctx_
  /\ forall i k,
       i < samples -> k < context_dim ->
       entry ctx_ i k
       = Some (AttLSTMCond.weighted_sum (nth i alphas []) (nth i context [])
                                        k).
Proof.
  intros Hpos Hc Ha ctx_.
  assert (Hctx : has_shape samples context_dim ctx_).
  { apply (has_shape_sum_positions samples positions); [exact Hpos|].
    apply has_shape3_weigh_positions; assumption. }
  split; [exact Hctx|].
  intros i k Hi Hk.
  destruct (entry_in_shape _ _ _ i k Hctx Hi Hk) as [v Ev].
  rewrite Ev. f_equal.
  destruct (context_vector_entry context alphas i k v Ev)
    as (sample & arow & Es & Er & ->).
  rewrite (nth_error_nth _ _ [] Es), (nth_error_nth _ _ [] Er).
  reflexivity.
Qed.

Lemma has_shape3_masked_context (samples positions width : nat)
    (mask_context : tensor) (context : cube) :
  Attend.mask_fits samples positions mask_context ->
  Attend.has_shape3 samples positions width context ->
  Attend.has_shape3 samples positions width
                    (Attend.masked_context mask_context context).
Proof.
  destruct mask_context; cbn; intros Hm Hc; try assumption.
  apply has_shape3_mask_positions; assumption.
Qed.

Lemma attention_step_on_shapes (self : AttLSTMCond.t) (x h c : mat)
    (s2 s3 : pyobj) (d0 r0 a0 mask_context : tensor) (dl rl al : list tensor)
    (pctx_ context : cube)
    (samples positions att_units context_dim : nat) :
  Attend.built self context_dim att_units positions ->
  has_shape samples (AttLSTMCond.units self) h ->
  Gates.mask_for samples context_dim d0 ->
  Gates.mask_for samples (AttLSTMCond.units self) r0 ->
  Gates.mask_for samples (AttLSTMCond.units self) a0 ->
  Attend.has_shape3 samples positions att_units pctx_ ->
  Attend.has_shape3 samples positions context_dim context ->
  Attend.mask_fits samples positions mask_context ->
  exists (h' c' e : mat) (bca : vec),
    AttLSTMCond.bias_ca self = Some bca
    /\ AttLSTMCond.step self x
         [Tensor (T2 h); Tensor (T2 c); s2; s3;
          PyList (d0 :: dl); PyList (r0 :: rl); PyList (a0 :: al);
          Tensor (T3 pctx_); Tensor (T3 context); Tensor mask_context]
       = Ok (h', [Tensor (T2 h'); Tensor (T2 c');
                  Tensor (T2 (AttLSTMCond.sum_positions
                                (AttLSTMCond.weigh_positions
                                   (Attend.masked_context mask_context
                                                          context)
                                   (K.softmax e))));
                  Tensor (T2 (K.softmax e))])
    /\ has_shape samples positions e
    /\ forall i j,
         i < samples -> j < positions ->
         entry e i j
         = Some (Attend.score_at self h a0 pctx_ mask_context bca i j).
Proof.
  intros Hbuilt Hh Hd0 Hr0 Ha0 Hpctx Hcontext Hmask.
  destruct Hbuilt as (HDc & HA & HP & Hu & Hk & Hrk & Hark & Hwa
                      & (bca & Hca & Hbca) & Hbias).
  destruct (scores_written_out self h a0 pctx_ mask_context bca samples
              positions att_units Hu Hark Hca Hbca Hh Ha0 Hpctx Hmask)
    as (mask & e & Emask & Escores & He & Hentries).
  pose proof (has_shape_softmax _ _ _ He) as Halphas.
  pose proof (has_shape3_masked_context _ _ _ _ _ Hmask Hcontext) as Hmc.
  destruct (context_vectors_written_out samples positions context_dim
              (Attend.masked_context mask_context context) (K.softmax e)
              HP Hmc Halphas) as [Hctx _].
  assert (Emc : match mask with
                | Some m => AttLSTMCond.mask_positions m context
                | None => context
                end = Attend.masked_context mask_context context).
  { destruct mask_context; cbn in Emask; inv Emask; reflexivity. }
  unfold AttLSTMCond.step, AttLSTMCond.attention.
  cbn [item nth_error as_mat as_cube as_tensor Py.bind mask_item].
  rewrite Emask. cbn [Py.bind]. rewrite Escores. cbn [Py.bind].
  rewrite Emc.
  rewrite (times_masked _ _ h r0 Hr0). cbn [Py.bind].
  rewrite (times_masked _ _ _ d0 Hd0). cbn [Py.bind].
  assert (Hb : exists z',
             bias_if (AttLSTMCond.use_bias self)
               (madd
                  (madd x
                     (K.dot (Gates.masked h r0)
                            (AttLSTMCond.recurrent_kernel self)))
                  (K.dot
                     (Gates.masked
                        (AttLSTMCond.sum_positions
                           (AttLSTMCond.weigh_positions
                              (Attend.masked_context mask_context context)
                              (K.softmax e))) d0)
                     (AttLSTMCond.kernel self)))
               (AttLSTMCond.bias self) = Ok z').
  { unfold bias_if. destruct (AttLSTMCond.use_bias self); [|eauto].
    destruct (Hbias eq_refl) as (b & -> & _). cbn [plus_bias]. eauto. }
  destruct Hb as [z' ->]. cbn [Py.bind].
  do 3 eexists. exists bca.
  split; [exact Hca|]. split; [reflexivity|].
  split; [exact He|exact Hentries].
Qed.

(** C2.  On operands of the shapes the layer gives them (an input of shape
    [(samples, 4 * units)], states of shape [(samples, units)], a projected
    context and a context of [positions] positions for every sample, a mask
    of shape [(samples, positions)] or none, weights as [build] creates
    them, dropout constants that are the scalar 1 or masks of the shape of
    what they multiply), the attention step returns, and among its new
    states are one context vector [ctx_] and one row of weights [alphas] per
    sample.  The weights are the softmax of the scores [e], where the score
    of a position is [wa . tanh(pctx + (h * mask) . Wa) + ca], computed from
    the previous hidden state and the projected context of the position;
    the weights of a sample lie in [[0, 1]] and sum to 1; and every
    component of the context vector of a sample is the sum over the
    positions [j] of the context sequence of [alpha_j] times that component
    of the (masked) context at [j]. *)
Theorem attention_context_vector :
  forall (self : AttLSTMCond.t) (x h c : mat) (s2 s3 : pyobj)
         (d0 r0 a0 mask_context : tensor) (dl rl al : list tensor)
         (pctx_ context : cube)
         (samples positions att_units context_dim : nat),
    Attend.built self context_dim att_units positions ->
    Gates.keeps_shape (AttLSTMCond.activation self) samples
                      (AttLSTMCond.units self) ->
    Gates.keeps_shape (AttLSTMCond.recurrent_activation self) samples
                      (AttLSTMCond.units self) ->
    has_shape samples (4 * AttLSTMCond.units self) x ->
    has_shape samples (AttLSTMCond.units self) h ->
    has_shape samples (AttLSTMCond.units self) c ->
    Gates.mask_for samples context_dim d0 ->
    Gates.mask_for samples (AttLSTMCond.units self) r0 ->
    Gates.mask_for samples (AttLSTMCond.units self) a0 ->
    Attend.has_shape3 samples positions att_units pctx_ ->
    Attend.has_shape3 samples positions context_dim context ->
    Attend.mask_fits samples positions mask_context ->
    exists (h' c' ctx_ e : mat) (bca : vec),
      AttLSTMCond.bias_ca self = Some bca
      /\ AttLSTMCond.step self x
           [Tensor (T2 h); Tensor (T2 c); s2; s3;
            PyList (d0 :: dl); PyList (r0 :: rl); PyList (a0 :: al);
            Tensor (T3 pctx_); Tensor (T3 context); Tensor mask_context]
         = Ok (h', [Tensor (T2 h'); Tensor (T2 c'); Tensor (T2 ctx_);
                    Tensor (T2 (K.softmax e))])
      /\ has_shape samples positions e
      /\ (forall i j,
             i < samples -> j < positions ->
             entry e i j
             = Some (Attend.score_at self h a0 pctx_ mask_context bca i j))
      /\ has_shape samples positions (K.softmax e)
      /\ has_shape samples context_dim ctx_
      /\ forall i,
           i < samples ->
           let arow := nth i (K.softmax e) [] in
           let sample :=
             nth i (Attend.masked_context mask_context context) [] in
           length arow = positions
           /\ length sample = positions
           /\ (forall a, In a arow -> (0 <= a <= 1)%R)
           /\ Rsum arow = 1%R
           /\ forall k,
                k < context_dim ->
                entry ctx_ i k
                = Some (AttLSTMCond.weighted_sum arow sample k).
Proof.
  intros self x h c s2 s3 d0 r0 a0 mask_context dl rl al pctx_ context
         samples positions att_units context_dim
         Hbuilt Hact Hract Hx Hh Hc Hd0 Hr0 Ha0 Hpctx Hcontext Hmask.
  destruct (attention_step_on_shapes self x h c s2 s3 d0 r0 a0 mask_context
              dl rl al pctx_ context samples positions att_units context_dim
              Hbuilt Hh Hd0 Hr0 Ha0 Hpctx Hcontext Hmask)
    as (h' & c' & e & bca & Hca & Estep & He & Hentries).
  assert (HP : 0 < positions) by (destruct Hbuilt as (_ & _ & HP & _); exact HP).
  pose proof (has_shape_softmax _ _ _ He) as Halphas.
  pose proof (has_shape3_masked_context _ _ _ _ _ Hmask Hcontext) as Hmc.
  destruct (context_vectors_written_out samples positions context_dim
              (Attend.masked_context mask_context context) (K.softmax e)
              HP Hmc Halphas) as [Hctx Hctx_entries].
  exists h', c'.
  exists (AttLSTMCond.sum_positions
            (AttLSTMCond.weigh_positions
               (Attend.masked_context mask_context context) (K.softmax e))).
  exists e, bca.
  split; [exact Hca|]. split; [exact Estep|].
  split; [exact He|]. split; [exact Hentries|].
  split; [exact Halphas|]. split; [exact Hctx|].
  intros i Hi. cbv zeta.
  destruct (softmax_rows samples positions e i HP He Hi)
    as (Hlen & Hrange & Hsum).
  split; [exact Hlen|].
  split; [apply (sample_shape _ _ _ _ i Hmc Hi)|].
  split; [exact Hrange|]. split; [exact Hsum|].
  intros k Hlt. apply Hctx_entries; assumption.
Qed.

(** The theorem on a step of the sample attention layer over a context of
    two positions, the second of them padding. *)
Lemma attention_context_vector_witness :
  exists (h' c' ctx_ e : mat) (bca : vec),
    AttLSTMCond.bias_ca Examples.att = Some bca
    /\ AttLSTMCond.step Examples.att [[0%R; 0%R; 0%R; 0%R]]
         (Examples.att_states [[[1%R]; [2%R]]] [[[1%R; 2%R]; [7%R; 7%R]]])
       = Ok (h', [Tensor (T2 h'); Tensor (T2 c'); Tensor (T2 ctx_);
                  Tensor (T2 (K.softmax e))])
    /\ has_shape 1 2 e
    /\ (forall i j,
           i < 1 -> j < 2 ->
           entry e i j
           = Some (Attend.score_at Examples.att [[0%R]] Constants.one
                                   [[[1%R]; [2%R]]] (T2 [[1%R; 0%R]]) bca
                                   i j))
    /\ has_shape 1 2 (K.softmax e)
    /\ has_shape 1 2 ctx_
    /\ forall i,
         i < 1 ->
         let arow := nth i (K.softmax e) [] in
         let sample :=
           nth i (Attend.masked_context (T2 [[1%R; 0%R]])
                                        [[[1%R; 2%R]; [7%R; 7%R]]]) [] in
         length arow = 2
         /\ length sample = 2
         /\ (forall a, In a arow -> (0 <= a <= 1)%R)
         /\ Rsum arow = 1%R
         /\ forall k,
              k < 2 ->
              entry ctx_ i k = Some (AttLSTMCond.weighted_sum arow sample k).
Proof.
  assert (Hkeep : Gates.keeps_shape (fun m : mat => m) 1 1)
    by (intros m Hm; exact Hm).
  apply (attention_context_vector Examples.att [[0%R; 0%R; 0%R; 0%R]]
           [[0%R]] [[0%R]] (Tensor (T2 [[0%R; 0%R]]))
           (Tensor (T2 [[0%R; 0%R]]))
           Constants.one Constants.one Constants.one (T2 [[1%R; 0%R]])
           (repeat Constants.one 3) (repeat Constants.one 3) []
           [[[1%R]; [2%R]]] [[[1%R; 2%R]; [7%R; 7%R]]] 1 2 1 2).
  - unfold Attend.built. simpl.
    split; [lia|]. split; [lia|]. split; [lia|]. split; [lia|].
    split; [split; [reflexivity|repeat constructor]|].
    split; [split; [reflexivity|repeat constructor]|].
    split; [split; [reflexivity|repeat constructor]|].
    split; [reflexivity|].
    split; [exists [0%R; 0%R]; split; reflexivity|].
    intros _. exists [0%R; 0%R; 0%R; 0%R]. split; reflexivity.
  - exact Hkeep.
  - exact Hkeep.
  - split; [reflexivity|repeat constructor].
  - split; [reflexivity|repeat constructor].
  - split; [reflexivity|repeat constructor].
  - exact I.
  - exact I.
  - exact I.
  - split; [reflexivity|repeat constructor].
  - split; [reflexivity|repeat constructor].
  - split; [reflexivity|repeat constructor].
Defined.

(** *** The first step of [AttLSTMCond] *)

Lemma dropout_masks_for (n : nat) (rows width : nat) (ones_ : mat)
    (level : R) (training : option bool) :
  has_shape rows width ones_ ->
  forall s,
    Forall (Gates.mask_for rows width)
           (fst (Constants.dropout_masks n s ones_ level training))
    /\ length (fst (Constants.dropout_masks n s ones_ level training)) = n.
Proof.
  intros Hones. induction n as [|n IH]; intros s.
  - split; [constructor|reflexivity].
  - cbn [Constants.dropout_masks].
    unfold Constants.dropout_mask, K.in_train_phase.
    assert (Hm : exists m s1,
               (if K.training_now s training
                then K.dropout s ones_ level else (ones_, s)) = (m, s1)
               /\ has_shape rows width m).
    { destruct (K.training_now s training).
      - destruct Hones as [Hl Hr].
        destruct (dropout_rows s ones_ level width Hr) as [Hl' Hr'].
        destruct (K.dropout s ones_ level) as [m s1]. cbn [fst] in *.
        exists m, s1. split; [reflexivity|]. split; [lia|exact Hr'].
      - exists ones_, s. split; [reflexivity|exact Hones]. }
    destruct Hm as (m & s1 & -> & Hm).
    destruct (IH s1) as [HF HL].
    destruct (Constants.dropout_masks n s1 ones_ level training) as [ms s2].
    cbn [fst] in *. split; [|simpl; rewrite HL; reflexivity].
    constructor; [exact Hm|exact HF].
Qed.

Lemma masks_of_ones (n rows width : nat) :
  Forall (Gates.mask_for rows width) (repeat Constants.one n)
  /\ length (repeat Constants.one n) = n.
Proof.
  split; [|apply repeat_length].
  apply Forall_forall. intros t Ht. apply repeat_spec in Ht. subst t.
  exact I.
Qed.

Lemma first_mask (n rows width : nat) (l : list tensor) :
  Forall (Gates.mask_for rows width) l /\ length l = S n ->
  exists m0 ml, l = m0 :: ml /\ Gates.mask_for rows width m0.
Proof.
  intros [HF HL]. destruct l as [|m0 ml]; [discriminate HL|].
  exists m0, ml. split; [reflexivity|]. apply Forall_inv in HF. exact HF.
Qed.

Lemma has_shape3_dot32 (samples positions inner width : nat) (c : cube)
    (w : mat) :
  0 < inner ->
  Attend.has_shape3 samples positions inner c ->
  has_shape inner width w ->
  Attend.has_shape3 samples positions width (Attention.dot32 c w).
Proof.
  intros Hpos [Hl Hc] Hw. unfold Attention.dot32.
  split; [rewrite length_map; exact Hl|].
  unfold Dense.well_shaped in *. rewrite Forall_map.
  eapply Forall_impl; [|exact Hc].
  intros sample Hs. cbv beta.
  apply (has_shape_product positions inner width); assumption.
Qed.

Lemma has_shape3_bias_add3 (samples positions width : nat) (c : cube)
    (b : vec) :
  Attend.has_shape3 samples positions width c ->
  length b = width ->
  Attend.has_shape3 samples positions width (Attention.bias_add3 c b).
Proof.
  intros [Hl Hc] Hb. unfold Attention.bias_add3.
  split; [rewrite length_map; exact Hl|].
  unfold Dense.well_shaped in *. rewrite Forall_map.
  eapply Forall_impl; [|exact Hc].
  intros sample Hs. cbv beta. apply has_shape_bias_add; assumption.
Qed.

Lemma has_shape3_cmul (samples positions width : nat) (a b : cube) :
  Attend.has_shape3 samples positions width a ->
  Attend.has_shape3 samples positions width b ->
  Attend.has_shape3 samples positions width (cmul a b).
Proof.
  intros [Ha Has] [Hb Hbs]. unfold cmul. split.
  - rewrite length_map2, Ha, Hb. apply Nat.min_id.
  - unfold Dense.well_shaped in *.
    apply (Forall_map2 _ (has_shape positions width)
             (has_shape positions width)); [|assumption|assumption].
    intros x y Hx Hy. apply has_shape_mmul; assumption.
Qed.

Lemma has_shape3_ones (samples positions width : nat) (c : cube)
    (dim : nat) :
  Attend.has_shape3 samples positions width c ->
  Attend.has_shape3 samples positions dim
                    (map (map (fun _ : vec => repeat 1%R dim)) c).
Proof.
  intros [Hl Hc]. split; [rewrite length_map; exact Hl|].
  unfold Dense.well_shaped in *. rewrite Forall_map.
  eapply Forall_impl; [|exact Hc].
  intros sample [Hs _]. cbv beta. split; [rewrite length_map; exact Hs|].
  rewrite Forall_map. apply Forall_forall. intros v _. apply repeat_length.
Qed.

Lemma has_shape3_dropout3 (samples positions width : nat) (s : K.session)
    (c : cube) (level : R) :
  Attend.has_shape3 samples positions width c ->
  Attend.has_shape3 samples positions width
                    (fst (Attention.dropout3 s c level)).
Proof.
  intros [Hl Hc]. unfold Attention.dropout3, K.indexed. cbn [fst].
  split.
  - rewrite length_map, length_combine, length_seq, Hl. apply Nat.min_id.
  - unfold Dense.well_shaped in *. rewrite Forall_map.
    apply Forall_forall. intros [i sample] Hin.
    apply in_combine_r in Hin. rewrite Forall_forall in Hc.
    destruct (Hc sample Hin) as [Hs Hv]. cbn [snd fst]. split.
    + rewrite length_map, length_combine, length_seq, Hs. apply Nat.min_id.
    + rewrite Forall_map. apply Forall_forall. intros [j v] Hjn.
      apply in_combine_r in Hjn. rewrite Forall_forall in Hv.
      cbn [snd fst].
      rewrite length_map, length_combine, length_seq, (Hv v Hjn).
      apply Nat.min_id.
Qed.

Lemma has_shape_context_mask (samples positions width : nat) (c : cube)
    (v : R) :
  Attend.has_shape3 samples positions width c ->
  has_shape samples positions
            (Attention.not_equal (Attention.sum_axis_2 c) v).
Proof.
  intros [Hl Hc]. unfold Attention.not_equal. apply has_shape_mmap.
  unfold Attention.sum_axis_2. split; [rewrite length_map; exact Hl|].
  rewrite Forall_map. eapply Forall_impl; [|exact Hc].
  intros sample [Hs _]. cbv beta. rewrite length_map. exact Hs.
Qed.

Section AttentionConstants.

Variable self : Attention.t.
Variables samples positions att_units : nat.
Variable inputs : K.ktensor.

Let u := AttLSTMCond.units (Attention.cell self).
Let dim := Attention.context_dim self.

Hypothesis Hbuilt : Attend.built (Attention.cell self) dim att_units positions.
Hypothesis Hkernel :
  has_shape dim att_units (Attention.attention_context_kernel self).
Hypothesis Hba :
  AttLSTMCond.use_bias (Attention.cell self) = true ->
  exists b, Attention.bias_ba self = Some b /\ length b = att_units.
Hypothesis Hsamples : 0 < samples.
Hypothesis Hinputs : n_samples (K.value inputs) = samples.
Hypothesis Hcontext :
  Attend.has_shape3 samples positions dim (Attention.context self).

Lemma attention_context_n_dim : n_dim (Attention.context self) = dim.
Proof.
  destruct Hbuilt as (_ & _ & HP & _). destruct Hcontext as [Hl Hc].
  apply (well_shaped_n_dim positions dim); try assumption.
  intros E. rewrite E in Hl. simpl in Hl. lia.
Qed.

Lemma attention_constants_on_shapes (s : K.session)
    (mask_context : option tensor) (training : option bool) :
  Attend.mask_arg_fits samples positions mask_context ->
  exists d0 dl r0 rl a0 al pctx mask s',
    Attention.get_constants self s inputs mask_context training
    = (Ok [PyList (d0 :: dl); PyList (r0 :: rl); PyList (a0 :: al);
           Tensor (T3 pctx); Tensor (T3 (Attention.context self));
           Tensor mask], s')
    /\ Gates.mask_for samples dim d0
    /\ Gates.mask_for samples u r0
    /\ Gates.mask_for samples u a0
    /\ Attend.has_shape3 samples positions att_units pctx
    /\ Attend.mask_fits samples positions mask.
Proof.
  intros Hmask. unfold Attention.get_constants.
  rewrite attention_context_n_dim. fold dim. fold u.
  rewrite !ones_mask_ones, Hinputs. unfold Attention.units. fold u.
  set (dp := if in_unit_interval (Attention.dropout self) then _ else _).
  assert (Hdp : exists d0 dl, fst dp = d0 :: dl
                              /\ Gates.mask_for samples dim d0).
  { apply (first_mask 3). subst dp.
    destruct (in_unit_interval (Attention.dropout self));
      [apply dropout_masks_for; apply has_shape_ones|apply masks_of_ones]. }
  destruct dp as [dp s1]. cbn [fst] in Hdp.
  destruct Hdp as (d0 & dl & -> & Hd0).
  set (rdp := if in_unit_interval (Attention.recurrent_dropout self)
              then _ else _).
  assert (Hrdp : exists r0 rl, fst rdp = r0 :: rl
                               /\ Gates.mask_for samples u r0).
  { apply (first_mask 3). subst rdp.
    destruct (in_unit_interval (Attention.recurrent_dropout self));
      [apply dropout_masks_for; apply has_shape_ones|apply masks_of_ones]. }
  destruct rdp as [rdp s2]. cbn [fst] in Hrdp.
  destruct Hrdp as (r0 & rl & -> & Hr0).
  set (adp := if in_unit_interval (Attention.attention_dropout self)
              then Constants.dropout_masks _ _ _ _ _ else _).
  assert (Hadp : exists a0 al, fst adp = a0 :: al
                               /\ Gates.mask_for samples u a0).
  { apply (first_mask 0). subst adp.
    destruct (in_unit_interval (Attention.attention_dropout self));
      [apply dropout_masks_for; apply has_shape_ones|apply masks_of_ones]. }
  destruct adp as [adp s3]. cbn [fst] in Hadp.
  destruct Hadp as (a0 & al & -> & Ha0).
  set (p := if in_unit_interval (Attention.attention_dropout self)
            then _ else _).
  assert (Hp : Attend.has_shape3 samples positions att_units (fst p)).
  { destruct Hbuilt as (HDc & _).
    subst p. destruct (in_unit_interval (Attention.attention_dropout self)).
    - pose proof (has_shape3_ones _ _ _ _ dim Hcontext) as Hones.
      pose proof (has_shape3_dropout3 _ _ _ s3 _
                    (Attention.attention_dropout self) Hones) as Hdrop.
      destruct (Attention.dropout3 s3 _ (Attention.attention_dropout self))
        as [dropped s4].
      cbn [fst] in *.
      apply (has_shape3_dot32 samples positions dim); try assumption.
      apply has_shape3_cmul; [exact Hcontext|].
      unfold K.in_train_phase_value.
      destruct (K.training_now s4 None); assumption.
    - cbn [fst].
      apply (has_shape3_dot32 samples positions dim); assumption. }
  destruct p as [pctx s4]. cbn [fst] in Hp.
  assert (Hm : Attend.mask_fits samples positions
                 (match mask_context with
                  | None =>
                      T2 (Attention.not_equal
                            (Attention.sum_axis_2 (Attention.context self))
                            (Attention.mask_value self))
                  | Some m => m
                  end)).
  { destruct mask_context as [m|]; [exact Hmask|].
    cbn [Attend.mask_fits].
    apply (has_shape_context_mask samples positions dim). exact Hcontext. }
  destruct (AttLSTMCond.use_bias (Attention.cell self)).
  - destruct (Hba eq_refl) as (b & -> & Hb). cbn [Py.bind].
    do 9 eexists. split; [reflexivity|].
    repeat (split; [assumption|]).
    split; [|exact Hm]. apply has_shape3_bias_add3; assumption.
  - cbn [Py.bind]. do 9 eexists. split; [reflexivity|].
    repeat (split; [assumption|]). exact Hm.
Qed.

Lemma attention_initial_states_on_shapes :
  Attend.state_fits samples u (Attention.init_state self) ->
  Attend.state_fits samples u (Attention.init_memory self) ->
  exists h c x_att alphas,
    Attention.get_initial_states self (K.value inputs)
    = [Tensor (T2 h); Tensor (T2 c); Tensor (T2 x_att); Tensor (T2 alphas)]
    /\ has_shape samples u h
    /\ has_shape samples u c.
Proof.
  unfold Attention.get_initial_states, Attend.state_fits.
  rewrite zero_state_tensor. fold (n_samples (K.value inputs)).
  rewrite Hinputs. unfold Attention.units. fold u.
  pose proof (has_shape_zeros samples u) as Hz.
  destruct (Attention.init_state self) as [[|[| |h'|]|]|];
    destruct (Attention.init_memory self) as [[|[| |c'|]|]|];
    intros Hs Hm; try contradiction; cbn [app];
    do 4 eexists; (split; [reflexivity|]); split; assumption.
Qed.

End AttentionConstants.

(** X19.  For an [AttLSTMCond] that is not stateful and has the weights
    [build] creates with [use_bias], called on a batch of [samples] samples
    whose context has the shape [(samples, positions, context_dim)], the four
    states of [get_initial_states] followed by the six constants of
    [get_constants] are the ten entries its step reads, each of the kind and
    of the shape the step expects: [get_constants] returns, and the first
    step on an input of shape [(samples, 4 * units)] returns an output and
    four new states.  This holds whatever the phase and whatever the dropout
    rates, provided the rate [recurrent_dropout], which [get_constants] hands
    to [K.dropout] for the mask of the attention, is below 1 when
    [0 < attention_dropout < 1]; the initial state and memory passed are of
    shape [(samples, units)] or none, the context mask of shape
    [(samples, positions)], of fewer than two dimensions or computed from
    the context. *)
Theorem attention_first_step_returns :
  forall (self : Attention.t) (s : K.session) (inputs : K.ktensor)
         (mask_context : option tensor) (training : option bool)
         (x : mat) (samples positions att_units : nat),
    Attend.built (Attention.cell self) (Attention.context_dim self)
                 att_units positions ->
    has_shape (Attention.context_dim self) att_units
              (Attention.attention_context_kernel self) ->
    (AttLSTMCond.use_bias (Attention.cell self) = true ->
     exists b, Attention.bias_ba self = Some b /\ length b = att_units) ->
    (in_unit_interval (Attention.attention_dropout self) = true ->
     (0 <= Attention.recurrent_dropout self < 1)%R) ->
    Gates.keeps_shape (AttLSTMCond.activation (Attention.cell self)) samples
                      (Attention.units self) ->
    Gates.keeps_shape (AttLSTMCond.recurrent_activation (Attention.cell self))
                      samples (Attention.units self) ->
    0 < samples ->
    n_samples (K.value inputs) = samples ->
    Attend.has_shape3 samples positions (Attention.context_dim self)
                      (Attention.context self) ->
    Attend.state_fits samples (Attention.units self)
                      (Attention.init_state self) ->
    Attend.state_fits samples (Attention.units self)
                      (Attention.init_memory self) ->
    Attend.mask_arg_fits samples positions mask_context ->
    has_shape samples (4 * Attention.units self) x ->
    exists constants s',
      Attention.get_constants self s inputs mask_context training
      = (Ok constants, s')
      /\ length (Attention.get_initial_states self (K.value inputs)) = 4
      /\ length constants = 6
      /\ exists h' c' ctx_ alphas,
           AttLSTMCond.step (Attention.cell self) x
             (Attention.get_initial_states self (K.value inputs)
              ++ constants)
           = Ok (h', [Tensor (T2 h'); Tensor (T2 c'); Tensor (T2 ctx_);
                      Tensor (T2 alphas)])
           /\ has_shape samples positions alphas.
Proof.
  intros self s inputs mask_context training x samples positions att_units
         Hbuilt Hkernel Hba Hrate Hact Hract Hsamples Hinputs Hcontext
         Hstate Hmemory Hmask Hx.
  destruct (attention_constants_on_shapes self samples positions att_units
              inputs Hbuilt Hkernel Hba Hsamples Hinputs Hcontext s
              mask_context training Hmask)
    as (d0 & dl & r0 & rl & a0 & al & pctx & mask & s' & Ec & Hd0 & Hr0
        & Ha0 & Hpctx & Hm).
  destruct (attention_initial_states_on_shapes self samples inputs Hinputs
              Hstate Hmemory)
    as (h & c & x_att & alphas0 & Ei & Hh & Hc).
  rewrite Ec, Ei. do 2 eexists. split; [reflexivity|].
  split; [reflexivity|]. split; [reflexivity|].
  cbn [app].
  destruct (attention_step_on_shapes (Attention.cell self) x h c
              (Tensor (T2 x_att)) (Tensor (T2 alphas0)) d0 r0 a0 mask
              dl rl al pctx (Attention.context self) samples positions
              att_units (Attention.context_dim self)
              Hbuilt Hh Hd0 Hr0 Ha0 Hpctx Hcontext Hm)
    as (h' & c' & e & bca & _ & Estep & He & _).
  rewrite Estep. do 4 eexists. split; [reflexivity|].
  apply has_shape_softmax. exact He.
Qed.

(** The theorem on a layer over a context of two positions. *)
Lemma attention_first_step_returns_witness :
  exists constants s',
    Attention.get_constants Layers.attention Examples.session0
                            Examples.two_steps None None
    = (Ok constants, s')
    /\ length (Attention.get_initial_states Layers.attention
                 (K.value Examples.two_steps)) = 4
    /\ length constants = 6
    /\ exists h' c' ctx_ alphas,
         AttLSTMCond.step (Attention.cell Layers.attention)
           [[0%R; 0%R; 0%R; 0%R]]
           (Attention.get_initial_states Layers.attention
              (K.value Examples.two_steps) ++ constants)
         = Ok (h', [Tensor (T2 h'); Tensor (T2 c'); Tensor (T2 ctx_);
                    Tensor (T2 alphas)])
         /\ has_shape 1 2 alphas.
Proof.
  assert (Hkeep : Gates.keeps_shape (fun m : mat => m) 1 1)
    by (intros m Hm; exact Hm).
  apply (attention_first_step_returns Layers.attention Examples.session0
           Examples.two_steps None None [[0%R; 0%R; 0%R; 0%R]] 1 2 1).
  - unfold Attend.built. simpl.
    split; [lia|]. split; [lia|]. split; [lia|]. split; [lia|].
    split; [split; [reflexivity|repeat constructor]|].
    split; [split; [reflexivity|repeat constructor]|].
    split; [split; [reflexivity|repeat constructor]|].
    split; [reflexivity|].
    split; [exists [0%R; 0%R]; split; reflexivity|].
    intros _. exists [0%R; 0%R; 0%R; 0%R]. split; reflexivity.
  - split; [reflexivity|repeat constructor].
  - intros _. exists [0%R]. split; reflexivity.
  - simpl. rewrite in_unit_interval_0. discriminate.
  - exact Hkeep.
  - exact Hkeep.
  - lia.
  - reflexivity.
  - split; [reflexivity|repeat constructor].
  - exact I.
  - exact I.
  - exact I.
  - split; [reflexivity|repeat constructor].
Defined.
